(** * The Teacher/Course service: a shallow embedding of [main.py] and [models/]

    The service keeps two insertion-ordered Python dictionaries ([courses] and
    [teachers]) of pydantic models.  Every handler works through three pydantic
    operations, which are modelled here as they are used in the source:

    - [model_dump()] turns an instance into a [dict] keyed by field name;
    - [model_dump(exclude_unset=True)] keeps only the fields that were
      explicitly supplied when the instance was built, recursively;
    - the constructor call on a keyword [dict] validates it field by field,
      calling [default_factory] ([uuid4], [datetime.utcnow], [list]) for the
      fields that [d] does not have.

    A [str] is held as the [string] of its UTF-8 bytes, so that two [str]s
    are equal when the two [string]s are.  The two patterns are matched on the
    code points; their class [\d] is the class of decimal digits of the regular
    expression engine, which the development takes as given. *)

From Stdlib Require Import ZArith NArith String Ascii List Bool Lia.
From stdpp Require Import gmap strings list fin_maps.

Set Warnings "-register-all".
Local Open Scope string_scope.
Local Open Scope Z_scope.

(** ** Values produced outside the program *)

Definition UUID := N.
Definition datetime := Z.

(** [uuid4()] and [datetime.utcnow()] read the outside world.  The world is an
    arbitrary sequence of answers for each of them, and a count of the calls
    made so far. *)
Record World := mkWorld {
  uuid4_values : nat → UUID;
  uuid4_calls : nat;
  utcnow_values : nat → datetime;
  utcnow_calls : nat
}.

Definition uuid4 (w : World) : UUID * World :=
  (uuid4_values w (uuid4_calls w),
   mkWorld (uuid4_values w) (S (uuid4_calls w)) (utcnow_values w) (utcnow_calls w)).

Definition utcnow (w : World) : datetime * World :=
  (utcnow_values w (utcnow_calls w),
   mkWorld (uuid4_values w) (uuid4_calls w) (utcnow_values w) (S (utcnow_calls w))).

(** ** Strings and their code points *)

(** A continuation byte of UTF-8. *)
Definition continuation (b : N) : bool := ((128 <=? b) && (b <=? 191))%N.

(** The code points that a sequence of bytes encodes, [None] when it is not
    UTF-8.  Surrogates are let through, as a [str] can hold them. *)
Fixpoint utf8_decode (bs : list N) : option (list N) :=
  match bs with
  | [] => Some []
  | b0 :: bs1 =>
      if (b0 <? 128)%N then cons b0 <$> utf8_decode bs1
      else
        match bs1 with
        | [] => None
        | b1 :: bs2 =>
            if ((194 <=? b0) && (b0 <=? 223))%N then
              if continuation b1
              then cons ((b0 - 192) * 64 + (b1 - 128))%N <$> utf8_decode bs2
              else None
            else
              match bs2 with
              | [] => None
              | b2 :: bs3 =>
                  if ((224 <=? b0) && (b0 <=? 239))%N then
                    let cp := ((b0 - 224) * 4096 + (b1 - 128) * 64 + (b2 - 128))%N in
                    if (continuation b1 && continuation b2 && (2048 <=? cp)%N)%bool
                    then cons cp <$> utf8_decode bs3
                    else None
                  else
                    match bs3 with
                    | [] => None
                    | b3 :: bs4 =>
                        let cp :=
                          ((b0 - 240) * 262144 + (b1 - 128) * 4096
                           + (b2 - 128) * 64 + (b3 - 128))%N in
                        if ((240 <=? b0)%N && (b0 <=? 244)%N
                            && continuation b1 && continuation b2 && continuation b3
                            && (65536 <=? cp)%N && (cp <=? 1114111)%N)%bool
                        then cons cp <$> utf8_decode bs4
                        else None
                    end
              end
        end
  end.

Definition code_points (s : string) : option (list N) :=
  utf8_decode (map N_of_ascii (list_ascii_of_string s)).

(** ** The two patterns: [^[A-Z]{4}\d{4}$] and [^[a-z]{2,3}\d{1,4}$]

    pydantic matches a [StringConstraints] pattern with the regular
    expression engine of its core, for which [^] and [$] are the two ends of
    the string and the classes are those of Unicode. *)

Definition in_range (lo hi : N) (c : N) : bool := ((lo <=? c) && (c <=? hi))%N.

Definition is_upper : N → bool := in_range 65 90.
Definition is_lower : N → bool := in_range 97 122.

(** The class [\d]: the decimal digits of Unicode (category Nd), as the
    tables of the regular expression engine have them.  Which code points
    these are depends on the version of Unicode that the engine was built
    with, so the class is taken as given. *)
Class Unicode := { is_decimal_digit : N → bool }.

(** One item of a pattern: a character class repeated between [rmin] and
    [rmax] times. *)
Record Repeat := rep { rclass : N → bool; rmin : nat; rmax : nat }.

(** [take_class p n s] consumes exactly [n] code points of class [p]. *)
Fixpoint take_class (p : N → bool) (n : nat) (s : list N) : option (list N) :=
  match n with
  | O => Some s
  | S n' =>
      match s with
      | c :: s' => if p c then take_class p n' s' else None
      | [] => None
      end
  end.

(** Anchored match of a sequence of items against all the code points. *)
Fixpoint fullmatch (re : list Repeat) (s : list N) : bool :=
  match re with
  | [] => match s with [] => true | _ => false end
  | r :: re' =>
      existsb
        (λ k, match take_class (rclass r) k s with
              | Some rest => fullmatch re' rest
              | None => false
              end)
        (seq (rmin r) (S (rmax r) - rmin r))
  end.

(** A [str] matches a pattern when its code points do. *)
Definition str_matches (re : list Repeat) (s : string) : bool :=
  match code_points s with
  | Some cps => fullmatch re cps
  | None => false
  end.

Definition CourseCode `{Unicode} (s : string) : bool :=
  str_matches [rep is_upper 4 4; rep is_decimal_digit 4 4] s.

Definition UNIType `{Unicode} (s : string) : bool :=
  str_matches [rep is_lower 2 3; rep is_decimal_digit 1 4] s.

(** ** Python values held in a dumped model *)

Inductive Value :=
  | VNone
  | VStr (s : string)
  | VInt (n : Z)
  | VUuid (u : UUID)
  | VTime (t : datetime)
  | VList (l : list Value)
  | VDict (d : gmap string Value).

Definition of_opt_str (o : option string) : Value :=
  match o with Some s => VStr s | None => VNone end.

Definition of_opt_int (o : option Z) : Value :=
  match o with Some n => VInt n | None => VNone end.

(** [stored.update(d)]: the keys of [d] win. *)
Definition dict_update (stored d : gmap string Value) : gmap string Value := d ∪ stored.

(** The part of a dump that [exclude_unset=True] keeps. *)
Definition exclude_unset (fields_set : gset string) (d : gmap string Value)
  : gmap string Value :=
  filter (λ kv, kv.1 ∈ fields_set) d.

(** ** Field validators

    Each takes the entry of the keyword dictionary for its field ([None] when
    the key is missing) and returns the validated value, or [None] when the
    field is rejected. *)

(** [str], required *)
Definition v_str (v : option Value) : option string :=
  match v with Some (VStr s) => Some s | _ => None end.

(** [str] constrained by a pattern, required *)
Definition v_pattern (pat : string → bool) (v : option Value) : option string :=
  match v with
  | Some (VStr s) => if pat s then Some s else None
  | _ => None
  end.

(** [int] with [ge] and [le], required *)
Definition v_int (ge le : Z) (v : option Value) : option Z :=
  match v with
  | Some (VInt n) => if ((ge <=? n) && (n <=? le))%bool then Some n else None
  | _ => None
  end.

(** [Optional[str]] with default [None] *)
Definition v_opt_str (v : option Value) : option (option string) :=
  match v with
  | None | Some VNone => Some None
  | Some (VStr s) => Some (Some s)
  | Some _ => None
  end.

(** [UUID] with [default_factory=uuid4] *)
Definition v_uuid (v : option Value) (w : World) : option UUID * World :=
  match v with
  | None => let '(u, w') := uuid4 w in (Some u, w')
  | Some (VUuid u) => (Some u, w)
  | Some _ => (None, w)
  end.

(** [datetime] with [default_factory=datetime.utcnow] *)
Definition v_datetime (v : option Value) (w : World) : option datetime * World :=
  match v with
  | None => let '(t, w') := utcnow w in (Some t, w')
  | Some (VTime t) => (Some t, w)
  | Some _ => (None, w)
  end.

(** ** Exceptions and results of a handler *)

Inductive Exception :=
  | HTTPException (status_code : Z) (detail : string)
  | ValidationError
  | KeyError.

Inductive Result (A : Type) :=
  | Ok (a : A)
  | Raise (e : Exception).
Arguments Ok {A} a.
Arguments Raise {A} e.

(** ** A Python [dict] keyed by UUID: insertion ordered, keys unique *)

Section PyDict.
Context {V : Type}.

Fixpoint dict_get (k : UUID) (d : list (UUID * V)) : option V :=
  match d with
  | [] => None
  | (k', v) :: d' => if N.eqb k k' then Some v else dict_get k d'
  end.

(** [k in d] *)
Definition dict_contains (k : UUID) (d : list (UUID * V)) : bool :=
  match dict_get k d with Some _ => true | None => false end.

(** [d[k] = v]: an existing key keeps its place, a new one goes last. *)
Fixpoint dict_set (k : UUID) (v : V) (d : list (UUID * V)) : list (UUID * V) :=
  match d with
  | [] => [(k, v)]
  | (k', v') :: d' =>
      if N.eqb k k' then (k', v) :: d' else (k', v') :: dict_set k v d'
  end.

(** [del d[k]] *)
Fixpoint dict_del (k : UUID) (d : list (UUID * V)) : list (UUID * V) :=
  match d with
  | [] => []
  | (k', v') :: d' => if N.eqb k k' then d' else (k', v') :: dict_del k d'
  end.

(** [list(d.values())] *)
Definition dict_values (d : list (UUID * V)) : list V := map snd d.
End PyDict.

(** ** models/course.py *)

Module CourseBase.
Record t := mk {
  id : UUID;
  code : string;
  title : string;
  credits : Z;
  location : option string
}.

Definition model_dump (c : t) : gmap string Value :=
  <["id" := VUuid (id c)]>
  (<["code" := VStr (code c)]>
  (<["title" := VStr (title c)]>
  (<["credits" := VInt (credits c)]>
  (<["location" := of_opt_str (location c)]> ∅)))).

(** An instance as a request carries it: the field values and the set of
    field names that were explicitly supplied.  Only the payload of an update
    is dumped with [exclude_unset]; a stored instance is always dumped in
    full, so the set of a stored instance is never read and [t] has none. *)
Record inst := mk_inst {
  obj : t;
  model_fields_set : gset string
}.

Definition model_dump_exclude_unset (i : inst) : gmap string Value :=
  exclude_unset (model_fields_set i) (model_dump (obj i)).

(** The constructor of [CourseBase] on the keyword dictionary [d]. *)
Definition validate `{Unicode} (d : gmap string Value) (w : World)
  : option t * World :=
  let '(id_, w) := v_uuid (d !! "id") w in
  let code_ := v_pattern CourseCode (d !! "code") in
  let title_ := v_str (d !! "title") in
  let credits_ := v_int 1 5 (d !! "credits") in
  let location_ := v_opt_str (d !! "location") in
  (match id_, code_, title_, credits_, location_ with
   | Some i, Some c, Some t, Some n, Some l => Some (mk i c t n l)
   | _, _, _, _, _ => None
   end, w).

(** What the constructor accepts: an instance always satisfies it. *)
Definition valid `{Unicode} (c : t) : bool :=
  (CourseCode (code c) && (1 <=? credits c) && (credits c <=? 5))%bool.
End CourseBase.

Module CourseCreate.
(** [class CourseCreate(CourseBase)] adds no field. *)
Definition t := CourseBase.t.
Definition model_dump : t → gmap string Value := CourseBase.model_dump.
End CourseCreate.

Module CourseUpdate.
Record t := mk {
  code : option string;
  title : option string;
  credits : option Z;
  location : option string;
  model_fields_set : gset string
}.

Definition model_dump (u : t) : gmap string Value :=
  <["code" := of_opt_str (code u)]>
  (<["title" := of_opt_str (title u)]>
  (<["credits" := of_opt_int (credits u)]>
  (<["location" := of_opt_str (location u)]> ∅))).

Definition model_dump_exclude_unset (u : t) : gmap string Value :=
  exclude_unset (model_fields_set u) (model_dump u).
End CourseUpdate.

Module CourseRead.
Record t := mk {
  id : UUID;
  code : string;
  title : string;
  credits : Z;
  location : option string;
  created_at : datetime;
  updated_at : datetime
}.

Definition model_dump (c : t) : gmap string Value :=
  <["id" := VUuid (id c)]>
  (<["code" := VStr (code c)]>
  (<["title" := VStr (title c)]>
  (<["credits" := VInt (credits c)]>
  (<["location" := of_opt_str (location c)]>
  (<["created_at" := VTime (created_at c)]>
  (<["updated_at" := VTime (updated_at c)]> ∅)))))).

(** The constructor of [CourseRead] on the keyword dictionary [d]. *)
Definition validate `{Unicode} (d : gmap string Value) (w : World)
  : option t * World :=
  let '(id_, w) := v_uuid (d !! "id") w in
  let code_ := v_pattern CourseCode (d !! "code") in
  let title_ := v_str (d !! "title") in
  let credits_ := v_int 1 5 (d !! "credits") in
  let location_ := v_opt_str (d !! "location") in
  let '(created_, w) := v_datetime (d !! "created_at") w in
  let '(updated_, w) := v_datetime (d !! "updated_at") w in
  (match id_, code_, title_, credits_, location_, created_, updated_ with
   | Some i, Some c, Some t, Some n, Some l, Some ca, Some ua =>
       Some (mk i c t n l ca ua)
   | _, _, _, _, _, _, _ => None
   end, w).

Definition valid `{Unicode} (c : t) : bool :=
  (CourseCode (code c) && (1 <=? credits c) && (credits c <=? 5))%bool.
End CourseRead.

(** ** models/teacher.py *)

(** [List[CourseBase]]: every item is validated and the errors are collected,
  so the items after a rejected one are still built. *)
Fixpoint v_course_list `{Unicode} (l : list Value) (w : World)
  : option (list CourseBase.t) * World :=
  match l with
  | [] => (Some [], w)
  | x :: l' =>
    let '(c, w) :=
      match x with
      | VDict d => CourseBase.validate d w
      | _ => (None, w)
      end in
    let '(cs, w) := v_course_list l' w in
    (match c, cs with
     | Some c, Some cs => Some (c :: cs)
     | _, _ => None
     end, w)
  end.

(** [courses: List[CourseBase]] with [default_factory=list] *)
Definition v_courses `{Unicode} (v : option Value) (w : World)
  : option (list CourseBase.t) * World :=
  match v with
  | None => (Some [], w)
  | Some (VList l) => v_course_list l w
  | Some _ => (None, w)
  end.

(** [EmailStr], required.  [validate_email] stands for the email-validator
  library: it rejects an address ([None]) or returns its normalised form. *)
Definition v_email (validate_email : string → option string) (v : option Value)
  : option string :=
  match v with Some (VStr s) => validate_email s | _ => None end.

Module TeacherCreate.
(** [class TeacherCreate(TeacherBase)] adds no field. *)
Record t := mk {
  uni : string;
  first_name : string;
  last_name : string;
  department : string;
  email : string;
  academic_title : option string;
  office : option string;
  courses : list CourseBase.t
}.

Definition model_dump (p : t) : gmap string Value :=
  <["uni" := VStr (uni p)]>
  (<["first_name" := VStr (first_name p)]>
  (<["last_name" := VStr (last_name p)]>
  (<["department" := VStr (department p)]>
  (<["email" := VStr (email p)]>
  (<["academic_title" := of_opt_str (academic_title p)]>
  (<["office" := of_opt_str (office p)]>
  (<["courses" := VList (map (λ c, VDict (CourseBase.model_dump c)) (courses p))]> ∅))))))).

(** What the constructor accepts: an instance always satisfies it. *)
Definition valid `{Unicode} (validate_email : string → option string) (p : t) : bool :=
  (UNIType (uni p)
   && bool_decide (validate_email (email p) = Some (email p))
   && forallb CourseBase.valid (courses p))%bool.
End TeacherCreate.

Module TeacherUpdate.
Record t := mk {
  uni : option string;
  first_name : option string;
  last_name : option string;
  department : option string;
  email : option string;
  academic_title : option string;
  office : option string;
  courses : option (list CourseBase.inst);
  model_fields_set : gset string
}.

Definition of_opt_courses (o : option (list CourseBase.inst)) : Value :=
  match o with
  | Some l => VList (map (λ i, VDict (CourseBase.model_dump_exclude_unset i)) l)
  | None => VNone
  end.

Definition model_dump (u : t) : gmap string Value :=
  <["uni" := of_opt_str (uni u)]>
  (<["first_name" := of_opt_str (first_name u)]>
  (<["last_name" := of_opt_str (last_name u)]>
  (<["department" := of_opt_str (department u)]>
  (<["email" := of_opt_str (email u)]>
  (<["academic_title" := of_opt_str (academic_title u)]>
  (<["office" := of_opt_str (office u)]>
  (<["courses" := of_opt_courses (courses u)]> ∅))))))).

(** The nested course instances are dumped with [exclude_unset] too. *)
Definition model_dump_exclude_unset (u : t) : gmap string Value :=
  exclude_unset (model_fields_set u) (model_dump u).
End TeacherUpdate.

Module TeacherRead.
Record t := mk {
  uni : string;
  first_name : string;
  last_name : string;
  department : string;
  email : string;
  academic_title : option string;
  office : option string;
  courses : list CourseBase.t;
  id : UUID;
  created_at : datetime;
  updated_at : datetime
}.

Definition model_dump (p : t) : gmap string Value :=
  <["uni" := VStr (uni p)]>
  (<["first_name" := VStr (first_name p)]>
  (<["last_name" := VStr (last_name p)]>
  (<["department" := VStr (department p)]>
  (<["email" := VStr (email p)]>
  (<["academic_title" := of_opt_str (academic_title p)]>
  (<["office" := of_opt_str (office p)]>
  (<["courses" := VList (map (λ c, VDict (CourseBase.model_dump c)) (courses p))]>
  (<["id" := VUuid (id p)]>
  (<["created_at" := VTime (created_at p)]>
  (<["updated_at" := VTime (updated_at p)]> ∅)))))))))).

(** The constructor of [TeacherRead] on the keyword dictionary [d]; the
    fields are visited in declaration order, those of [TeacherBase] first. *)
Definition validate `{Unicode} (validate_email : string → option string)
    (d : gmap string Value) (w : World) : option t * World :=
  let uni_ := v_pattern UNIType (d !! "uni") in
  let first_ := v_str (d !! "first_name") in
  let last_ := v_str (d !! "last_name") in
  let dept_ := v_str (d !! "department") in
  let email_ := v_email validate_email (d !! "email") in
  let acad_ := v_opt_str (d !! "academic_title") in
  let office_ := v_opt_str (d !! "office") in
  let '(courses_, w) := v_courses (d !! "courses") w in
  let '(id_, w) := v_uuid (d !! "id") w in
  let '(created_, w) := v_datetime (d !! "created_at") w in
  let '(updated_, w) := v_datetime (d !! "updated_at") w in
  (match uni_, first_, last_, dept_, email_, acad_, office_, courses_ with
   | Some u, Some f, Some l, Some dp, Some e, Some a, Some o, Some cs =>
       match id_, created_, updated_ with
       | Some i, Some ca, Some ua => Some (mk u f l dp e a o cs i ca ua)
       | _, _, _ => None
       end
   | _, _, _, _, _, _, _, _ => None
   end, w).

Definition valid `{Unicode} (validate_email : string → option string) (p : t) : bool :=
  (UNIType (uni p)
   && bool_decide (validate_email (email p) = Some (email p))
   && forallb CourseBase.valid (courses p))%bool.
End TeacherRead.

(** ** main.py: the two in-memory "databases" and the world *)

Record State := mkState {
  courses : list (UUID * CourseRead.t);
  teachers : list (UUID * TeacherRead.t);
  world : World
}.

(** [d[k]] as an expression *)
Definition subscript {V : Type} (k : UUID) (d : list (UUID * V)) : Result V :=
  match dict_get k d with
  | Some v => Ok v
  | None => Raise KeyError
  end.

(** [a == b] for an [Optional[str]] field and a [str] *)
Definition opt_str_eqb (a : option string) (b : string) : bool :=
  match a with
  | Some s => String.eqb s b
  | None => false
  end.

(** [a or ""] for an [Optional[str]]: [None] and the empty string are falsy *)
Definition or_empty (a : option string) : string :=
  match a with
  | Some s => if String.eqb s "" then "" else s
  | None => ""
  end.

(** [if crit is not None: results = [a for a in results if test a crit]] *)
Definition filter_if {A B : Type} (crit : option B) (test : A → B → bool)
    (results : list A) : list A :=
  match crit with
  | Some v => List.filter (λ a, test a v) results
  | None => results
  end.

(** *** Course endpoints *)

Definition create_course `{Unicode} (course : CourseCreate.t) (st : State)
  : Result CourseRead.t * State :=
  if dict_contains (CourseBase.id course) (courses st) then
    (Raise (HTTPException 400 "Course with this ID already exists"), st)
  else
    match CourseRead.validate (CourseCreate.model_dump course) (world st) with
    | (Some r, w) =>
        let courses' := dict_set (CourseBase.id course) r (courses st) in
        (subscript (CourseBase.id course) courses', mkState courses' (teachers st) w)
    | (None, w) => (Raise ValidationError, mkState (courses st) (teachers st) w)
    end.

Definition list_courses (code title : option string) (credits : option Z)
    (location : option string) (st : State) : list CourseRead.t :=
  let results := dict_values (courses st) in
  let results := filter_if code (λ a v, String.eqb (CourseRead.code a) v) results in
  let results := filter_if title (λ a v, String.eqb (CourseRead.title a) v) results in
  let results := filter_if credits (λ a v, Z.eqb (CourseRead.credits a) v) results in
  let results := filter_if location (λ a v, opt_str_eqb (CourseRead.location a) v) results in
  results.

Definition get_course (course_id : UUID) (st : State) : Result CourseRead.t :=
  if negb (dict_contains course_id (courses st)) then
    Raise (HTTPException 404 "Course not found")
  else subscript course_id (courses st).

Definition update_course `{Unicode} (course_id : UUID) (update : CourseUpdate.t)
    (st : State)
  : Result CourseRead.t * State :=
  if negb (dict_contains course_id (courses st)) then
    (Raise (HTTPException 404 "Course not found"), st)
  else
    match subscript course_id (courses st) with
    | Raise e => (Raise e, st)
    | Ok cur =>
        let stored := CourseRead.model_dump cur in
        let stored := dict_update stored (CourseUpdate.model_dump_exclude_unset update) in
        match CourseRead.validate stored (world st) with
        | (Some r, w) =>
            let courses' := dict_set course_id r (courses st) in
            (subscript course_id courses', mkState courses' (teachers st) w)
        | (None, w) => (Raise ValidationError, mkState (courses st) (teachers st) w)
        end
    end.

Definition delete_course (course_id : UUID) (st : State) : Result unit * State :=
  if negb (dict_contains course_id (courses st)) then
    (Raise (HTTPException 404 "Course not found"), st)
  else
    (Ok tt, mkState (dict_del course_id (courses st)) (teachers st) (world st)).

(** *** Teacher endpoints *)

Section Teachers.
Context {unicode_tables : Unicode}.
Variable validate_email : string → option string.

Definition create_teacher (teacher : TeacherCreate.t) (st : State)
  : Result TeacherRead.t * State :=
  match TeacherRead.validate validate_email (TeacherCreate.model_dump teacher) (world st) with
  | (Some teacher_read, w) =>
      (Ok teacher_read,
       mkState (courses st) (dict_set (TeacherRead.id teacher_read) teacher_read (teachers st)) w)
  | (None, w) => (Raise ValidationError, mkState (courses st) (teachers st) w)
  end.

Definition list_teachers
    (uni first_name last_name department email academic_title office : option string)
    (location : option string) (credits : option Z) (st : State) : list TeacherRead.t :=
  let results := dict_values (teachers st) in
  let results := filter_if uni (λ p v, String.eqb (TeacherRead.uni p) v) results in
  let results := filter_if first_name (λ p v, String.eqb (TeacherRead.first_name p) v) results in
  let results := filter_if last_name (λ p v, String.eqb (TeacherRead.last_name p) v) results in
  let results := filter_if department (λ p v, String.eqb (TeacherRead.department p) v) results in
  let results := filter_if email (λ p v, String.eqb (TeacherRead.email p) v) results in
  let results :=
    filter_if academic_title (λ p v, opt_str_eqb (TeacherRead.academic_title p) v) results in
  let results := filter_if office (λ p v, opt_str_eqb (TeacherRead.office p) v) results in
  let results :=
    filter_if location
      (λ t v, existsb (λ c, String.eqb (or_empty (CourseBase.location c)) v)
                (TeacherRead.courses t)) results in
  let results :=
    filter_if credits
      (λ t v, existsb (λ c, Z.eqb (CourseBase.credits c) v) (TeacherRead.courses t))
      results in
  results.

Definition get_teacher (teacher_id : UUID) (st : State) : Result TeacherRead.t :=
  if negb (dict_contains teacher_id (teachers st)) then
    Raise (HTTPException 404 "Teacher not found")
  else subscript teacher_id (teachers st).

Definition update_teacher (teacher_id : UUID) (update : TeacherUpdate.t) (st : State)
  : Result TeacherRead.t * State :=
  if negb (dict_contains teacher_id (teachers st)) then
    (Raise (HTTPException 404 "Teacher not found"), st)
  else
    match subscript teacher_id (teachers st) with
    | Raise e => (Raise e, st)
    | Ok cur =>
        let stored := TeacherRead.model_dump cur in
        let stored := dict_update stored (TeacherUpdate.model_dump_exclude_unset update) in
        match TeacherRead.validate validate_email stored (world st) with
        | (Some r, w) =>
            let teachers' := dict_set teacher_id r (teachers st) in
            (subscript teacher_id teachers', mkState (courses st) teachers' w)
        | (None, w) => (Raise ValidationError, mkState (courses st) (teachers st) w)
        end
    end.

Definition delete_teacher (teacher_id : UUID) (st : State) : Result unit * State :=
  if negb (dict_contains teacher_id (teachers st)) then
    (Raise (HTTPException 404 "Teacher not found"), st)
  else
    (Ok tt, mkState (courses st) (dict_del teacher_id (teachers st)) (world st)).

End Teachers.

(** * Vocabulary of the statements *)

Section Vocabulary.
Context {unicode_tables : Unicode}.

(** The entry of a merged dictionary for a field that both dumps have. *)
Definition pick (fs : gset string) (k : string) (supplied kept : Value) : Value :=
  if decide (k ∈ fs) then supplied else kept.

(** The entity that [update_course] builds from the stored one and the
    payload, when the constructor accepts the merged dictionary. *)
Definition course_merge (stored : CourseRead.t) (update : CourseUpdate.t)
  : option CourseRead.t :=
  let fs := CourseUpdate.model_fields_set update in
  match
     v_pattern CourseCode
       (Some (pick fs "code" (of_opt_str (CourseUpdate.code update))
                (VStr (CourseRead.code stored)))),
     v_str
       (Some (pick fs "title" (of_opt_str (CourseUpdate.title update))
                (VStr (CourseRead.title stored)))),
     v_int 1 5
       (Some (pick fs "credits" (of_opt_int (CourseUpdate.credits update))
                (VInt (CourseRead.credits stored)))),
     v_opt_str
       (Some (pick fs "location" (of_opt_str (CourseUpdate.location update))
                (of_opt_str (CourseRead.location stored))))
   with
   | Some c, Some t, Some n, Some l =>
       Some (CourseRead.mk (CourseRead.id stored) c t n l
               (CourseRead.created_at stored) (CourseRead.updated_at stored))
   | _, _, _, _ => None
   end.

(** The same for [update_teacher]; building the embedded courses may call
    [uuid4]. *)
Definition teacher_merge (validate_email : string → option string)
    (stored : TeacherRead.t) (update : TeacherUpdate.t) (w : World)
  : option TeacherRead.t * World :=
  let fs := TeacherUpdate.model_fields_set update in
  let '(cs_, w') :=
    v_courses
      (Some (pick fs "courses" (TeacherUpdate.of_opt_courses (TeacherUpdate.courses update))
               (VList (map (λ c, VDict (CourseBase.model_dump c))
                         (TeacherRead.courses stored))))) w in
  (match
     v_pattern UNIType
       (Some (pick fs "uni" (of_opt_str (TeacherUpdate.uni update))
                (VStr (TeacherRead.uni stored)))),
     v_str
       (Some (pick fs "first_name" (of_opt_str (TeacherUpdate.first_name update))
                (VStr (TeacherRead.first_name stored)))),
     v_str
       (Some (pick fs "last_name" (of_opt_str (TeacherUpdate.last_name update))
                (VStr (TeacherRead.last_name stored)))),
     v_str
       (Some (pick fs "department" (of_opt_str (TeacherUpdate.department update))
                (VStr (TeacherRead.department stored)))),
     v_email validate_email
       (Some (pick fs "email" (of_opt_str (TeacherUpdate.email update))
                (VStr (TeacherRead.email stored)))),
     v_opt_str
       (Some (pick fs "academic_title" (of_opt_str (TeacherUpdate.academic_title update))
                (of_opt_str (TeacherRead.academic_title stored)))),
     v_opt_str
       (Some (pick fs "office" (of_opt_str (TeacherUpdate.office update))
                (of_opt_str (TeacherRead.office stored)))),
     cs_
   with
   | Some u, Some f, Some l, Some dp, Some e, Some a, Some o, Some cs =>
       Some (TeacherRead.mk u f l dp e a o cs (TeacherRead.id stored)
               (TeacherRead.created_at stored) (TeacherRead.updated_at stored))
   | _, _, _, _, _, _, _, _ => None
   end, w').

(** A field of the result holds the payload's value when the payload supplies
    the field, and the stored value when it does not. *)
Definition field_merged {A : Type} (fs : gset string) (k : string)
    (supplied kept result : A) : Prop :=
  if decide (k ∈ fs) then result = supplied else result = kept.

(** An address that email validation returns unchanged, as every address held
    by an instance is. *)
Definition normalised (validate_email : string → option string) (e : string) : Prop :=
  validate_email e = Some e.

(** Every course entry of the payload supplies its [id]. *)
Definition ids_supplied (update : TeacherUpdate.t) : bool :=
  match TeacherUpdate.courses update with
  | Some l => forallb (λ i, bool_decide ("id" ∈ CourseBase.model_fields_set i)) l
  | None => true
  end.

(** The field names of a dumped model *)
Definition CourseBase_fields : gset string :=
  {[ "id"; "code"; "title"; "credits"; "location" ]}.
Definition CourseRead_fields : gset string :=
  CourseBase_fields ∪ {[ "created_at"; "updated_at" ]}.

(** Listing criteria: an absent criterion holds of every entity, a present
    one holds when the field equals its value. *)
Definition crit_eq {A : Type} `{EqDecision A} (crit : option A) (x : A) : bool :=
  match crit with
  | Some v => bool_decide (x = v)
  | None => true
  end.

Definition crit_eq_opt (crit : option string) (x : option string) : bool :=
  match crit with
  | Some v => bool_decide (x = Some v)
  | None => true
  end.

Definition course_satisfies (code title : option string) (credits : option Z)
    (location : option string) (a : CourseRead.t) : bool :=
  (crit_eq code (CourseRead.code a) && crit_eq title (CourseRead.title a)
   && crit_eq credits (CourseRead.credits a)
   && crit_eq_opt location (CourseRead.location a))%bool.

Definition teacher_satisfies
    (uni first_name last_name department email academic_title office : option string)
    (t : TeacherRead.t) : bool :=
  (crit_eq uni (TeacherRead.uni t) && crit_eq first_name (TeacherRead.first_name t)
   && crit_eq last_name (TeacherRead.last_name t)
   && crit_eq department (TeacherRead.department t)
   && crit_eq email (TeacherRead.email t)
   && crit_eq_opt academic_title (TeacherRead.academic_title t)
   && crit_eq_opt office (TeacherRead.office t))%bool.

(** The two criteria on the embedded courses, as [list_teachers] tests them. *)
Definition nested_satisfies (location : option string) (credits : option Z)
    (t : TeacherRead.t) : bool :=
  (match location with
   | Some v =>
       existsb (λ c, String.eqb (or_empty (CourseBase.location c)) v)
         (TeacherRead.courses t)
   | None => true
   end
   &&
   match credits with
   | Some v => existsb (λ c, Z.eqb (CourseBase.credits c) v) (TeacherRead.courses t)
   | None => true
   end)%bool.

(** What [update_course] promises of the entity [r] it stores over [stored]. *)
Definition course_patched (update : CourseUpdate.t) (stored r : CourseRead.t) : Prop :=
  let fs := CourseUpdate.model_fields_set update in
  field_merged fs "code" (CourseUpdate.code update)
    (Some (CourseRead.code stored)) (Some (CourseRead.code r)) ∧
  field_merged fs "title" (CourseUpdate.title update)
    (Some (CourseRead.title stored)) (Some (CourseRead.title r)) ∧
  field_merged fs "credits" (CourseUpdate.credits update)
    (Some (CourseRead.credits stored)) (Some (CourseRead.credits r)) ∧
  field_merged fs "location" (CourseUpdate.location update)
    (CourseRead.location stored) (CourseRead.location r).

(** The embedded courses built from the course entries of an update payload,
    in order: an entry keeps the fields it supplies, an entry that supplies
    no [id] takes the next answer of [uuid4], and one that supplies no
    [location] has none. *)
Fixpoint built_courses (l : list CourseBase.inst) (w : World)
  : list CourseBase.t * World :=
  match l with
  | [] => ([], w)
  | i :: l' =>
      let fs := CourseBase.model_fields_set i in
      let '(u, w1) :=
        if decide ("id" ∈ fs) then (CourseBase.id (CourseBase.obj i), w) else uuid4 w in
      let '(cs, w2) := built_courses l' w1 in
      (CourseBase.mk u (CourseBase.code (CourseBase.obj i))
         (CourseBase.title (CourseBase.obj i)) (CourseBase.credits (CourseBase.obj i))
         (if decide ("location" ∈ fs) then CourseBase.location (CourseBase.obj i)
          else None) :: cs, w2)
  end.

(** The embedded courses of the updated teacher [r], exactly: when the
    payload supplies [courses], the courses built from the payload's list
    alone, the world going from [w] to [w'] as they are built; the stored list
    otherwise, with the world untouched. *)
Definition courses_replaced (update : TeacherUpdate.t) (stored r : TeacherRead.t)
    (w w' : World) : Prop :=
  if decide ("courses" ∈ TeacherUpdate.model_fields_set update)
  then ∃ l, TeacherUpdate.courses update = Some l ∧
            (TeacherRead.courses r, w') = built_courses l w
  else TeacherRead.courses r = TeacherRead.courses stored ∧ w' = w.

(** What [update_teacher] promises of the entity [r] it stores over
    [stored], the world going from [w] to [w']. *)
Definition teacher_patched (update : TeacherUpdate.t) (stored r : TeacherRead.t)
    (w w' : World) : Prop :=
  let fs := TeacherUpdate.model_fields_set update in
  field_merged fs "uni" (TeacherUpdate.uni update)
    (Some (TeacherRead.uni stored)) (Some (TeacherRead.uni r)) ∧
  field_merged fs "first_name" (TeacherUpdate.first_name update)
    (Some (TeacherRead.first_name stored)) (Some (TeacherRead.first_name r)) ∧
  field_merged fs "last_name" (TeacherUpdate.last_name update)
    (Some (TeacherRead.last_name stored)) (Some (TeacherRead.last_name r)) ∧
  field_merged fs "department" (TeacherUpdate.department update)
    (Some (TeacherRead.department stored)) (Some (TeacherRead.department r)) ∧
  field_merged fs "email" (TeacherUpdate.email update)
    (Some (TeacherRead.email stored)) (Some (TeacherRead.email r)) ∧
  field_merged fs "academic_title" (TeacherUpdate.academic_title update)
    (TeacherRead.academic_title stored) (TeacherRead.academic_title r) ∧
  field_merged fs "office" (TeacherUpdate.office update)
    (TeacherRead.office stored) (TeacherRead.office r) ∧
  courses_replaced update stored r w w'.

(** The pattern of a course code in words: the code points of the string are
    four upper-case ASCII letters followed by four decimal digits, and
    nothing else. *)
Definition four_letters_four_digits (s : string) : Prop :=
  ∃ letters digits : list N,
    code_points s = Some (letters ++ digits)%list ∧
    length letters = 4%nat ∧ length digits = 4%nat ∧
    Forall (λ c, is_upper c = true) letters ∧
    Forall (λ c, is_decimal_digit c = true) digits.

(** A required field of an update payload is acceptable when the payload
    does not supply it, or supplies a value that is not null and passes the
    check of the field. *)
Definition supplied_ok {A : Type} (fs : gset string) (k : string) (o : option A)
    (check : A → bool) : bool :=
  if bool_decide (k ∈ fs)
  then match o with Some v => check v | None => false end
  else true.

(** A course entry of a payload as parsing leaves it: valid, with its three
    required fields supplied. *)
Definition entry_acceptable (i : CourseBase.inst) : bool :=
  (CourseBase.valid (CourseBase.obj i)
   && bool_decide ("code" ∈ CourseBase.model_fields_set i)
   && bool_decide ("title" ∈ CourseBase.model_fields_set i)
   && bool_decide ("credits" ∈ CourseBase.model_fields_set i))%bool.

Definition update_acceptable (validate_email : string → option string)
    (u : TeacherUpdate.t) : bool :=
  let fs := TeacherUpdate.model_fields_set u in
  (supplied_ok fs "uni" (TeacherUpdate.uni u) UNIType
   && supplied_ok fs "first_name" (TeacherUpdate.first_name u) (λ _, true)
   && supplied_ok fs "last_name" (TeacherUpdate.last_name u) (λ _, true)
   && supplied_ok fs "department" (TeacherUpdate.department u) (λ _, true)
   && supplied_ok fs "email" (TeacherUpdate.email u)
        (λ e, match validate_email e with Some _ => true | None => false end)
   && supplied_ok fs "courses" (TeacherUpdate.courses u) (forallb entry_acceptable))%bool.

(** ** Vocabulary of the further properties *)

(** The keys of a store, in listing order. *)
Definition dict_keys {V : Type} (d : list (UUID * V)) : list UUID := map fst d.

(** A Course is filed under its own id and is one that the constructor of
    [CourseRead] accepts. *)
Definition course_filed (kc : UUID * CourseRead.t) : Prop :=
  CourseRead.id kc.2 = kc.1 ∧ CourseRead.valid kc.2 = true.

(** A Teacher is filed under its own id, its [uni] matches the pattern, its
    embedded courses are valid and its email is an answer of email
    validation. *)
Definition teacher_filed (validate_email : string → option string)
    (kt : UUID * TeacherRead.t) : Prop :=
  TeacherRead.id kt.2 = kt.1 ∧
  UNIType (TeacherRead.uni kt.2) = true ∧
  forallb CourseBase.valid (TeacherRead.courses kt.2) = true ∧
  ∃ s, validate_email s = Some (TeacherRead.email kt.2).

Definition courses_invariant (st : State) : Prop :=
  NoDup (dict_keys (courses st)) ∧ Forall course_filed (courses st).

Definition teachers_invariant (validate_email : string → option string) (st : State)
  : Prop :=
  NoDup (dict_keys (teachers st)) ∧ Forall (teacher_filed validate_email) (teachers st).

(** The pattern of a UNI in words: the code points of the string are two or
    three lower-case ASCII letters followed by one to four decimal digits,
    and nothing else. *)
Definition letters_then_digits (s : string) : Prop :=
  ∃ letters digits : list N,
    code_points s = Some (letters ++ digits)%list ∧
    (2 ≤ length letters ≤ 3)%nat ∧ (1 ≤ length digits ≤ 4)%nat ∧
    Forall (λ c, is_lower c = true) letters ∧
    Forall (λ c, is_decimal_digit c = true) digits.

(** The payload that supplies what [first] or [second] supplies, with the
    value of [second] where both do: the two requests folded into one. *)
Definition compose_course_updates (first second : CourseUpdate.t) : CourseUpdate.t :=
  let fs := CourseUpdate.model_fields_set second in
  CourseUpdate.mk
    (if decide ("code" ∈ fs) then CourseUpdate.code second else CourseUpdate.code first)
    (if decide ("title" ∈ fs) then CourseUpdate.title second
     else CourseUpdate.title first)
    (if decide ("credits" ∈ fs) then CourseUpdate.credits second
     else CourseUpdate.credits first)
    (if decide ("location" ∈ fs) then CourseUpdate.location second
     else CourseUpdate.location first)
    (CourseUpdate.model_fields_set first ∪ fs).

(** A Course update payload that the constructor of [CourseRead] will
    accept over a valid stored Course: the required fields that it supplies
    are not null, a supplied [code] matches the pattern and a supplied
    [credits] is between 1 and 5. *)
Definition course_update_acceptable (u : CourseUpdate.t) : bool :=
  let fs := CourseUpdate.model_fields_set u in
  (supplied_ok fs "code" (CourseUpdate.code u) CourseCode
   && supplied_ok fs "title" (CourseUpdate.title u) (λ _, true)
   && supplied_ok fs "credits" (CourseUpdate.credits u)
        (λ n, (1 <=? n) && (n <=? 5)))%bool.

End Vocabulary.

(** ** Sample data, for the examples *)

Module Sample.

(** The decimal digits of Unicode 14.0: the digit zero of each of its runs of
    ten digits. *)
Definition decimal_zeros : list N :=
  [48; 1632; 1776; 1984; 2406; 2534; 2662; 2790; 2918; 3046; 3174; 3302;
   3430; 3558; 3664; 3792; 3872; 4160; 4240; 6112; 6160; 6470; 6608; 6784;
   6800; 6992; 7088; 7232; 7248; 42528; 43216; 43264; 43472; 43504; 43600;
   44016; 65296; 66720; 68912; 69734; 69872; 69942; 70096; 70384; 70736;
   70864; 71248; 71360; 71472; 71904; 72016; 72784; 73040; 73120; 92768;
   92864; 93008; 120782; 120792; 120802; 120812; 120822; 123200; 123632;
   125264; 130032]%N.

Definition unicode : Unicode :=
  {| is_decimal_digit c := existsb (λ z, (z <=? c) && (c <=? z + 9))%N decimal_zeros |}.
#[local] Existing Instance unicode.

Definition world0 : World :=
  mkWorld (λ n, 100 + N.of_nat n)%N 0 (λ n, 1000 + Z.of_nat n) 0.

(** A stand-in for email validation: it accepts, unchanged, the strings that
    contain an at sign. *)
Definition validate_email (s : string) : option string :=
  if existsb (Ascii.eqb "@") (list_ascii_of_string s) then Some s else None.

Definition coms4701 : CourseCreate.t :=
  CourseBase.mk 7%N "COMS4701" "Cloud Computing" 3 (Some "501 Northwest Corner").

Definition coms4701_read : CourseRead.t :=
  CourseRead.mk 7%N "COMS4701" "Cloud Computing" 3 (Some "501 Northwest Corner")
    1000 1001.

Definition st_empty : State := mkState [] [] world0.

(** The state after [POST /courses] with [coms4701]. *)
Definition st_course : State := (create_course coms4701 st_empty).2.

(** [{"title": null}], [{"location": null}] and [{"code": "coms4701"}] *)
Definition null_title : CourseUpdate.t :=
  CourseUpdate.mk None None None None {[ "title" ]}.
Definition null_location : CourseUpdate.t :=
  CourseUpdate.mk None None None None {[ "location" ]}.
Definition lower_code : CourseUpdate.t :=
  CourseUpdate.mk (Some "coms4701") None None None {[ "code" ]}.

(** A teacher whose only course has no location. *)
Definition ferguson : TeacherCreate.t :=
  TeacherCreate.mk "dff9" "Donald" "Ferguson" "COMS" "dff9@example.com"
    (Some "Professor") None
    [CourseBase.mk 8%N "COMS4701" "Cloud Computing" 3 None].

Definition ferguson_read : TeacherRead.t :=
  TeacherRead.mk "dff9" "Donald" "Ferguson" "COMS" "dff9@example.com"
    (Some "Professor") None
    [CourseBase.mk 8%N "COMS4701" "Cloud Computing" 3 None] 100%N 1002 1003.

(** The state after [POST /teachers] with [ferguson]; the teacher gets the
    id 100. *)
Definition st_teacher : State := (create_teacher validate_email ferguson st_course).2.

(** [{"courses": [{"code": "HUMA1123", "title": "Music Humanities",
    "credits": 3}]}]: the entry supplies neither [id] nor [location]; the id
    that parsing gave it is 55. *)
Definition huma1123 : CourseBase.inst :=
  CourseBase.mk_inst (CourseBase.mk 55%N "HUMA1123" "Music Humanities" 3 None)
    {[ "code"; "title"; "credits" ]}.

Definition replace_courses : TeacherUpdate.t :=
  TeacherUpdate.mk None None None None None None None (Some [huma1123]) {[ "courses" ]}.

(** The same entry with an explicit id. *)
Definition huma1123_with_id : CourseBase.inst :=
  CourseBase.mk_inst (CourseBase.mk 55%N "HUMA1123" "Music Humanities" 3 None)
    {[ "id"; "code"; "title"; "credits" ]}.

Definition replace_courses_with_id : TeacherUpdate.t :=
  TeacherUpdate.mk None None None None None None None (Some [huma1123_with_id])
    {[ "courses" ]}.

(** [{"courses": []}] and [{"first_name": "Don"}] *)
Definition no_courses : TeacherUpdate.t :=
  TeacherUpdate.mk None None None None None None None (Some []) {[ "courses" ]}.

Definition rename : TeacherUpdate.t :=
  TeacherUpdate.mk None (Some "Don") None None None None None None {[ "first_name" ]}.

(** A course without a location, a teacher without courses, and the state
    after both are created. *)
Definition math1101 : CourseCreate.t :=
  CourseBase.mk 9%N "MATH1101" "Calculus I" 4 None.

Definition math1101_read : CourseRead.t :=
  CourseRead.mk 9%N "MATH1101" "Calculus I" 4 None 1004 1005.

Definition ingrid : TeacherCreate.t :=
  TeacherCreate.mk "hi1234" "Hugh" "Ingrid" "COMS" "hi1234@columbia.edu"
    (Some "Teaching Assistant") None [].

Definition ingrid_read : TeacherRead.t :=
  TeacherRead.mk "hi1234" "Hugh" "Ingrid" "COMS" "hi1234@columbia.edu"
    (Some "Teaching Assistant") None [] 101%N 1006 1007.

Definition st_full : State :=
  (create_teacher validate_email ingrid (create_course math1101 st_teacher).2).2.

(** [{"courses": [...], "first_name": null}] *)
Definition courses_and_null_name : TeacherUpdate.t :=
  TeacherUpdate.mk None None None None None None None (Some [huma1123_with_id])
    {[ "courses"; "first_name" ]}.

(** [{"courses": null}] *)
Definition null_courses : TeacherUpdate.t :=
  TeacherUpdate.mk None None None None None None None None {[ "courses" ]}.

End Sample.

(** * Properties *)

Section Properties.
Context {unicode_tables : Unicode}.

(** ** Dictionaries *)

Lemma lookup_exclude_unset (fs : gset string) (d : gmap string Value) (k : string) :
  exclude_unset fs d !! k = if decide (k ∈ fs) then d !! k else None.
Proof.
  unfold exclude_unset. rewrite map_lookup_filter.
  destruct (d !! k) as [v|]; simpl.
  - destruct (decide (k ∈ fs)) as [Hin|Hout].
    + by rewrite option_guard_True.
    + by rewrite option_guard_False.
  - by destruct (decide (k ∈ fs)).
Qed.

Lemma lookup_dict_update (stored d : gmap string Value) (k : string) :
  dict_update stored d !! k =
  match d !! k with Some v => Some v | None => stored !! k end.
Proof.
  unfold dict_update. rewrite lookup_union.
  destruct (d !! k), (stored !! k); reflexivity.
Qed.

Lemma lookup_merged (fs : gset string) (stored d : gmap string Value) (k : string)
    (supplied kept : Value) :
  d !! k = Some supplied → stored !! k = Some kept →
  dict_update stored (exclude_unset fs d) !! k = Some (pick fs k supplied kept).
Proof.
  intros Hd Hs. rewrite lookup_dict_update, lookup_exclude_unset, Hd, Hs.
  unfold pick. by destruct (decide (k ∈ fs)).
Qed.

Lemma lookup_merged_kept (fs : gset string) (stored d : gmap string Value) (k : string) :
  d !! k = None → dict_update stored (exclude_unset fs d) !! k = stored !! k.
Proof.
  intros Hd. rewrite lookup_dict_update, lookup_exclude_unset, Hd.
  by destruct (decide (k ∈ fs)).
Qed.

Section PyDictFacts.
Context {V : Type}.
Implicit Types (d : list (UUID * V)) (k : UUID) (v : V).

Lemma dict_get_set k v d : dict_get k (dict_set k v d) = Some v.
Proof.
  induction d as [|[k' v'] d IH]; simpl.
  - by rewrite N.eqb_refl.
  - destruct (N.eqb k k') eqn:E; simpl; rewrite E; [done | apply IH].
Qed.

Lemma dict_set_set k v d : dict_set k v (dict_set k v d) = dict_set k v d.
Proof.
  induction d as [|[k' v'] d IH]; simpl.
  - by rewrite N.eqb_refl.
  - destruct (N.eqb k k') eqn:E; simpl; rewrite E; [done | by rewrite IH].
Qed.

Lemma dict_contains_get k d v : dict_get k d = Some v → dict_contains k d = true.
Proof. unfold dict_contains. by intros ->. Qed.

Lemma dict_contains_None k d : dict_get k d = None → dict_contains k d = false.
Proof. unfold dict_contains. by intros ->. Qed.

Lemma subscript_set k v d : subscript k (dict_set k v d) = Ok v.
Proof. unfold subscript. by rewrite dict_get_set. Qed.
End PyDictFacts.

(** ** What the constructors return on a merged dictionary *)

Lemma course_validate_merged (stored : CourseRead.t) (update : CourseUpdate.t) (w : World) :
  CourseRead.validate
    (dict_update (CourseRead.model_dump stored)
       (CourseUpdate.model_dump_exclude_unset update)) w =
  (course_merge stored update, w).
Proof.
  unfold course_merge. set (fs := CourseUpdate.model_fields_set update). unfold CourseRead.validate, CourseUpdate.model_dump_exclude_unset.
  rewrite (lookup_merged_kept _ _ _ "id") by done.
  rewrite (lookup_merged_kept _ _ _ "created_at") by done.
  rewrite (lookup_merged_kept _ _ _ "updated_at") by done.
  replace (CourseRead.model_dump stored !! "id")
    with (Some (VUuid (CourseRead.id stored))) by done.
  replace (CourseRead.model_dump stored !! "created_at")
    with (Some (VTime (CourseRead.created_at stored))) by done.
  replace (CourseRead.model_dump stored !! "updated_at")
    with (Some (VTime (CourseRead.updated_at stored))) by done.
  rewrite (lookup_merged fs _ _ "code" (of_opt_str (CourseUpdate.code update))
             (VStr (CourseRead.code stored))) by done.
  rewrite (lookup_merged fs _ _ "title" (of_opt_str (CourseUpdate.title update))
             (VStr (CourseRead.title stored))) by done.
  rewrite (lookup_merged fs _ _ "credits" (of_opt_int (CourseUpdate.credits update))
             (VInt (CourseRead.credits stored))) by done.
  rewrite (lookup_merged fs _ _ "location" (of_opt_str (CourseUpdate.location update))
             (of_opt_str (CourseRead.location stored))) by done.
  simpl.
  repeat match goal with |- context [match ?x with _ => _ end] => destruct x end;
    reflexivity.
Qed.

Lemma course_entry_validate_dump (c : CourseBase.t) (w : World) :
  CourseBase.validate (CourseBase.model_dump c) w =
  (if CourseBase.valid c then Some c else None, w).
Proof.
  unfold CourseBase.validate, CourseBase.valid.
  replace (CourseBase.model_dump c !! "id") with (Some (VUuid (CourseBase.id c))) by done.
  replace (CourseBase.model_dump c !! "code") with (Some (VStr (CourseBase.code c))) by done.
  replace (CourseBase.model_dump c !! "title") with (Some (VStr (CourseBase.title c))) by done.
  replace (CourseBase.model_dump c !! "credits")
    with (Some (VInt (CourseBase.credits c))) by done.
  replace (CourseBase.model_dump c !! "location")
    with (Some (of_opt_str (CourseBase.location c))) by done.
  destruct c as [i cd t n l]; simpl.
  destruct (CourseCode cd); simpl; [|done].
  destruct ((1 <=? n) && (n <=? 5))%bool; [|done].
  by destruct l.
Qed.

Lemma course_list_validate_dump (cs : list CourseBase.t) (w : World) :
  v_course_list (map (λ c, VDict (CourseBase.model_dump c)) cs) w =
  (if forallb CourseBase.valid cs then Some cs else None, w).
Proof.
  induction cs as [|c cs IH]; simpl; [done|].
  rewrite course_entry_validate_dump, IH.
  by destruct (CourseBase.valid c), (forallb CourseBase.valid cs).
Qed.

Section TeacherFacts.
Variable validate_email : string → option string.

Lemma teacher_validate_merged (stored : TeacherRead.t) (update : TeacherUpdate.t)
    (w : World) :
  TeacherRead.validate validate_email
    (dict_update (TeacherRead.model_dump stored)
       (TeacherUpdate.model_dump_exclude_unset update)) w =
  teacher_merge validate_email stored update w.
Proof.
  unfold teacher_merge. set (fs := TeacherUpdate.model_fields_set update). unfold TeacherRead.validate, TeacherUpdate.model_dump_exclude_unset.
  rewrite (lookup_merged_kept _ _ _ "id") by done.
  rewrite (lookup_merged_kept _ _ _ "created_at") by done.
  rewrite (lookup_merged_kept _ _ _ "updated_at") by done.
  replace (TeacherRead.model_dump stored !! "id")
    with (Some (VUuid (TeacherRead.id stored))) by done.
  replace (TeacherRead.model_dump stored !! "created_at")
    with (Some (VTime (TeacherRead.created_at stored))) by done.
  replace (TeacherRead.model_dump stored !! "updated_at")
    with (Some (VTime (TeacherRead.updated_at stored))) by done.
  rewrite (lookup_merged fs _ _ "uni" (of_opt_str (TeacherUpdate.uni update))
             (VStr (TeacherRead.uni stored))) by done.
  rewrite (lookup_merged fs _ _ "first_name" (of_opt_str (TeacherUpdate.first_name update))
             (VStr (TeacherRead.first_name stored))) by done.
  rewrite (lookup_merged fs _ _ "last_name" (of_opt_str (TeacherUpdate.last_name update))
             (VStr (TeacherRead.last_name stored))) by done.
  rewrite (lookup_merged fs _ _ "department" (of_opt_str (TeacherUpdate.department update))
             (VStr (TeacherRead.department stored))) by done.
  rewrite (lookup_merged fs _ _ "email" (of_opt_str (TeacherUpdate.email update))
             (VStr (TeacherRead.email stored))) by done.
  rewrite (lookup_merged fs _ _ "academic_title"
             (of_opt_str (TeacherUpdate.academic_title update))
             (of_opt_str (TeacherRead.academic_title stored))) by done.
  rewrite (lookup_merged fs _ _ "office" (of_opt_str (TeacherUpdate.office update))
             (of_opt_str (TeacherRead.office stored))) by done.
  rewrite (lookup_merged fs _ _ "courses"
             (TeacherUpdate.of_opt_courses (TeacherUpdate.courses update))
             (VList (map (λ c, VDict (CourseBase.model_dump c))
                       (TeacherRead.courses stored)))) by done.
  destruct (v_courses _ w) as [cs_ w']. simpl.
  repeat match goal with |- context [match ?x with _ => _ end] => destruct x end;
    reflexivity.
Qed.

End TeacherFacts.

(** ** Field by field *)

Lemma v_pattern_merged fs k pat (o : option string) (s r : string) :
  v_pattern pat (Some (pick fs k (of_opt_str o) (VStr s))) = Some r →
  field_merged fs k o (Some s) (Some r).
Proof.
  unfold pick, field_merged. destruct (decide (k ∈ fs)); [destruct o as [x|]|]; simpl;
    try done; destruct (pat _); intros [= ->]; done.
Qed.

Lemma v_str_merged fs k (o : option string) (s r : string) :
  v_str (Some (pick fs k (of_opt_str o) (VStr s))) = Some r →
  field_merged fs k o (Some s) (Some r).
Proof.
  unfold pick, field_merged. destruct (decide (k ∈ fs)); [destruct o as [x|]|]; simpl;
    try done; intros [= ->]; done.
Qed.

Lemma v_int_merged fs k ge le (o : option Z) (n r : Z) :
  v_int ge le (Some (pick fs k (of_opt_int o) (VInt n))) = Some r →
  field_merged fs k o (Some n) (Some r).
Proof.
  unfold pick, field_merged. destruct (decide (k ∈ fs)); [destruct o as [x|]|]; simpl;
    try done; destruct (_ && _)%bool; intros [= ->]; done.
Qed.

Lemma v_opt_str_merged fs k (o s r : option string) :
  v_opt_str (Some (pick fs k (of_opt_str o) (of_opt_str s))) = Some r →
  field_merged fs k o s r.
Proof.
  unfold pick, field_merged.
  destruct (decide (k ∈ fs)); [destruct o as [x|]|destruct s as [x|]]; simpl;
    intros [= <-]; done.
Qed.

Lemma v_email_merged ve fs k (o : option string) (s r : string) :
  normalised ve s → (∀ e, o = Some e → normalised ve e) →
  v_email ve (Some (pick fs k (of_opt_str o) (VStr s))) = Some r →
  field_merged fs k o (Some s) (Some r).
Proof.
  unfold pick, field_merged, normalised. intros Hs Ho.
  destruct (decide (k ∈ fs)); [destruct o as [x|]|]; simpl; try done.
  - rewrite (Ho x eq_refl). by intros [= ->].
  - rewrite Hs. by intros [= ->].
Qed.

(** Validating the result again, under the same payload, gives it back. *)

Lemma v_pattern_again fs k pat (p : Value) (s r : string) :
  v_pattern pat (Some (pick fs k p (VStr s))) = Some r →
  v_pattern pat (Some (pick fs k p (VStr r))) = Some r.
Proof.
  unfold pick. destruct (decide (k ∈ fs)); [done|]. simpl.
  destruct (pat s) eqn:E; intros [= <-]. by rewrite E.
Qed.

Lemma v_str_again fs k (p : Value) (s r : string) :
  v_str (Some (pick fs k p (VStr s))) = Some r →
  v_str (Some (pick fs k p (VStr r))) = Some r.
Proof. unfold pick. destruct (decide (k ∈ fs)); [done|]. simpl. by intros [= <-]. Qed.

Lemma v_int_again fs k ge le (p : Value) (n r : Z) :
  v_int ge le (Some (pick fs k p (VInt n))) = Some r →
  v_int ge le (Some (pick fs k p (VInt r))) = Some r.
Proof.
  unfold pick. destruct (decide (k ∈ fs)); [done|]. simpl.
  destruct (_ && _)%bool eqn:E; intros [= <-]. by rewrite E.
Qed.

Lemma v_opt_str_again fs k (p : Value) (s r : option string) :
  v_opt_str (Some (pick fs k p (of_opt_str s))) = Some r →
  v_opt_str (Some (pick fs k p (of_opt_str r))) = Some r.
Proof.
  unfold pick. destruct (decide (k ∈ fs)); [done|].
  destruct s; simpl; intros [= <-]; done.
Qed.

Lemma v_email_again ve fs k (p : Value) (s r : string) :
  normalised ve s →
  v_email ve (Some (pick fs k p (VStr s))) = Some r →
  v_email ve (Some (pick fs k p (VStr r))) = Some r.
Proof.
  unfold pick, normalised. intros Hs. destruct (decide (k ∈ fs)); [done|]. simpl.
  rewrite Hs. intros [= <-]. by rewrite Hs.
Qed.

(** ** Embedded courses *)

Lemma lookup_course_entry_payload (i : CourseBase.inst) (k : string) :
  CourseBase.model_dump_exclude_unset i !! k =
  if decide (k ∈ CourseBase.model_fields_set i)
  then CourseBase.model_dump (CourseBase.obj i) !! k else None.
Proof. unfold CourseBase.model_dump_exclude_unset. by rewrite lookup_exclude_unset. Qed.

Lemma course_entry_built (i : CourseBase.inst) (w w' : World) (c : CourseBase.t) :
  CourseBase.validate (CourseBase.model_dump_exclude_unset i) w = (Some c, w') →
  built_courses [i] w = ([c], w').
Proof.
  unfold CourseBase.validate. simpl.
  rewrite !lookup_course_entry_payload.
  destruct i as [[i cd t n l] fs].
  unfold CourseBase.obj, CourseBase.model_fields_set, CourseBase.code,
    CourseBase.title, CourseBase.credits, CourseBase.location, CourseBase.id.
  replace (CourseBase.model_dump (CourseBase.mk i cd t n l) !! "id")
    with (Some (VUuid i)) by reflexivity.
  replace (CourseBase.model_dump (CourseBase.mk i cd t n l) !! "code")
    with (Some (VStr cd)) by reflexivity.
  replace (CourseBase.model_dump (CourseBase.mk i cd t n l) !! "title")
    with (Some (VStr t)) by reflexivity.
  replace (CourseBase.model_dump (CourseBase.mk i cd t n l) !! "credits")
    with (Some (VInt n)) by reflexivity.
  replace (CourseBase.model_dump (CourseBase.mk i cd t n l) !! "location")
    with (Some (of_opt_str l)) by reflexivity.
  generalize (decide ("id" ∈ fs)) (decide ("code" ∈ fs)) (decide ("title" ∈ fs))
    (decide ("credits" ∈ fs)) (decide ("location" ∈ fs)).
  intros [Hid|Hid] [Hcode|Hcode] [Htitle|Htitle] [Hcredits|Hcredits] [Hloc|Hloc];
    unfold v_uuid, uuid4, v_pattern, v_str, v_int, v_opt_str, of_opt_str;
    destruct (CourseCode cd); try (intros [=]; fail);
    destruct ((1 <=? n) && (n <=? 5))%bool; try (intros [=]; fail);
    destruct l; intros [= <- <-]; reflexivity.
Qed.

Lemma course_list_built (l : list CourseBase.inst) (w w' : World)
    (cs : list CourseBase.t) :
  v_course_list (map (λ i, VDict (CourseBase.model_dump_exclude_unset i)) l) w
  = (Some cs, w') →
  built_courses l w = (cs, w').
Proof.
  revert w w' cs. induction l as [|i l IH]; intros w w' cs.
  - simpl. by intros [= <- <-].
  - cbn [map v_course_list].
    destruct (CourseBase.validate _ w) as [c w1] eqn:Ec.
    destruct (v_course_list _ w1) as [cs1 w2] eqn:Ecs.
    destruct c as [c|]; [|done]. destruct cs1 as [cs1|]; [|done].
    intros [= <- <-].
    apply course_entry_built in Ec. apply IH in Ecs.
    revert Ec. cbn [built_courses].
    destruct (if decide _ then _ else _) as [u w1']. intros [= <- <-].
    by rewrite Ecs.
Qed.

Lemma course_entry_world (i : CourseBase.inst) (w : World) :
  "id" ∈ CourseBase.model_fields_set i →
  (CourseBase.validate (CourseBase.model_dump_exclude_unset i) w).2 = w.
Proof.
  intros Hid. unfold CourseBase.validate.
  rewrite (lookup_course_entry_payload i "id").
  destruct (decide ("id" ∈ CourseBase.model_fields_set i)); [|done].
  replace (CourseBase.model_dump (CourseBase.obj i) !! "id")
    with (Some (VUuid (CourseBase.id (CourseBase.obj i)))) by done.
  done.
Qed.

Lemma course_list_world (l : list CourseBase.inst) (w : World) :
  forallb (λ i, bool_decide ("id" ∈ CourseBase.model_fields_set i)) l = true →
  (v_course_list (map (λ i, VDict (CourseBase.model_dump_exclude_unset i)) l) w).2 = w.
Proof.
  revert w. induction l as [|i l IH]; intros w; simpl; [done|].
  intros [Hi Hl]%andb_true_iff. apply bool_decide_eq_true in Hi.
  pose proof (course_entry_world i w Hi) as Hw.
  destruct (CourseBase.validate _ w) as [c w1]. simpl in Hw. subst w1.
  specialize (IH w Hl).
  destruct (v_course_list _ w) as [cs1 w2]. simpl in IH. by subst w2.
Qed.

Lemma v_courses_kept fs (p : Value) (cs0 : list CourseBase.t) (w : World) :
  "courses" ∉ fs →
  v_courses (Some (pick fs "courses" p
                     (VList (map (λ c, VDict (CourseBase.model_dump c)) cs0)))) w
  = (if forallb CourseBase.valid cs0 then Some cs0 else None, w).
Proof.
  intros Hout. unfold pick. destruct (decide ("courses" ∈ fs)); [done|].
  simpl. apply course_list_validate_dump.
Qed.

(** ** The update handlers, unfolded *)

Lemma state_eta (st : State) : mkState (courses st) (teachers st) (world st) = st.
Proof. by destruct st. Qed.

Lemma update_course_found (st : State) (course_id : UUID) (update : CourseUpdate.t)
    (stored : CourseRead.t) :
  dict_get course_id (courses st) = Some stored →
  update_course course_id update st =
  match course_merge stored update with
  | Some r => (Ok r, mkState (dict_set course_id r (courses st)) (teachers st) (world st))
  | None => (Raise ValidationError, st)
  end.
Proof.
  intros Hget. unfold update_course, subscript.
  rewrite (dict_contains_get _ _ _ Hget), Hget. simpl.
  rewrite course_validate_merged.
  destruct (course_merge stored update).
  - by rewrite dict_get_set.
  - by rewrite state_eta.
Qed.

Lemma update_course_missing (st : State) (course_id : UUID) (update : CourseUpdate.t) :
  dict_get course_id (courses st) = None →
  update_course course_id update st = (Raise (HTTPException 404 "Course not found"), st).
Proof. intros Hget. unfold update_course. by rewrite (dict_contains_None _ _ Hget). Qed.

Section UpdateTeacher.
Variable validate_email : string → option string.

Lemma update_teacher_found (st : State) (teacher_id : UUID) (update : TeacherUpdate.t)
    (stored : TeacherRead.t) :
  dict_get teacher_id (teachers st) = Some stored →
  update_teacher validate_email teacher_id update st =
  match teacher_merge validate_email stored update (world st) with
  | (Some r, w) =>
      (Ok r, mkState (courses st) (dict_set teacher_id r (teachers st)) w)
  | (None, w) => (Raise ValidationError, mkState (courses st) (teachers st) w)
  end.
Proof.
  intros Hget. unfold update_teacher, subscript.
  rewrite (dict_contains_get _ _ _ Hget), Hget. simpl.
  rewrite teacher_validate_merged.
  destruct (teacher_merge validate_email stored update (world st)) as [[r|] w]; [|done].
  by rewrite dict_get_set.
Qed.

Lemma update_teacher_missing (st : State) (teacher_id : UUID) (update : TeacherUpdate.t) :
  dict_get teacher_id (teachers st) = None →
  update_teacher validate_email teacher_id update st =
  (Raise (HTTPException 404 "Teacher not found"), st).
Proof. intros Hget. unfold update_teacher. by rewrite (dict_contains_None _ _ Hget). Qed.

End UpdateTeacher.

(** ** The merged entity *)

Lemma course_merge_frame (stored r : CourseRead.t) (update : CourseUpdate.t) :
  course_merge stored update = Some r →
  CourseRead.id r = CourseRead.id stored ∧
  CourseRead.created_at r = CourseRead.created_at stored ∧
  CourseRead.updated_at r = CourseRead.updated_at stored.
Proof.
  unfold course_merge.
  destruct (v_pattern _ _); [|done]. destruct (v_str _); [|done].
  destruct (v_int _ _ _); [|done]. destruct (v_opt_str _); [|done].
  by intros [= <-].
Qed.

Lemma course_merge_patched (stored r : CourseRead.t) (update : CourseUpdate.t) :
  course_merge stored update = Some r → course_patched update stored r.
Proof.
  unfold course_merge, course_patched.
  destruct (v_pattern _ _) as [c|] eqn:Ec; [|done].
  destruct (v_str _) as [t|] eqn:Et; [|done].
  destruct (v_int _ _ _) as [n|] eqn:En; [|done].
  destruct (v_opt_str _) as [l|] eqn:El; [|done].
  intros [= <-]; simpl.
  repeat split;
    eauto using v_pattern_merged, v_str_merged, v_int_merged, v_opt_str_merged.
Qed.

Lemma course_merge_again (stored r : CourseRead.t) (update : CourseUpdate.t) :
  course_merge stored update = Some r → course_merge r update = Some r.
Proof.
  unfold course_merge.
  destruct (v_pattern _ _) as [c|] eqn:Ec; [|done].
  destruct (v_str _) as [t|] eqn:Et; [|done].
  destruct (v_int _ _ _) as [n|] eqn:En; [|done].
  destruct (v_opt_str _) as [l|] eqn:El; [|done].
  intros [= <-].
  cbn [CourseRead.id CourseRead.code CourseRead.title CourseRead.credits
       CourseRead.location CourseRead.created_at CourseRead.updated_at].
  rewrite (v_pattern_again _ _ _ _ _ _ Ec), (v_str_again _ _ _ _ _ Et),
    (v_int_again _ _ _ _ _ _ _ En), (v_opt_str_again _ _ _ _ _ El).
  done.
Qed.

(** Case analysis on the outermost validated field of a merged entity; the
    rejected case closes by itself. *)
Ltac validated v H :=
  match goal with
  | |- context [match ?x with Some _ => _ | None => _ end] =>
      destruct x as [v|] eqn:H; [|done]
  end.

Ltac validated_any :=
  match goal with
  | |- context [match ?x with Some _ => _ | None => _ end] =>
      destruct x eqn:?; [|done]
  end.

Section TeacherMerge.
Variable validate_email : string → option string.

Lemma teacher_merge_frame (stored r : TeacherRead.t) (update : TeacherUpdate.t)
    (w w' : World) :
  teacher_merge validate_email stored update w = (Some r, w') →
  TeacherRead.id r = TeacherRead.id stored ∧
  TeacherRead.created_at r = TeacherRead.created_at stored ∧
  TeacherRead.updated_at r = TeacherRead.updated_at stored.
Proof.
  unfold teacher_merge. destruct (v_courses _ w) as [cs w1].
  validated_any.
  validated_any. validated_any. validated_any.
  validated_any.
  validated_any. validated_any.
  destruct cs; [|done].
  by intros [= <- <-].
Qed.

Lemma v_courses_replaced (update : TeacherUpdate.t) (stored r : TeacherRead.t)
    (w w' : World) :
  v_courses
    (Some (pick (TeacherUpdate.model_fields_set update) "courses"
             (TeacherUpdate.of_opt_courses (TeacherUpdate.courses update))
             (VList (map (λ c, VDict (CourseBase.model_dump c))
                       (TeacherRead.courses stored))))) w
  = (Some (TeacherRead.courses r), w') →
  courses_replaced update stored r w w'.
Proof.
  unfold courses_replaced, pick.
  destruct (decide ("courses" ∈ TeacherUpdate.model_fields_set update)) as [Hin|Hout].
  - destruct (TeacherUpdate.courses update) as [l|]; simpl; [|done].
    intros Hl. exists l. split; [done|]. symmetry. by apply course_list_built.
  - simpl. rewrite course_list_validate_dump.
    destruct (forallb _ _); [|done]. by intros [= <- <-].
Qed.

Lemma teacher_merge_replaced (stored r : TeacherRead.t) (update : TeacherUpdate.t)
    (w w' : World) :
  teacher_merge validate_email stored update w = (Some r, w') →
  courses_replaced update stored r w w'.
Proof.
  intros Hm. apply v_courses_replaced. revert Hm. unfold teacher_merge.
  destruct (v_courses _ w) as [cs w1].
  validated_any.
  validated_any. validated_any. validated_any.
  validated_any.
  validated_any. validated_any.
  destruct cs as [cs|]; [|done].
  by intros [= <- <-].
Qed.

Lemma teacher_merge_patched (stored r : TeacherRead.t) (update : TeacherUpdate.t)
    (w w' : World) :
  normalised validate_email (TeacherRead.email stored) →
  (∀ e, TeacherUpdate.email update = Some e → normalised validate_email e) →
  teacher_merge validate_email stored update w = (Some r, w') →
  teacher_patched update stored r w w'.
Proof.
  intros Hs Hu Hm. pose proof (teacher_merge_replaced _ _ _ _ _ Hm) as Hcs.
  revert Hm. unfold teacher_merge, teacher_patched.
  destruct (v_courses _ w) as [cs w1].
  validated u Eu.
  validated f Ef.
  validated l El.
  validated dp Ed.
  validated e Ee.
  validated a Ea.
  validated o Eo.
  destruct cs as [cs|]; [|done].
  intros [= <- <-]. simpl.
  repeat split;
    eauto using v_pattern_merged, v_str_merged, v_email_merged, v_opt_str_merged.
Qed.

(** When every course entry that the payload supplies has an [id], the update
    does not read the world. *)
Lemma teacher_merge_world (stored : TeacherRead.t) (update : TeacherUpdate.t)
    (w : World) :
  ("courses" ∈ TeacherUpdate.model_fields_set update → ids_supplied update = true) →
  (teacher_merge validate_email stored update w).2 = w.
Proof.
  intros Hids. unfold teacher_merge.
  assert ((v_courses
             (Some (pick (TeacherUpdate.model_fields_set update) "courses"
                      (TeacherUpdate.of_opt_courses (TeacherUpdate.courses update))
                      (VList (map (λ c, VDict (CourseBase.model_dump c))
                                (TeacherRead.courses stored))))) w).2 = w) as Hw.
  { unfold pick. destruct (decide ("courses" ∈ _)) as [Hin|Hout].
    - specialize (Hids Hin). unfold ids_supplied in Hids.
      destruct (TeacherUpdate.courses update) as [l|]; [|done].
      simpl. by apply course_list_world.
    - simpl. by rewrite course_list_validate_dump. }
  destruct (v_courses _ w) as [cs w1]. simpl in Hw. by subst w1.
Qed.

Lemma teacher_merge_again (stored r : TeacherRead.t) (update : TeacherUpdate.t)
    (w : World) :
  normalised validate_email (TeacherRead.email stored) →
  teacher_merge validate_email stored update w = (Some r, w) →
  teacher_merge validate_email r update w = (Some r, w).
Proof.
  intros Hs. unfold teacher_merge.
  destruct (v_courses _ w) as [cs w1] eqn:Ecs.
  validated u Eu.
  validated f Ef.
  validated l El.
  validated dp Ed.
  validated e Ee.
  validated a Ea.
  validated o Eo.
  destruct cs as [cs|]; [|done].
  intros [= <- ->].
  cbn [TeacherRead.uni TeacherRead.first_name TeacherRead.last_name
       TeacherRead.department TeacherRead.email TeacherRead.academic_title
       TeacherRead.office TeacherRead.courses TeacherRead.id
       TeacherRead.created_at TeacherRead.updated_at].
  rewrite (v_pattern_again _ _ _ _ _ _ Eu), (v_str_again _ _ _ _ _ Ef),
    (v_str_again _ _ _ _ _ El), (v_str_again _ _ _ _ _ Ed),
    (v_email_again _ _ _ _ _ _ Hs Ee), (v_opt_str_again _ _ _ _ _ Ea),
    (v_opt_str_again _ _ _ _ _ Eo).
  assert (v_courses
            (Some (pick (TeacherUpdate.model_fields_set update) "courses"
                     (TeacherUpdate.of_opt_courses (TeacherUpdate.courses update))
                     (VList (map (λ c, VDict (CourseBase.model_dump c)) cs)))) w
          = (Some cs, w)) as ->; [|done].
  revert Ecs. unfold pick. destruct (decide ("courses" ∈ _)); [done|].
  simpl. rewrite !course_list_validate_dump.
  destruct (forallb CourseBase.valid (TeacherRead.courses stored)) eqn:Ev; [|done].
  intros [= <-]. by rewrite Ev.
Qed.

End TeacherMerge.

(** ** The two patterns *)

Lemma take_class_Some (p : N → bool) (n : nat) (s rest : list N) :
  take_class p n s = Some rest ↔
  ∃ pre, s = (pre ++ rest)%list ∧ length pre = n ∧ Forall (λ c, p c = true) pre.
Proof.
  revert s. induction n as [|n IH]; intros s; simpl.
  - split.
    + intros [= ->]. by exists [].
    + intros (pre & -> & Hlen & _). by destruct pre.
  - destruct s as [|c s].
    + split; [done|]. intros ([|c pre] & Heq & Hlen & _); done.
    + destruct (p c) eqn:Hc.
      * rewrite IH. split.
        -- intros (pre & -> & <- & Hall). exists (c :: pre). by repeat constructor.
        -- intros ([|c' pre] & Heq & Hlen & Hall); [done|].
           injection Heq as <- ->. injection Hlen as <-.
           apply Forall_cons in Hall as [_ Hall]. by exists pre.
      * split; [done|]. intros ([|c' pre] & Heq & Hlen & Hall); [done|].
        injection Heq as <- ->. apply Forall_cons in Hall as [Hc' _]. congruence.
Qed.

Lemma fullmatch_cons (r : Repeat) (re : list Repeat) (s : list N) :
  fullmatch (r :: re) s = true ↔
  ∃ pre rest,
    s = (pre ++ rest)%list ∧ (rmin r ≤ length pre ≤ rmax r)%nat ∧
    Forall (λ c, rclass r c = true) pre ∧ fullmatch re rest = true.
Proof.
  simpl. rewrite existsb_exists. split.
  - intros (k & Hk%in_seq & Hm).
    destruct (take_class (rclass r) k s) as [rest|] eqn:Et; [|done].
    apply take_class_Some in Et as (pre & -> & <- & Hall).
    exists pre, rest. repeat split; try done; lia.
  - intros (pre & rest & -> & Hlen & Hall & Hm). exists (length pre). split.
    + apply in_seq. lia.
    + assert (take_class (rclass r) (length pre) (pre ++ rest) = Some rest) as ->; [|done].
      apply take_class_Some. by exists pre.
Qed.

Lemma CourseCode_spec (s : string) :
  CourseCode s = true ↔ four_letters_four_digits s.
Proof.
  unfold CourseCode, four_letters_four_digits, str_matches.
  destruct (code_points s) as [cps|]; [|split; [done | by intros (? & ? & ? & _)]].
  rewrite fullmatch_cons. split.
  - intros (letters & rest & -> & Hl & Hall & Hrest).
    apply fullmatch_cons in Hrest as (digits & rest' & -> & Hd & Halld & Hnil).
    simpl in Hnil. destruct rest'; [|done]. rewrite app_nil_r.
    exists letters, digits. simpl in *. repeat split; try done; lia.
  - intros (letters & digits & [= ->] & Hl & Hd & Hall & Halld).
    exists letters, digits. split; [done|]. split; [simpl; lia|]. split; [done|].
    apply fullmatch_cons. exists digits, []. rewrite app_nil_r. simpl.
    repeat split; try done; lia.
Qed.

(** ** The claims *)

(** C2. For every stored Course and every update payload whose [code] is
    present but is not four upper-case ASCII letters followed by four decimal
    digits (a null [code] included), [update_course] fails with
    [ValidationError] and leaves the whole state, the stored Course with it,
    as it was.  The digits are those of the class [\d] of the pattern. *)
Theorem update_course_rejects_bad_code (st : State) (course_id : UUID)
    (update : CourseUpdate.t) (stored : CourseRead.t) :
  dict_get course_id (courses st) = Some stored →
  "code" ∈ CourseUpdate.model_fields_set update →
  (∀ s, CourseUpdate.code update = Some s → ¬ four_letters_four_digits s) →
  update_course course_id update st = (Raise ValidationError, st) ∧
  dict_get course_id (courses (update_course course_id update st).2) = Some stored.
Proof.
  intros Hget Hin Hbad.
  assert (update_course course_id update st = (Raise ValidationError, st)) as Heq.
  { rewrite (update_course_found _ _ _ _ Hget).
    unfold course_merge, pick.
    destruct (decide ("code" ∈ CourseUpdate.model_fields_set update)); [|done].
    destruct (CourseUpdate.code update) as [s|] eqn:Ec; simpl; [|done].
    destruct (CourseCode s) eqn:Es; [|done].
    apply CourseCode_spec in Es. by destruct (Hbad s). }
  by rewrite Heq.
Qed.

Section CreateTeacher.
Variable validate_email : string → option string.

(** [create_teacher] calls [uuid4] once, for the id of the teacher, and
    [utcnow] twice; the payload decides everything else. *)
Lemma create_teacher_unfold (teacher : TeacherCreate.t) (st : State) :
  create_teacher validate_email teacher st =
  let '(i, w1) := uuid4 (world st) in
  let '(ca, w2) := utcnow w1 in
  let '(ua, w3) := utcnow w2 in
  match
    (if UNIType (TeacherCreate.uni teacher) then Some tt else None),
    validate_email (TeacherCreate.email teacher),
    (if forallb CourseBase.valid (TeacherCreate.courses teacher) then Some tt else None)
  with
  | Some _, Some e, Some _ =>
      let r :=
        TeacherRead.mk (TeacherCreate.uni teacher) (TeacherCreate.first_name teacher)
          (TeacherCreate.last_name teacher) (TeacherCreate.department teacher) e
          (TeacherCreate.academic_title teacher) (TeacherCreate.office teacher)
          (TeacherCreate.courses teacher) i ca ua in
      (Ok r, mkState (courses st) (dict_set i r (teachers st)) w3)
  | _, _, _ => (Raise ValidationError, mkState (courses st) (teachers st) w3)
  end.
Proof.
  unfold create_teacher, TeacherRead.validate.
  replace (TeacherCreate.model_dump teacher !! "uni")
    with (Some (VStr (TeacherCreate.uni teacher))) by done.
  replace (TeacherCreate.model_dump teacher !! "first_name")
    with (Some (VStr (TeacherCreate.first_name teacher))) by done.
  replace (TeacherCreate.model_dump teacher !! "last_name")
    with (Some (VStr (TeacherCreate.last_name teacher))) by done.
  replace (TeacherCreate.model_dump teacher !! "department")
    with (Some (VStr (TeacherCreate.department teacher))) by done.
  replace (TeacherCreate.model_dump teacher !! "email")
    with (Some (VStr (TeacherCreate.email teacher))) by done.
  replace (TeacherCreate.model_dump teacher !! "academic_title")
    with (Some (of_opt_str (TeacherCreate.academic_title teacher))) by done.
  replace (TeacherCreate.model_dump teacher !! "office")
    with (Some (of_opt_str (TeacherCreate.office teacher))) by done.
  replace (TeacherCreate.model_dump teacher !! "courses")
    with (Some (VList (map (λ c, VDict (CourseBase.model_dump c))
                         (TeacherCreate.courses teacher)))) by done.
  replace (TeacherCreate.model_dump teacher !! "id") with (@None Value) by done.
  replace (TeacherCreate.model_dump teacher !! "created_at") with (@None Value) by done.
  replace (TeacherCreate.model_dump teacher !! "updated_at") with (@None Value) by done.
  unfold v_courses. rewrite course_list_validate_dump.
  unfold v_uuid, v_datetime, v_pattern, v_str, v_email.
  destruct (uuid4 (world st)) as [i w1]. destruct (utcnow w1) as [ca w2].
  destruct (utcnow w2) as [ua w3].
  destruct (UNIType _); [|done].
  destruct (validate_email _); [|done].
  destruct (forallb _ _);
    by destruct (TeacherCreate.academic_title teacher), (TeacherCreate.office teacher).
Qed.

Lemma create_teacher_ok (teacher : TeacherCreate.t) (st st' : State) (r : TeacherRead.t) :
  create_teacher validate_email teacher st = (Ok r, st') →
  TeacherRead.id r = (uuid4 (world st)).1 ∧
  dict_get (TeacherRead.id r) (teachers st') = Some r ∧
  courses st' = courses st.
Proof.
  rewrite create_teacher_unfold.
  destruct (uuid4 (world st)) as [i w1]. destruct (utcnow w1) as [ca w2].
  destruct (utcnow w2) as [ua w3].
  destruct (UNIType _); [|done]. destruct (validate_email _); [|done].
  destruct (forallb _ _); [|done]. intros [= <- <-]. simpl.
  split; [done|]. split; [apply dict_get_set|done].
Qed.

End CreateTeacher.

(** C3. Creating a Course whose id is already a key of the Course store fails
    with [HTTPException 400] and changes nothing.  Creating a Teacher never
    raises an [HTTPException]: a valid payload is always stored, and the id of
    the stored Teacher is the answer of [uuid4], whatever the payload. *)
Theorem create_conflict (validate_email : string → option string) (st : State)
    (course : CourseCreate.t) (teacher : TeacherCreate.t) :
  (dict_contains (CourseBase.id course) (courses st) = true →
   create_course course st
   = (Raise (HTTPException 400 "Course with this ID already exists"), st)) ∧
  (∀ status detail,
     (create_teacher validate_email teacher st).1 ≠ Raise (HTTPException status detail)) ∧
  (TeacherCreate.valid validate_email teacher = true →
   ∃ r st', create_teacher validate_email teacher st = (Ok r, st')) ∧
  (∀ r st',
     create_teacher validate_email teacher st = (Ok r, st') →
     TeacherRead.id r = (uuid4 (world st)).1 ∧
     dict_get (TeacherRead.id r) (teachers st') = Some r ∧
     courses st' = courses st).
Proof.
  split; [|split; [|split]].
  - intros Hin. unfold create_course. by rewrite Hin.
  - intros status detail. unfold create_teacher.
    by destruct (TeacherRead.validate _ _ _) as [[r|] w].
  - unfold TeacherCreate.valid. intros [[Hu He]%andb_true_iff Hc]%andb_true_iff.
    apply bool_decide_eq_true in He.
    rewrite create_teacher_unfold, Hu, He, Hc.
    destruct (uuid4 (world st)) as [i w1]. destruct (utcnow w1) as [ca w2].
    destruct (utcnow w2) as [ua w3]. eauto.
  - intros r st'. apply create_teacher_ok.
Qed.

(** C8. A successful update of a stored Course or Teacher stores an entity
    with the id, [created_at] and [updated_at] of the stored one: the id does
    not change and no update writes a new timestamp. *)
Theorem update_keeps_id_and_timestamps (validate_email : string → option string)
    (st st' : State) (key : UUID) :
  (∀ (update : CourseUpdate.t) (stored r : CourseRead.t),
     dict_get key (courses st) = Some stored →
     update_course key update st = (Ok r, st') →
     dict_get key (courses st') = Some r ∧
     CourseRead.id r = CourseRead.id stored ∧
     CourseRead.created_at r = CourseRead.created_at stored ∧
     CourseRead.updated_at r = CourseRead.updated_at stored) ∧
  (∀ (update : TeacherUpdate.t) (stored r : TeacherRead.t),
     dict_get key (teachers st) = Some stored →
     update_teacher validate_email key update st = (Ok r, st') →
     dict_get key (teachers st') = Some r ∧
     TeacherRead.id r = TeacherRead.id stored ∧
     TeacherRead.created_at r = TeacherRead.created_at stored ∧
     TeacherRead.updated_at r = TeacherRead.updated_at stored).
Proof.
  split.
  - intros update stored r Hget. rewrite (update_course_found _ _ _ _ Hget).
    destruct (course_merge stored update) as [r'|] eqn:Em; [|done].
    intros [= <- <-]. simpl. split; [apply dict_get_set|].
    eauto using course_merge_frame.
  - intros update stored r Hget.
    rewrite (update_teacher_found _ _ _ _ _ Hget).
    destruct (teacher_merge _ stored update (world st)) as [[r'|] w] eqn:Em; [|done].
    intros [= <- <-]. simpl. split; [apply dict_get_set|].
    eauto using teacher_merge_frame.
Qed.

(** ** When an update is accepted *)

Lemma pick_supplied fs k (supplied kept : Value) :
  bool_decide (k ∈ fs) = true → pick fs k supplied kept = supplied.
Proof. intros H%bool_decide_eq_true. unfold pick. by destruct (decide (k ∈ fs)). Qed.

Lemma pick_kept fs k (supplied kept : Value) :
  bool_decide (k ∈ fs) = false → pick fs k supplied kept = kept.
Proof. intros H%bool_decide_eq_false. unfold pick. by destruct (decide (k ∈ fs)). Qed.

Lemma v_pattern_accepts fs k pat (o : option string) (s : string) :
  pat s = true → supplied_ok fs k o pat = true →
  is_Some (v_pattern pat (Some (pick fs k (of_opt_str o) (VStr s)))).
Proof.
  unfold supplied_ok. intros Hs. destruct (bool_decide (k ∈ fs)) eqn:E.
  - rewrite pick_supplied by done. destruct o as [x|]; [|done]. simpl. by intros ->.
  - rewrite pick_kept by done. simpl. by rewrite Hs.
Qed.

Lemma v_str_accepts fs k (o : option string) (s : string) :
  supplied_ok fs k o (λ _, true) = true →
  is_Some (v_str (Some (pick fs k (of_opt_str o) (VStr s)))).
Proof.
  unfold supplied_ok. destruct (bool_decide (k ∈ fs)) eqn:E.
  - rewrite pick_supplied by done. by destruct o.
  - by rewrite pick_kept by done.
Qed.

Lemma v_email_accepts ve fs k (o : option string) (s : string) :
  normalised ve s →
  supplied_ok fs k o (λ e, match ve e with Some _ => true | None => false end) = true →
  is_Some (v_email ve (Some (pick fs k (of_opt_str o) (VStr s)))).
Proof.
  unfold supplied_ok, normalised. intros Hs. destruct (bool_decide (k ∈ fs)) eqn:E.
  - rewrite pick_supplied by done. destruct o as [x|]; [|done]. simpl.
    by destruct (ve x).
  - rewrite pick_kept by done. simpl. by rewrite Hs.
Qed.

Lemma v_opt_str_accepts fs k (o s : option string) :
  is_Some (v_opt_str (Some (pick fs k (of_opt_str o) (of_opt_str s)))).
Proof. unfold pick. by destruct (decide (k ∈ fs)), o, s. Qed.

Lemma course_entry_accepts (i : CourseBase.inst) (w : World) :
  entry_acceptable i = true →
  is_Some (CourseBase.validate (CourseBase.model_dump_exclude_unset i) w).1.
Proof.
  unfold entry_acceptable, CourseBase.valid.
  intros [[[[[Hc Hlo]%andb_true_iff Hhi]%andb_true_iff Hcode%bool_decide_eq_true]%andb_true_iff
            Htitle%bool_decide_eq_true]%andb_true_iff Hcredits%bool_decide_eq_true]%andb_true_iff.
  unfold CourseBase.validate. rewrite !lookup_course_entry_payload.
  destruct (decide ("code" ∈ _)); [|done]. destruct (decide ("title" ∈ _)); [|done].
  destruct (decide ("credits" ∈ _)); [|done].
  destruct i as [[i cd t n l] fs].
  unfold CourseBase.obj, CourseBase.model_fields_set, CourseBase.code,
    CourseBase.credits in *.
  replace (CourseBase.model_dump (CourseBase.mk i cd t n l) !! "id")
    with (Some (VUuid i)) by reflexivity.
  replace (CourseBase.model_dump (CourseBase.mk i cd t n l) !! "code")
    with (Some (VStr cd)) by reflexivity.
  replace (CourseBase.model_dump (CourseBase.mk i cd t n l) !! "title")
    with (Some (VStr t)) by reflexivity.
  replace (CourseBase.model_dump (CourseBase.mk i cd t n l) !! "credits")
    with (Some (VInt n)) by reflexivity.
  replace (CourseBase.model_dump (CourseBase.mk i cd t n l) !! "location")
    with (Some (of_opt_str l)) by reflexivity.
  generalize (decide ("id" ∈ fs)) (decide ("location" ∈ fs)).
  intros [Hid|Hid] [Hloc|Hloc];
    unfold v_uuid, uuid4, v_pattern, v_str, v_int, v_opt_str, of_opt_str;
    rewrite Hc, Hlo, Hhi; destruct l; simpl; eauto.
Qed.

Lemma course_list_accepts (l : list CourseBase.inst) (w : World) :
  forallb entry_acceptable l = true →
  is_Some (v_course_list (map (λ i, VDict (CourseBase.model_dump_exclude_unset i)) l) w).1.
Proof.
  revert w. induction l as [|i l IH]; intros w; simpl; [eauto|].
  intros [Hi Hl]%andb_true_iff.
  pose proof (course_entry_accepts i w Hi) as Hc.
  destruct (CourseBase.validate _ w) as [c w1]. simpl in Hc. destruct Hc as [c' ->].
  specialize (IH w1 Hl). destruct (v_course_list _ w1) as [cs w2]. simpl in IH.
  destruct IH as [cs' ->]. simpl. eauto.
Qed.

Lemma teacher_merge_accepts ve (stored : TeacherRead.t) (update : TeacherUpdate.t)
    (w : World) :
  TeacherRead.valid ve stored = true →
  update_acceptable ve update = true →
  is_Some (teacher_merge ve stored update w).1.
Proof.
  unfold TeacherRead.valid, update_acceptable.
  intros [[Hu He%bool_decide_eq_true]%andb_true_iff Hcs]%andb_true_iff.
  intros [[[[[Huni Hfirst]%andb_true_iff Hlast]%andb_true_iff Hdept]%andb_true_iff
             Hemail]%andb_true_iff Hcourses]%andb_true_iff.
  unfold teacher_merge.
  assert (is_Some (v_courses
             (Some (pick (TeacherUpdate.model_fields_set update) "courses"
                      (TeacherUpdate.of_opt_courses (TeacherUpdate.courses update))
                      (VList (map (λ c, VDict (CourseBase.model_dump c))
                                (TeacherRead.courses stored))))) w).1) as Hc.
  { revert Hcourses. unfold supplied_ok.
    destruct (bool_decide ("courses" ∈ _)) eqn:E.
    - rewrite pick_supplied by done.
      destruct (TeacherUpdate.courses update) as [l|]; [|done]. simpl.
      apply course_list_accepts.
    - rewrite pick_kept by done. simpl. rewrite course_list_validate_dump, Hcs. eauto. }
  destruct (v_courses _ w) as [cs w1]. simpl in Hc. destruct Hc as [cs' ->].
  destruct (v_pattern_accepts _ _ _ _ _ Hu Huni) as [? ->].
  destruct (v_str_accepts _ _ _ (TeacherRead.first_name stored) Hfirst) as [? ->].
  destruct (v_str_accepts _ _ _ (TeacherRead.last_name stored) Hlast) as [? ->].
  destruct (v_str_accepts _ _ _ (TeacherRead.department stored) Hdept) as [? ->].
  destruct (v_email_accepts _ _ _ _ _ He Hemail) as [? ->].
  destruct (v_opt_str_accepts (TeacherUpdate.model_fields_set update) "academic_title"
              (TeacherUpdate.academic_title update) (TeacherRead.academic_title stored))
    as [? ->].
  destruct (v_opt_str_accepts (TeacherUpdate.model_fields_set update) "office"
              (TeacherUpdate.office update) (TeacherRead.office stored)) as [? ->].
  simpl. eauto.
Qed.

Lemma v_int_accepts fs k ge le (o : option Z) (n : Z) :
  ((ge <=? n) && (n <=? le))%bool = true →
  supplied_ok fs k o (λ n, (ge <=? n) && (n <=? le))%bool = true →
  is_Some (v_int ge le (Some (pick fs k (of_opt_int o) (VInt n)))).
Proof.
  unfold supplied_ok. intros Hn. destruct (bool_decide (k ∈ fs)) eqn:E.
  - rewrite pick_supplied by done. destruct o as [x|]; [|done]. simpl. by intros ->.
  - rewrite pick_kept by done. simpl. by rewrite Hn.
Qed.

(** Conversely, a field that the constructor accepts was acceptable. *)

Lemma v_pattern_supplied fs k pat (o : option string) (s r : string) :
  v_pattern pat (Some (pick fs k (of_opt_str o) (VStr s))) = Some r →
  supplied_ok fs k o pat = true.
Proof.
  unfold supplied_ok, pick. destruct (decide (k ∈ fs)) as [Hin|Hout].
  - rewrite bool_decide_eq_true_2 by done. destruct o as [x|]; simpl; [|done].
    by destruct (pat x).
  - by rewrite bool_decide_eq_false_2.
Qed.

Lemma v_str_supplied fs k (o : option string) (s r : string) :
  v_str (Some (pick fs k (of_opt_str o) (VStr s))) = Some r →
  supplied_ok fs k o (λ _, true) = true.
Proof.
  unfold supplied_ok, pick. destruct (decide (k ∈ fs)) as [Hin|Hout].
  - rewrite bool_decide_eq_true_2 by done. by destruct o.
  - by rewrite bool_decide_eq_false_2.
Qed.

Lemma v_int_supplied fs k ge le (o : option Z) (n r : Z) :
  v_int ge le (Some (pick fs k (of_opt_int o) (VInt n))) = Some r →
  supplied_ok fs k o (λ n, (ge <=? n) && (n <=? le))%bool = true.
Proof.
  unfold supplied_ok, pick. destruct (decide (k ∈ fs)) as [Hin|Hout].
  - rewrite bool_decide_eq_true_2 by done. destruct o as [x|]; simpl; [|done].
    by destruct (_ && _)%bool.
  - by rewrite bool_decide_eq_false_2.
Qed.

Lemma v_email_supplied ve fs k (o : option string) (s r : string) :
  v_email ve (Some (pick fs k (of_opt_str o) (VStr s))) = Some r →
  supplied_ok fs k o (λ e, match ve e with Some _ => true | None => false end) = true.
Proof.
  unfold supplied_ok, pick. destruct (decide (k ∈ fs)) as [Hin|Hout].
  - rewrite bool_decide_eq_true_2 by done. destruct o as [x|]; simpl; [|done].
    by destruct (ve x).
  - by rewrite bool_decide_eq_false_2.
Qed.

Lemma course_entry_supplied (i : CourseBase.inst) (w w' : World) (c : CourseBase.t) :
  CourseBase.validate (CourseBase.model_dump_exclude_unset i) w = (Some c, w') →
  entry_acceptable i = true.
Proof.
  unfold CourseBase.validate, entry_acceptable, CourseBase.valid.
  rewrite !lookup_course_entry_payload.
  destruct i as [[i cd t n l] fs].
  unfold CourseBase.obj, CourseBase.model_fields_set, CourseBase.code,
    CourseBase.title, CourseBase.credits, CourseBase.location, CourseBase.id.
  replace (CourseBase.model_dump (CourseBase.mk i cd t n l) !! "id")
    with (Some (VUuid i)) by reflexivity.
  replace (CourseBase.model_dump (CourseBase.mk i cd t n l) !! "code")
    with (Some (VStr cd)) by reflexivity.
  replace (CourseBase.model_dump (CourseBase.mk i cd t n l) !! "title")
    with (Some (VStr t)) by reflexivity.
  replace (CourseBase.model_dump (CourseBase.mk i cd t n l) !! "credits")
    with (Some (VInt n)) by reflexivity.
  replace (CourseBase.model_dump (CourseBase.mk i cd t n l) !! "location")
    with (Some (of_opt_str l)) by reflexivity.
  generalize (decide ("id" ∈ fs)) (decide ("code" ∈ fs)) (decide ("title" ∈ fs))
    (decide ("credits" ∈ fs)) (decide ("location" ∈ fs)).
  intros [Hid|Hid] [Hcode|Hcode] [Htitle|Htitle] [Hcredits|Hcredits] [Hloc|Hloc];
    unfold v_uuid, uuid4, v_pattern, v_str, v_int, v_opt_str, of_opt_str;
    try (intros [=]; fail);
    destruct (CourseCode cd); try (intros [=]; fail);
    rewrite andb_true_l;
    destruct ((1 <=? n) && (n <=? 5))%bool; try (intros [=]; fail);
    intros _; rewrite !bool_decide_eq_true_2 by done; reflexivity.
Qed.

Lemma course_list_supplied (l : list CourseBase.inst) (w w' : World)
    (cs : list CourseBase.t) :
  v_course_list (map (λ i, VDict (CourseBase.model_dump_exclude_unset i)) l) w
  = (Some cs, w') →
  forallb entry_acceptable l = true.
Proof.
  revert w w' cs. induction l as [|i l IH]; intros w w' cs; [done|].
  cbn [map v_course_list forallb].
  destruct (CourseBase.validate _ w) as [c w1] eqn:Ec.
  destruct (v_course_list _ w1) as [cs1 w2] eqn:Ecs.
  destruct c as [c|]; [|done]. destruct cs1 as [cs1|]; [|done].
  intros _. apply andb_true_iff. eauto using course_entry_supplied.
Qed.

Lemma v_courses_supplied fs (o : option (list CourseBase.inst)) (kept : Value)
    (w w' : World) (cs : list CourseBase.t) :
  v_courses (Some (pick fs "courses" (TeacherUpdate.of_opt_courses o) kept)) w
  = (Some cs, w') →
  supplied_ok fs "courses" o (forallb entry_acceptable) = true.
Proof.
  unfold supplied_ok, pick. destruct (decide ("courses" ∈ fs)) as [Hin|Hout].
  - rewrite bool_decide_eq_true_2 by done. destruct o as [l|]; simpl; [|done].
    apply course_list_supplied.
  - by rewrite bool_decide_eq_false_2.
Qed.

Lemma teacher_merge_supplied ve (stored r : TeacherRead.t) (update : TeacherUpdate.t)
    (w w' : World) :
  teacher_merge ve stored update w = (Some r, w') →
  update_acceptable ve update = true.
Proof.
  unfold teacher_merge, update_acceptable.
  destruct (v_courses _ w) as [cs w1] eqn:Ecs.
  validated u Eu.
  validated f Ef.
  validated l El.
  validated dp Ed.
  validated e Ee.
  validated a Ea.
  validated o Eo.
  destruct cs as [cs|]; [|done].
  intros _. rewrite !andb_true_iff.
  split; [split; [split; [split; [split|]|]|]|];
    eauto using v_pattern_supplied, v_str_supplied, v_email_supplied, v_courses_supplied.
Qed.

(** An update of a valid stored entity is accepted exactly when the payload
    is acceptable. *)

Lemma course_merge_accepted (stored : CourseRead.t) (update : CourseUpdate.t) :
  CourseRead.valid stored = true →
  course_update_acceptable update = true ↔ is_Some (course_merge stored update).
Proof.
  unfold CourseRead.valid.
  intros [[Hc Hlo]%andb_true_iff Hhi]%andb_true_iff.
  assert (((1 <=? CourseRead.credits stored) && (CourseRead.credits stored <=? 5))%bool
          = true) as Hn by (by rewrite Hlo, Hhi).
  unfold course_update_acceptable, course_merge. split.
  - intros [[Hcode Htitle]%andb_true_iff Hcredits]%andb_true_iff.
    destruct (v_pattern_accepts _ _ _ _ _ Hc Hcode) as [? ->].
    destruct (v_str_accepts _ _ _ (CourseRead.title stored) Htitle) as [? ->].
    destruct (v_int_accepts _ _ _ _ _ _ Hn Hcredits) as [? ->].
    destruct (v_opt_str_accepts (CourseUpdate.model_fields_set update) "location"
                (CourseUpdate.location update) (CourseRead.location stored)) as [? ->].
    eauto.
  - intros [r Hr]. revert Hr.
    validated c Ec.
    validated t Et.
    validated n En.
    intros _. rewrite !andb_true_iff.
    split; [split|]; eauto using v_pattern_supplied, v_str_supplied, v_int_supplied.
Qed.

Lemma teacher_merge_accepted ve (stored : TeacherRead.t) (update : TeacherUpdate.t)
    (w : World) :
  TeacherRead.valid ve stored = true →
  update_acceptable ve update = true ↔ is_Some (teacher_merge ve stored update w).1.
Proof.
  intros Hv. split; [by apply teacher_merge_accepts|].
  destruct (teacher_merge ve stored update w) as [[r|] w'] eqn:Em; simpl.
  - intros _. eauto using teacher_merge_supplied.
  - by intros [? [=]].
Qed.

(** C1, as the code has it.  For every stored Course or Teacher and every
    update payload, the update either fails with [ValidationError] and leaves
    both stores as they were, or stores and returns an entity in which every
    field that the payload supplies holds the payload's value, null included,
    and every other field keeps the stored value.  It stores and returns such
    an entity exactly when the payload is acceptable: no required field is
    supplied as null, and no supplied value is one that the entity rejects.
    The embedded courses of a Teacher are, when supplied, the courses built
    from the payload's list, and the stored ones otherwise. *)
Theorem update_merge_patch (validate_email : string → option string)
    (st : State) (key : UUID) :
  (∀ (update : CourseUpdate.t) (stored : CourseRead.t),
     dict_get key (courses st) = Some stored →
     (CourseRead.valid stored = true →
      (course_update_acceptable update = true ↔
       ∃ r st', update_course key update st = (Ok r, st'))) ∧
     match update_course key update st with
     | (Ok r, st') =>
         dict_get key (courses st') = Some r ∧ course_patched update stored r
     | (Raise e, st') => e = ValidationError ∧ st' = st
     end) ∧
  (∀ (update : TeacherUpdate.t) (stored : TeacherRead.t),
     dict_get key (teachers st) = Some stored →
     (TeacherRead.valid validate_email stored = true →
      (update_acceptable validate_email update = true ↔
       ∃ r st', update_teacher validate_email key update st = (Ok r, st'))) ∧
     (normalised validate_email (TeacherRead.email stored) →
      (∀ e, TeacherUpdate.email update = Some e → normalised validate_email e) →
      match update_teacher validate_email key update st with
      | (Ok r, st') =>
          dict_get key (teachers st') = Some r ∧
          teacher_patched update stored r (world st) (world st')
      | (Raise e, st') =>
          e = ValidationError ∧ courses st' = courses st ∧ teachers st' = teachers st
      end)).
Proof.
  split.
  - intros update stored Hget. rewrite (update_course_found _ _ _ _ Hget). split.
    + intros Hv. rewrite (course_merge_accepted stored update Hv).
      destruct (course_merge stored update) as [r|]; split.
      * eauto.
      * intros _. by exists r.
      * by intros [? [=]].
      * by intros (r & st' & [=]).
    + destruct (course_merge stored update) as [r|] eqn:Em; [|done].
      simpl. split; [apply dict_get_set|]. by apply course_merge_patched.
  - intros update stored Hget.
    rewrite (update_teacher_found _ _ _ _ _ Hget). split.
    + intros Hv. rewrite (teacher_merge_accepted _ stored update (world st) Hv).
      destruct (teacher_merge _ stored update (world st)) as [[r|] w]; simpl; split.
      * eauto.
      * intros _. by exists r.
      * by intros [? [=]].
      * by intros (r & st' & [=]).
    + intros Hs Hu.
      destruct (teacher_merge _ stored update (world st)) as [[r|] w] eqn:Em; [|done].
      simpl. split; [apply dict_get_set|]. eauto using teacher_merge_patched.
Qed.

(** C4, as the code has it.  An update of a stored Teacher is accepted
    exactly when its payload is acceptable; a payload that supplies [courses]
    as null is not.  An accepted update whose payload supplies [courses]
    stores, in place of the whole embedded list, the courses built from the
    payload's list alone: each has the fields that its entry supplies, the
    next answer of [uuid4] as its id when the entry supplies none, and no
    location when the entry supplies none; supplied empty, the stored list
    becomes empty.  An accepted update whose payload does not supply
    [courses] leaves the stored list, and the world, as they were.  A
    rejected update fails with [ValidationError] and leaves the stored
    Teacher, its courses with it, as it was. *)
Theorem update_teacher_courses (validate_email : string → option string) (st : State)
    (key : UUID) (update : TeacherUpdate.t) (stored : TeacherRead.t) :
  dict_get key (teachers st) = Some stored →
  (TeacherRead.valid validate_email stored = true →
   (update_acceptable validate_email update = true ↔
    ∃ r st', update_teacher validate_email key update st = (Ok r, st'))) ∧
  (∀ r st',
     update_teacher validate_email key update st = (Ok r, st') →
     dict_get key (teachers st') = Some r ∧
     courses_replaced update stored r (world st) (world st') ∧
     (TeacherUpdate.courses update = Some [] →
      "courses" ∈ TeacherUpdate.model_fields_set update →
      TeacherRead.courses r = [])) ∧
  (∀ e st',
     update_teacher validate_email key update st = (Raise e, st') →
     e = ValidationError ∧ dict_get key (teachers st') = Some stored ∧
     teachers st' = teachers st ∧ courses st' = courses st) ∧
  ("courses" ∈ TeacherUpdate.model_fields_set update →
   TeacherUpdate.courses update = None →
   ∃ st', update_teacher validate_email key update st = (Raise ValidationError, st')).
Proof.
  intros Hget. rewrite (update_teacher_found _ _ _ _ _ Hget).
  split; [|split; [|split]].
  - intros Hv. rewrite (teacher_merge_accepted _ stored update (world st) Hv).
    destruct (teacher_merge _ stored update (world st)) as [[r|] w]; simpl; split.
    + eauto.
    + intros _. by exists r.
    + by intros [? [=]].
    + by intros (r & st' & [=]).
  - intros r st'.
    destruct (teacher_merge _ stored update (world st)) as [[r'|] w] eqn:Em; [|done].
    intros [= <- <-]. simpl. split; [apply dict_get_set|].
    pose proof (teacher_merge_replaced _ _ _ _ _ _ Em) as Hp. split; [done|].
    intros Hnil Hin. unfold courses_replaced in Hp.
    destruct (decide ("courses" ∈ _)); [|done].
    destruct Hp as (l & Hl & Hb). rewrite Hnil in Hl. injection Hl as <-.
    simpl in Hb. by injection Hb.
  - intros e st'.
    destruct (teacher_merge _ stored update (world st)) as [[r'|] w] eqn:Em; [done|].
    by intros [= <- <-].
  - intros Hin Hnone.
    destruct (teacher_merge _ stored update (world st)) as [[r'|] w] eqn:Em; [|eauto].
    apply teacher_merge_supplied in Em. revert Em. unfold update_acceptable.
    rewrite !andb_true_iff. intros (_ & Hc). revert Hc. unfold supplied_ok.
    rewrite bool_decide_eq_true_2 by done. by rewrite Hnone.
Qed.

(** C7, as the code has it.  Applying an update payload a second time changes
    nothing: for every Course update; and for every Teacher update that does
    not supply [courses], or whose supplied course entries all carry an [id].
    (A course entry without an id is given a new one by each application.) *)
Theorem update_idempotent (validate_email : string → option string) (st : State)
    (key : UUID) :
  (∀ update : CourseUpdate.t,
     let st1 := (update_course key update st).2 in
     (update_course key update st1).2 = st1) ∧
  (∀ update : TeacherUpdate.t,
     (∀ stored, dict_get key (teachers st) = Some stored →
                normalised validate_email (TeacherRead.email stored)) →
     ("courses" ∈ TeacherUpdate.model_fields_set update → ids_supplied update = true) →
     let st1 := (update_teacher validate_email key update st).2 in
     (update_teacher validate_email key update st1).2 = st1).
Proof.
  split.
  - intros update. simpl.
    destruct (dict_get key (courses st)) as [stored|] eqn:Hget.
    + rewrite (update_course_found _ _ _ _ Hget).
      destruct (course_merge stored update) as [r|] eqn:Em; simpl.
      * rewrite (update_course_found _ _ _ r) by apply dict_get_set.
        rewrite (course_merge_again _ _ _ Em). simpl. by rewrite dict_set_set.
      * rewrite (update_course_found _ _ _ _ Hget). by rewrite Em.
    + rewrite (update_course_missing _ _ _ Hget). simpl.
      by rewrite (update_course_missing _ _ _ Hget).
  - intros update Hnorm Hids. simpl.
    destruct (dict_get key (teachers st)) as [stored|] eqn:Hget.
    + rewrite (update_teacher_found _ _ _ _ _ Hget).
      pose proof (teacher_merge_world validate_email stored update (world st) Hids) as Hw.
      destruct (teacher_merge _ stored update (world st)) as [[r|] w] eqn:Em;
        simpl in Hw; subst w; simpl.
      * rewrite (update_teacher_found _ _ _ _ r) by apply dict_get_set. simpl.
        rewrite (teacher_merge_again _ _ _ _ _ (Hnorm stored eq_refl) Em).
        simpl. by rewrite dict_set_set.
      * rewrite state_eta. rewrite (update_teacher_found _ _ _ _ _ Hget).
        rewrite Em. simpl. by rewrite state_eta.
    + rewrite (update_teacher_missing _ _ _ _ Hget). simpl.
      by rewrite (update_teacher_missing _ _ _ _ Hget).
Qed.

(** ** Listings *)

Lemma filter_if_filter {A B : Type} (crit : option B) (test : A → B → bool) (l : list A) :
  filter_if crit test l =
  List.filter (λ a, match crit with Some v => test a v | None => true end) l.
Proof.
  destruct crit as [v|]; simpl; [done|].
  induction l as [|a l IH]; simpl; congruence.
Qed.

Lemma filter_filter_andb {A : Type} (f g : A → bool) (l : list A) :
  List.filter g (List.filter f l) = List.filter (λ a, f a && g a)%bool l.
Proof.
  induction l as [|a l IH]; simpl; [done|].
  destruct (f a); simpl; [destruct (g a)|]; congruence.
Qed.

Lemma crit_eq_string (crit : option string) (x : string) :
  match crit with Some v => String.eqb x v | None => true end = crit_eq crit x.
Proof.
  destruct crit as [v|]; simpl; [|done].
  destruct (String.eqb_spec x v);
    [rewrite bool_decide_eq_true_2|rewrite bool_decide_eq_false_2]; done.
Qed.

Lemma crit_eq_Z (crit : option Z) (x : Z) :
  match crit with Some v => Z.eqb x v | None => true end = crit_eq crit x.
Proof.
  destruct crit as [v|]; simpl; [|done].
  destruct (Z.eqb_spec x v);
    [rewrite bool_decide_eq_true_2|rewrite bool_decide_eq_false_2]; done.
Qed.

Lemma crit_eq_opt_string (crit : option string) (x : option string) :
  match crit with Some v => opt_str_eqb x v | None => true end = crit_eq_opt crit x.
Proof.
  destruct crit as [v|]; [|done]. destruct x as [s|]; unfold crit_eq_opt, opt_str_eqb.
  - destruct (String.eqb_spec s v); symmetry;
      [apply bool_decide_eq_true_2|apply bool_decide_eq_false_2]; congruence.
  - symmetry. by apply bool_decide_eq_false_2.
Qed.

Lemma list_courses_filter (code title : option string) (credits : option Z)
    (location : option string) (st : State) :
  list_courses code title credits location st =
  List.filter (course_satisfies code title credits location) (dict_values (courses st)).
Proof.
  unfold list_courses. cbv zeta. rewrite !filter_if_filter, !filter_filter_andb.
  apply List.filter_ext. intros a. unfold course_satisfies.
  by rewrite !crit_eq_string, crit_eq_Z, crit_eq_opt_string, !andb_assoc.
Qed.

Lemma list_teachers_filter
    (uni first_name last_name department email academic_title office : option string)
    (location : option string) (credits : option Z) (st : State) :
  list_teachers uni first_name last_name department email academic_title office
    location credits st =
  List.filter
    (λ t, teacher_satisfies uni first_name last_name department email academic_title
            office t && nested_satisfies location credits t)%bool
    (dict_values (teachers st)).
Proof.
  unfold list_teachers. cbv zeta. rewrite !filter_if_filter, !filter_filter_andb.
  apply List.filter_ext. intros t. unfold teacher_satisfies, nested_satisfies.
  rewrite !crit_eq_string, !crit_eq_opt_string.
  by rewrite !andb_assoc.
Qed.

(** C5. For every state and every set of criteria, each absent or present
    with a value, a listing is the store's listing, in its order, filtered by
    the conjunction of the present criteria.  With no criterion it is the
    whole listing; on an empty store, or when nothing matches, it is the empty
    list.  For teachers the conjunction includes the two criteria on the
    embedded courses when they are present. *)
Theorem listing_is_filtered_store
    (code title : option string) (credits : option Z) (location : option string)
    (uni first_name last_name department email academic_title office : option string)
    (st : State) :
  list_courses code title credits location st
  = List.filter (course_satisfies code title credits location) (dict_values (courses st)) ∧
  list_teachers uni first_name last_name department email academic_title office
    None None st
  = List.filter
      (teacher_satisfies uni first_name last_name department email academic_title office)
      (dict_values (teachers st)) ∧
  list_teachers uni first_name last_name department email academic_title office
    location credits st
  = List.filter (nested_satisfies location credits)
      (list_teachers uni first_name last_name department email academic_title office
         None None st) ∧
  list_courses None None None None st = dict_values (courses st) ∧
  list_teachers None None None None None None None None None st
  = dict_values (teachers st) ∧
  list_courses code title credits location (mkState [] (teachers st) (world st)) = [] ∧
  list_teachers uni first_name last_name department email academic_title office
    location credits (mkState (courses st) [] (world st)) = [] ∧
  (List.forallb (λ a, negb (course_satisfies code title credits location a))
     (dict_values (courses st)) = true →
   list_courses code title credits location st = []).
Proof.
  split; [apply list_courses_filter|].
  split.
  { rewrite list_teachers_filter. apply List.filter_ext. intros t.
    unfold nested_satisfies. by rewrite andb_true_r. }
  split.
  { rewrite !list_teachers_filter, filter_filter_andb.
    apply List.filter_ext. intros t. unfold nested_satisfies at 2.
    by rewrite !andb_true_r. }
  do 2 (split; [reflexivity|]).
  split; [by rewrite list_courses_filter|].
  split; [by rewrite list_teachers_filter|].
  rewrite list_courses_filter.
  induction (dict_values (courses st)) as [|a l IH]; simpl; [done|].
  intros [Ha Hl]%andb_true_iff. apply negb_true_iff in Ha. rewrite Ha. by apply IH.
Qed.

Lemma or_empty_default (o : option string) :
  or_empty o = match o with Some s => s | None => "" end.
Proof.
  destruct o as [s|]; simpl; [|done].
  destruct (String.eqb_spec s ""); congruence.
Qed.

Lemma nested_location_iff (loc : string) (t : TeacherRead.t) :
  nested_satisfies (Some loc) None t = true ↔
  ∃ c, In c (TeacherRead.courses t) ∧
       match CourseBase.location c with Some s => s | None => "" end = loc.
Proof.
  unfold nested_satisfies. rewrite andb_true_r, existsb_exists.
  split; intros (c & Hc & Heq); exists c; split; try done.
  - rewrite <- or_empty_default. by apply String.eqb_eq.
  - rewrite <- or_empty_default in Heq. by apply String.eqb_eq.
Qed.

Lemma nested_credits_iff (n : Z) (t : TeacherRead.t) :
  nested_satisfies None (Some n) t = true ↔
  ∃ c, In c (TeacherRead.courses t) ∧ CourseBase.credits c = n.
Proof.
  unfold nested_satisfies. simpl. rewrite existsb_exists.
  split; intros (c & Hc & Heq); exists c; split; try done; by apply Z.eqb_eq.
Qed.

Lemma list_teachers_nested (st : State) (t : TeacherRead.t) (location : option string)
    (credits : option Z) :
  In t (list_teachers None None None None None None None location credits st) ↔
  In t (dict_values (teachers st)) ∧ nested_satisfies location credits t = true.
Proof. rewrite list_teachers_filter, filter_In. reflexivity. Qed.

(** C6, as the code has it.  A Teacher of the store satisfies a present
    criterion on the [credits] of its embedded courses if and only if one of
    them has that number of credits, and a present criterion on their
    [location] if and only if one of them has that location, where a course
    without a location counts as one whose location is the empty string.  A
    Teacher without embedded courses satisfies neither. *)
Theorem nested_existence (st : State) (t : TeacherRead.t) (loc : string) (n : Z) :
  (In t (list_teachers None None None None None None None (Some loc) None st) ↔
   In t (dict_values (teachers st)) ∧
   ∃ c, In c (TeacherRead.courses t) ∧
        match CourseBase.location c with Some s => s | None => "" end = loc) ∧
  (In t (list_teachers None None None None None None None None (Some n) st) ↔
   In t (dict_values (teachers st)) ∧
   ∃ c, In c (TeacherRead.courses t) ∧ CourseBase.credits c = n) ∧
  (TeacherRead.courses t = [] →
   ¬ In t (list_teachers None None None None None None None (Some loc) None st) ∧
   ¬ In t (list_teachers None None None None None None None None (Some n) st)).
Proof.
  split; [|split].
  - by rewrite list_teachers_nested, nested_location_iff.
  - by rewrite list_teachers_nested, nested_credits_iff.
  - intros Hnil.
    rewrite !list_teachers_nested, nested_location_iff, nested_credits_iff, Hnil.
    split; intros (_ & c & [] & _).
Qed.

(** C10. In the listing of teachers a criterion on [location] keeps, of the
    teachers that the other criteria keep, exactly those one of whose
    embedded courses has the location of the criterion, a course without a
    location counting as one whose location is the empty string; so a teacher
    of the store one of whose embedded courses has no location satisfies the
    criterion [location=""].  In the listing of courses a criterion on
    [location] keeps exactly the courses whose location is assigned and
    equal to it; so a course without a location satisfies no criterion on
    [location], whatever its value and the other criteria. *)
Theorem unassigned_location_in_listings (st : State) :
  (∀ (uni first_name last_name department email academic_title office : option string)
     (credits : option Z) (loc : string) (t : TeacherRead.t),
     In t (list_teachers uni first_name last_name department email academic_title
             office (Some loc) credits st) ↔
     In t (list_teachers uni first_name last_name department email academic_title
             office None credits st) ∧
     ∃ c, In c (TeacherRead.courses t) ∧
          match CourseBase.location c with Some s => s | None => "" end = loc) ∧
  (∀ (t : TeacherRead.t) (c : CourseBase.t),
     In t (dict_values (teachers st)) →
     In c (TeacherRead.courses t) →
     CourseBase.location c = None →
     In t (list_teachers None None None None None None None (Some "") None st)) ∧
  (∀ (code title : option string) (credits : option Z) (loc : string) (a : CourseRead.t),
     In a (list_courses code title credits (Some loc) st) ↔
     In a (list_courses code title credits None st) ∧ CourseRead.location a = Some loc) ∧
  (∀ (code title : option string) (credits : option Z) (loc : string) (a : CourseRead.t),
     CourseRead.location a = None →
     ¬ In a (list_courses code title credits (Some loc) st)).
Proof.
  split; [|split; [|split]].
  - intros uni first_name last_name department email academic_title office credits loc t.
    rewrite !list_teachers_filter, !filter_In, <- nested_location_iff.
    unfold nested_satisfies. rewrite !andb_true_iff. tauto.
  - intros t c Ht Hc Hloc. apply list_teachers_nested. split; [done|].
    apply nested_location_iff. exists c. by rewrite Hloc.
  - intros code title credits loc a. rewrite !list_courses_filter, !filter_In.
    unfold course_satisfies, crit_eq_opt. rewrite !andb_true_iff, bool_decide_eq_true.
    tauto.
  - intros code title credits loc a Hloc. rewrite list_courses_filter, filter_In.
    intros [_ Hsat]. unfold course_satisfies, crit_eq_opt in Hsat. rewrite Hloc in Hsat.
    rewrite bool_decide_eq_false_2 in Hsat by done. by rewrite andb_false_r in Hsat.
Qed.

(** ** The fields of an embedded course *)

Lemma dom_course_entry (c : CourseBase.t) :
  dom (CourseBase.model_dump c) = CourseBase_fields.
Proof.
  unfold CourseBase.model_dump, CourseBase_fields.
  rewrite !dom_insert_L, dom_empty_L. set_solver.
Qed.

Lemma dom_course (c : CourseRead.t) :
  dom (CourseRead.model_dump c) = CourseRead_fields.
Proof.
  unfold CourseRead.model_dump, CourseRead_fields, CourseBase_fields.
  rewrite !dom_insert_L, dom_empty_L. set_solver.
Qed.

(** C9, as the code has it.  Each entry of the embedded [courses] of a Teacher
    that was created or updated is a [CourseBase] value: it carries the fields
    of a Course without the two timestamps, its own [id] included.  It is not
    a row of the Course store: creating or updating a Teacher leaves that
    store as it was. *)
Theorem embedded_course_fields (validate_email : string → option string) (st st' : State)
    (r : TeacherRead.t) :
  (∀ teacher : TeacherCreate.t,
     create_teacher validate_email teacher st = (Ok r, st') →
     courses st' = courses st ∧
     Forall (λ c, dom (CourseBase.model_dump c) = CourseBase_fields ∧
                  "id" ∈ dom (CourseBase.model_dump c))
       (TeacherRead.courses r)) ∧
  (∀ (key : UUID) (update : TeacherUpdate.t),
     update_teacher validate_email key update st = (Ok r, st') →
     courses st' = courses st ∧
     Forall (λ c, dom (CourseBase.model_dump c) = CourseBase_fields ∧
                  "id" ∈ dom (CourseBase.model_dump c))
       (TeacherRead.courses r)) ∧
  (∀ c : CourseRead.t,
     dom (CourseRead.model_dump c) = CourseBase_fields ∪ {[ "created_at"; "updated_at" ]}).
Proof.
  assert (Forall (λ c, dom (CourseBase.model_dump c) = CourseBase_fields ∧
                       "id" ∈ dom (CourseBase.model_dump c))
            (TeacherRead.courses r)) as Hall.
  { apply Forall_forall. intros c _. rewrite dom_course_entry.
    split; [done|]. unfold CourseBase_fields. set_solver. }
  split; [|split].
  - intros teacher Hc. split; [|done]. by apply (create_teacher_ok _ _ _ _ _ Hc).
  - intros key update. destruct (dict_get key (teachers st)) as [stored|] eqn:Hget.
    + rewrite (update_teacher_found _ _ _ _ _ Hget).
      destruct (teacher_merge _ stored update (world st)) as [[r'|] w]; [|done].
      by intros [= <- <-].
    + by rewrite (update_teacher_missing _ _ _ _ Hget).
  - apply dom_course.
Qed.

(** * Further properties of the handlers *)

(** ** Stores with unique keys *)

Section PyDictMore.
Context {V : Type}.
Implicit Types (d : list (UUID * V)) (k j : UUID) (v : V).

Lemma dict_get_None_keys k d : dict_get k d = None ↔ k ∉ dict_keys d.
Proof.
  induction d as [|[k' v'] d IH]; simpl.
  - split; [intros _; apply not_elem_of_nil | done].
  - rewrite not_elem_of_cons. destruct (N.eqb_spec k k') as [->|Hne].
    + split; [done | by intros [[] _]].
    + rewrite IH. tauto.
Qed.

Lemma dict_get_elem_of k v d : dict_get k d = Some v → (k, v) ∈ d.
Proof.
  induction d as [|[k' v'] d IH]; simpl; [done|].
  destruct (N.eqb_spec k k') as [->|Hne].
  - intros [= ->]. left.
  - intros H. right. by apply IH.
Qed.

Lemma dict_get_set_ne k j v d : j ≠ k → dict_get j (dict_set k v d) = dict_get j d.
Proof.
  intros Hne. induction d as [|[k' v'] d IH]; simpl.
  - by destruct (N.eqb_spec j k).
  - destruct (N.eqb_spec k k') as [->|Hk]; simpl.
    + by destruct (N.eqb_spec j k').
    + by rewrite IH.
Qed.

Lemma dict_keys_set_present k v v0 d :
  dict_get k d = Some v0 → dict_keys (dict_set k v d) = dict_keys d.
Proof.
  induction d as [|[k' v'] d IH]; simpl; [done|].
  destruct (N.eqb_spec k k') as [->|Hk]; simpl; [done|].
  intros H. by rewrite IH.
Qed.

Lemma dict_set_absent k v d :
  dict_get k d = None → dict_set k v d = (d ++ [(k, v)])%list.
Proof.
  induction d as [|[k' v'] d IH]; simpl; [done|].
  destruct (N.eqb_spec k k') as [->|Hk]; [done|].
  intros H. by rewrite IH.
Qed.

Lemma dict_set_Forall (P : UUID * V → Prop) k v d :
  P (k, v) → Forall P d → Forall P (dict_set k v d).
Proof.
  intros Hk. induction d as [|[k' v'] d IH]; simpl; intros Hd.
  - by constructor.
  - apply Forall_cons in Hd as [Hd1 Hd2].
    destruct (N.eqb_spec k k') as [->|Hne]; constructor; auto.
Qed.

Lemma dict_set_NoDup k v d : NoDup (dict_keys d) → NoDup (dict_keys (dict_set k v d)).
Proof.
  intros Hd. destruct (dict_get k d) as [v0|] eqn:Hget.
  - by rewrite (dict_keys_set_present _ _ _ _ Hget).
  - rewrite (dict_set_absent _ _ _ Hget). unfold dict_keys. rewrite map_app. simpl.
    apply NoDup_app. split; [done|]. split; [|apply NoDup_singleton].
    intros x Hx ->%list_elem_of_singleton. by apply dict_get_None_keys in Hget.
Qed.

Lemma dict_del_elem_of (kv : UUID * V) k d : kv ∈ dict_del k d → kv ∈ d.
Proof.
  induction d as [|[k' v'] d IH]; simpl; [done|].
  destruct (N.eqb k k'); [by right|].
  intros [->|H]%elem_of_cons; [left | right; auto].
Qed.

Lemma dict_del_Forall (P : UUID * V → Prop) k d : Forall P d → Forall P (dict_del k d).
Proof.
  rewrite !Forall_forall. intros H kv Hkv. eauto using dict_del_elem_of.
Qed.

Lemma dict_del_keys j k d : j ∈ dict_keys (dict_del k d) → j ∈ dict_keys d.
Proof.
  induction d as [|[k' v'] d IH]; simpl; [done|].
  destruct (N.eqb k k'); simpl; [by right|].
  intros [->|H]%elem_of_cons; [left | right; auto].
Qed.

Lemma dict_del_NoDup k d : NoDup (dict_keys d) → NoDup (dict_keys (dict_del k d)).
Proof.
  induction d as [|[k' v'] d IH]; simpl; [done|].
  intros [Hk' Hd]%NoDup_cons.
  destruct (N.eqb k k'); simpl; [done|].
  apply NoDup_cons. split; [|auto]. intros H. by apply dict_del_keys in H.
Qed.

Lemma dict_get_del k d : NoDup (dict_keys d) → dict_get k (dict_del k d) = None.
Proof.
  induction d as [|[k' v'] d IH]; simpl; [done|].
  intros [Hk' Hd]%NoDup_cons.
  destruct (N.eqb_spec k k') as [->|Hne]; simpl.
  - by apply dict_get_None_keys.
  - destruct (N.eqb_spec k k'); [done|]. by apply IH.
Qed.

Lemma dict_get_del_ne k j d : j ≠ k → dict_get j (dict_del k d) = dict_get j d.
Proof.
  intros Hne. induction d as [|[k' v'] d IH]; simpl; [done|].
  destruct (N.eqb_spec k k') as [->|Hk]; simpl.
  - by destruct (N.eqb_spec j k').
  - by rewrite IH.
Qed.

Lemma dict_del_absent k d : dict_get k d = None → dict_del k d = d.
Proof.
  induction d as [|[k' v'] d IH]; simpl; [done|].
  destruct (N.eqb_spec k k') as [->|Hk]; [done|].
  intros H. by rewrite IH.
Qed.

Lemma dict_del_values k v d :
  NoDup (dict_keys d) → dict_get k d = Some v →
  ∃ before after,
    dict_values d = (before ++ v :: after)%list ∧
    dict_values (dict_del k d) = (before ++ after)%list.
Proof.
  induction d as [|[k' v'] d IH]; simpl; [done|].
  intros [Hk' Hd]%NoDup_cons.
  destruct (N.eqb_spec k k') as [->|Hk].
  - intros [= ->]. by exists [], (dict_values d).
  - intros Hget. destruct (IH Hd Hget) as (b & a & Hb & Ha).
    exists (v' :: b), a. simpl. unfold dict_values in *. simpl. by rewrite Hb, Ha.
Qed.

End PyDictMore.

(** ** What the constructors accept *)

Lemma v_pattern_Some (pat : string → bool) (v : option Value) (s : string) :
  v_pattern pat v = Some s → v = Some (VStr s) ∧ pat s = true.
Proof.
  destruct v as [[]|]; simpl; try done.
  destruct (pat _) eqn:E; [|done]. by intros [= <-].
Qed.

Lemma v_int_Some (ge le : Z) (v : option Value) (n : Z) :
  v_int ge le v = Some n → v = Some (VInt n) ∧ ge ≤ n ≤ le.
Proof.
  destruct v as [[]|]; simpl; try done.
  destruct (_ && _)%bool eqn:E; [|done]. intros [= <-].
  apply andb_true_iff in E as [?%Z.leb_le ?%Z.leb_le]. done.
Qed.

Lemma course_valid_iff (code : string) (credits : Z) :
  (CourseCode code && (1 <=? credits) && (credits <=? 5))%bool = true ↔
  four_letters_four_digits code ∧ 1 ≤ credits ≤ 5.
Proof.
  rewrite !andb_true_iff, CourseCode_spec, !Z.leb_le. tauto.
Qed.

Lemma course_entry_valid (d : gmap string Value) (w w' : World) (c : CourseBase.t) :
  CourseBase.validate d w = (Some c, w') → CourseBase.valid c = true.
Proof.
  unfold CourseBase.validate, CourseBase.valid.
  destruct (v_uuid _ w) as [[i|] w1]; [|done].
  destruct (v_pattern _ _) as [cd|] eqn:Ec; [|done].
  destruct (v_str _) as [t|]; [|done].
  destruct (v_int _ _ _) as [n|] eqn:En; [|done].
  destruct (v_opt_str _) as [l|]; [|done].
  intros [= <- <-]. simpl.
  apply v_pattern_Some in Ec as [_ ->]. apply v_int_Some in En as [_ [? ?]].
  simpl. apply andb_true_iff. split; by apply Z.leb_le.
Qed.

Lemma course_list_valid (l : list Value) (w w' : World) (cs : list CourseBase.t) :
  v_course_list l w = (Some cs, w') → forallb CourseBase.valid cs = true.
Proof.
  revert w w' cs. induction l as [|x l IH]; intros w w' cs; simpl.
  - by intros [= <- <-].
  - destruct (match x with VDict d => CourseBase.validate d w | _ => (None, w) end)
      as [c w1] eqn:Ec.
    destruct (v_course_list l w1) as [cs1 w2] eqn:Ecs.
    destruct c as [c|]; [|done]. destruct cs1 as [cs1|]; [|done].
    intros [= <- <-]. simpl. apply andb_true_iff. split; [|eauto].
    destruct x; try done. eauto using course_entry_valid.
Qed.

Lemma v_courses_valid (v : option Value) (w w' : World) (cs : list CourseBase.t) :
  v_courses v w = (Some cs, w') → forallb CourseBase.valid cs = true.
Proof.
  destruct v as [[]|]; simpl; try done.
  - apply course_list_valid.
  - by intros [= <- <-].
Qed.

Lemma course_merge_valid (stored r : CourseRead.t) (update : CourseUpdate.t) :
  course_merge stored update = Some r → CourseRead.valid r = true.
Proof.
  unfold course_merge, CourseRead.valid.
  destruct (v_pattern _ _) as [c|] eqn:Ec; [|done].
  destruct (v_str _) as [t|]; [|done].
  destruct (v_int _ _ _) as [n|] eqn:En; [|done].
  destruct (v_opt_str _) as [l|]; [|done].
  intros [= <-]. simpl.
  apply v_pattern_Some in Ec as [_ ->]. apply v_int_Some in En as [_ [? ?]].
  simpl. apply andb_true_iff. split; by apply Z.leb_le.
Qed.

Lemma teacher_merge_filed (validate_email : string → option string)
    (stored r : TeacherRead.t) (update : TeacherUpdate.t) (w w' : World) :
  teacher_merge validate_email stored update w = (Some r, w') →
  UNIType (TeacherRead.uni r) = true ∧
  forallb CourseBase.valid (TeacherRead.courses r) = true ∧
  ∃ s, validate_email s = Some (TeacherRead.email r).
Proof.
  unfold teacher_merge. destruct (v_courses _ w) as [cs w1] eqn:Ecs.
  validated u Eu. validated f Ef. validated l El. validated dp Ed.
  validated e Ee. validated a Ea. validated o Eo.
  destruct cs as [cs|]; [|done]. intros [= <- <-]. simpl.
  apply v_pattern_Some in Eu as [_ ->]. split; [done|].
  split; [eauto using v_courses_valid|].
  unfold v_email in Ee. destruct (pick _ "email" _ _); try done. eauto.
Qed.

(** ** [create_course], unfolded *)

Lemma create_course_unfold (course : CourseCreate.t) (st : State) :
  dict_get (CourseBase.id course) (courses st) = None →
  create_course course st =
  let '(ca, w1) := utcnow (world st) in
  let '(ua, w2) := utcnow w1 in
  if CourseBase.valid course then
    let r :=
      CourseRead.mk (CourseBase.id course) (CourseBase.code course)
        (CourseBase.title course) (CourseBase.credits course)
        (CourseBase.location course) ca ua in
    (Ok r, mkState (dict_set (CourseBase.id course) r (courses st)) (teachers st) w2)
  else (Raise ValidationError, mkState (courses st) (teachers st) w2).
Proof.
  intros Hget. unfold create_course, subscript.
  rewrite (dict_contains_None _ _ Hget).
  unfold CourseRead.validate, CourseCreate.model_dump, CourseBase.valid.
  replace (CourseBase.model_dump course !! "id")
    with (Some (VUuid (CourseBase.id course))) by done.
  replace (CourseBase.model_dump course !! "code")
    with (Some (VStr (CourseBase.code course))) by done.
  replace (CourseBase.model_dump course !! "title")
    with (Some (VStr (CourseBase.title course))) by done.
  replace (CourseBase.model_dump course !! "credits")
    with (Some (VInt (CourseBase.credits course))) by done.
  replace (CourseBase.model_dump course !! "location")
    with (Some (of_opt_str (CourseBase.location course))) by done.
  replace (CourseBase.model_dump course !! "created_at") with (@None Value) by done.
  replace (CourseBase.model_dump course !! "updated_at") with (@None Value) by done.
  unfold v_uuid, v_datetime, v_pattern, v_str, v_int.
  destruct (utcnow (world st)) as [ca w1]. destruct (utcnow w1) as [ua w2].
  destruct course as [i cd t n l]; simpl.
  destruct (CourseCode cd); simpl; [|done].
  destruct ((1 <=? n) && (n <=? 5))%bool; [|done].
  destruct l; simpl; by rewrite dict_get_set.
Qed.

(** ** Reading, creating and deleting *)

Lemma get_course_eq (key : UUID) (st : State) :
  get_course key st =
  match dict_get key (courses st) with
  | Some c => Ok c
  | None => Raise (HTTPException 404 "Course not found")
  end.
Proof. unfold get_course, dict_contains, subscript. by destruct (dict_get _ _). Qed.

Lemma get_teacher_eq (key : UUID) (st : State) :
  get_teacher key st =
  match dict_get key (teachers st) with
  | Some t => Ok t
  | None => Raise (HTTPException 404 "Teacher not found")
  end.
Proof. unfold get_teacher, dict_contains, subscript. by destruct (dict_get _ _). Qed.

(** X1. Creating a valid Course under an id that is not in the store returns
    the payload's fields with the next two answers of [utcnow] as timestamps;
    the Course can then be read back under its id, it is the last of the
    listing, [uuid4] has not been called, and creating it again is a
    conflict. *)
Theorem create_course_then_get (course : CourseCreate.t) (st : State) :
  dict_get (CourseBase.id course) (courses st) = None →
  CourseBase.valid course = true →
  let r :=
    CourseRead.mk (CourseBase.id course) (CourseBase.code course)
      (CourseBase.title course) (CourseBase.credits course)
      (CourseBase.location course)
      (utcnow (world st)).1 (utcnow (utcnow (world st)).2).1 in
  let st' := (create_course course st).2 in
  (create_course course st).1 = Ok r ∧
  get_course (CourseBase.id course) st' = Ok r ∧
  dict_values (courses st') = (dict_values (courses st) ++ [r])%list ∧
  teachers st' = teachers st ∧
  uuid4_calls (world st') = uuid4_calls (world st) ∧
  create_course course st'
  = (Raise (HTTPException 400 "Course with this ID already exists"), st').
Proof.
  intros Hget Hvalid. simpl. rewrite (create_course_unfold _ _ Hget), Hvalid.
  unfold utcnow. simpl. split; [done|].
  split; [by rewrite get_course_eq; simpl; rewrite dict_get_set|].
  split; [|split; [done|split; [done|]]].
  - rewrite (dict_set_absent _ _ _ Hget). unfold dict_values. by rewrite map_app.
  - unfold create_course. simpl. unfold dict_contains. by rewrite dict_get_set.
Qed.

(** X2. Reading, updating or deleting under an id that is not in the store
    raises [HTTPException 404], and the update and the deletion leave the
    state as it was; so for courses and for teachers. *)
Theorem missing_id_not_found (validate_email : string → option string) (st : State)
    (key : UUID) (course_update : CourseUpdate.t) (teacher_update : TeacherUpdate.t) :
  (dict_get key (courses st) = None →
   get_course key st = Raise (HTTPException 404 "Course not found") ∧
   update_course key course_update st
   = (Raise (HTTPException 404 "Course not found"), st) ∧
   delete_course key st = (Raise (HTTPException 404 "Course not found"), st)) ∧
  (dict_get key (teachers st) = None →
   get_teacher key st = Raise (HTTPException 404 "Teacher not found") ∧
   update_teacher validate_email key teacher_update st
   = (Raise (HTTPException 404 "Teacher not found"), st) ∧
   delete_teacher key st = (Raise (HTTPException 404 "Teacher not found"), st)).
Proof.
  split; intros Hget.
  - rewrite get_course_eq, Hget, (update_course_missing _ _ _ Hget).
    unfold delete_course. by rewrite (dict_contains_None _ _ Hget).
  - rewrite get_teacher_eq, Hget, (update_teacher_missing _ _ _ _ Hget).
    unfold delete_teacher. by rewrite (dict_contains_None _ _ Hget).
Qed.

(** X3. Deleting a stored Course, in a store with unique keys, returns no
    content; afterwards the id is not found by a read or by a second
    deletion, every other id reads as before, the listing is the former one
    without the deleted Course, and the teachers are untouched. *)
Theorem delete_course_then_gone (st : State) (key : UUID) (c : CourseRead.t) :
  NoDup (dict_keys (courses st)) →
  dict_get key (courses st) = Some c →
  let st' := (delete_course key st).2 in
  (delete_course key st).1 = Ok tt ∧
  get_course key st' = Raise (HTTPException 404 "Course not found") ∧
  delete_course key st' = (Raise (HTTPException 404 "Course not found"), st') ∧
  (∀ j, j ≠ key → get_course j st' = get_course j st) ∧
  (∃ before after,
     dict_values (courses st) = (before ++ c :: after)%list ∧
     dict_values (courses st') = (before ++ after)%list) ∧
  teachers st' = teachers st.
Proof.
  intros Hnd Hget. unfold delete_course.
  rewrite (dict_contains_get _ _ _ Hget). simpl.
  pose proof (dict_get_del key _ Hnd) as Hgone.
  split; [done|]. split; [by rewrite get_course_eq; simpl; rewrite Hgone|].
  split; [by simpl; rewrite (dict_contains_None _ _ Hgone)|].
  split; [|split; [by apply dict_del_values|done]].
  intros j Hj. rewrite !get_course_eq. simpl. by rewrite dict_get_del_ne.
Qed.

(** X4. The same for teachers. *)
Theorem delete_teacher_then_gone (st : State) (key : UUID) (t : TeacherRead.t) :
  NoDup (dict_keys (teachers st)) →
  dict_get key (teachers st) = Some t →
  let st' := (delete_teacher key st).2 in
  (delete_teacher key st).1 = Ok tt ∧
  get_teacher key st' = Raise (HTTPException 404 "Teacher not found") ∧
  delete_teacher key st' = (Raise (HTTPException 404 "Teacher not found"), st') ∧
  (∀ j, j ≠ key → get_teacher j st' = get_teacher j st) ∧
  (∃ before after,
     dict_values (teachers st) = (before ++ t :: after)%list ∧
     dict_values (teachers st') = (before ++ after)%list) ∧
  courses st' = courses st.
Proof.
  intros Hnd Hget. unfold delete_teacher.
  rewrite (dict_contains_get _ _ _ Hget). simpl.
  pose proof (dict_get_del key _ Hnd) as Hgone.
  split; [done|]. split; [by rewrite get_teacher_eq; simpl; rewrite Hgone|].
  split; [by simpl; rewrite (dict_contains_None _ _ Hgone)|].
  split; [|split; [by apply dict_del_values|done]].
  intros j Hj. rewrite !get_teacher_eq. simpl. by rewrite dict_get_del_ne.
Qed.

(** ** What an update leaves alone *)

Lemma dict_get_keys_set {V : Type} (k : UUID) (v : V) (d : list (UUID * V)) :
  is_Some (dict_get k d) → dict_keys (dict_set k v d) = dict_keys d.
Proof. intros [v0 H]. by apply (dict_keys_set_present _ _ v0). Qed.

(** X5. Whatever its outcome, updating a Course never adds, removes or
    reorders the keys of the Course store, changes no Course stored under
    another id, and touches neither the teachers nor the world. *)
Theorem update_course_frame (st : State) (key : UUID) (update : CourseUpdate.t) :
  let st' := (update_course key update st).2 in
  dict_keys (courses st') = dict_keys (courses st) ∧
  (∀ j, j ≠ key → dict_get j (courses st') = dict_get j (courses st)) ∧
  teachers st' = teachers st ∧
  world st' = world st.
Proof.
  simpl. destruct (dict_get key (courses st)) as [stored|] eqn:Hget.
  - rewrite (update_course_found _ _ _ _ Hget).
    destruct (course_merge stored update) as [r|]; simpl; [|done].
    split; [by apply dict_get_keys_set; rewrite Hget|].
    split; [|done]. intros j Hj. by apply dict_get_set_ne.
  - by rewrite (update_course_missing _ _ _ Hget).
Qed.

(** X6. Whatever its outcome, updating a Teacher never adds, removes or
    reorders the keys of the Teacher store, changes no Teacher stored under
    another id, and does not touch the courses. *)
Theorem update_teacher_frame (validate_email : string → option string) (st : State)
    (key : UUID) (update : TeacherUpdate.t) :
  let st' := (update_teacher validate_email key update st).2 in
  dict_keys (teachers st') = dict_keys (teachers st) ∧
  (∀ j, j ≠ key → dict_get j (teachers st') = dict_get j (teachers st)) ∧
  courses st' = courses st.
Proof.
  simpl. destruct (dict_get key (teachers st)) as [stored|] eqn:Hget.
  - rewrite (update_teacher_found _ _ _ _ _ Hget).
    destruct (teacher_merge _ stored update (world st)) as [[r|] w]; simpl; [|done].
    split; [by apply dict_get_keys_set; rewrite Hget|].
    split; [|done]. intros j Hj. by apply dict_get_set_ne.
  - by rewrite (update_teacher_missing _ _ _ _ Hget).
Qed.

(** ** The two stores are separate *)

Lemma course_handlers_keep_teachers (st : State) (course : CourseCreate.t) (key : UUID)
    (update : CourseUpdate.t) :
  teachers (create_course course st).2 = teachers st ∧
  teachers (update_course key update st).2 = teachers st ∧
  teachers (delete_course key st).2 = teachers st.
Proof.
  split; [|split].
  - unfold create_course. destruct (dict_contains _ _); [done|].
    by destruct (CourseRead.validate _ _) as [[r|] w].
  - destruct (dict_get key (courses st)) as [stored|] eqn:Hget.
    + rewrite (update_course_found _ _ _ _ Hget). by destruct (course_merge _ _).
    + by rewrite (update_course_missing _ _ _ Hget).
  - unfold delete_course. by destruct (negb _).
Qed.

Lemma teacher_handlers_keep_courses (validate_email : string → option string)
    (st : State) (teacher : TeacherCreate.t) (key : UUID) (update : TeacherUpdate.t) :
  courses (create_teacher validate_email teacher st).2 = courses st ∧
  courses (update_teacher validate_email key update st).2 = courses st ∧
  courses (delete_teacher key st).2 = courses st.
Proof.
  split; [|split].
  - unfold create_teacher. by destruct (TeacherRead.validate _ _ _) as [[r|] w].
  - destruct (dict_get key (teachers st)) as [stored|] eqn:Hget.
    + rewrite (update_teacher_found _ _ _ _ _ Hget).
      by destruct (teacher_merge _ _ _ _) as [[r|] w].
    + by rewrite (update_teacher_missing _ _ _ _ Hget).
  - unfold delete_teacher. by destruct (negb _).
Qed.

(** ** The invariant of the stores *)

Lemma course_filed_lookup (st : State) (key : UUID) (c : CourseRead.t) :
  Forall course_filed (courses st) → dict_get key (courses st) = Some c →
  CourseRead.id c = key ∧ CourseRead.valid c = true.
Proof.
  intros Hall Hget. apply dict_get_elem_of in Hget.
  by apply (proj1 (Forall_forall _ _) Hall) in Hget.
Qed.

Lemma teacher_filed_lookup (validate_email : string → option string) (st : State)
    (key : UUID) (t : TeacherRead.t) :
  Forall (teacher_filed validate_email) (teachers st) →
  dict_get key (teachers st) = Some t →
  teacher_filed validate_email (key, t).
Proof.
  intros Hall Hget. apply dict_get_elem_of in Hget.
  by apply (proj1 (Forall_forall _ _) Hall) in Hget.
Qed.

(** X7. In every state reached from the empty stores, the keys of the Course
    store are distinct, and every stored Course is filed under its own id,
    has a code of four upper-case ASCII letters and four decimal digits (of
    the class [\d]) and one to five credits: the empty store has the property
    and each of the six writing handlers keeps it, whatever the request and
    its outcome. *)
Theorem courses_invariant_kept (validate_email : string → option string) (st : State) :
  courses_invariant (mkState [] (teachers st) (world st)) ∧
  (courses_invariant st →
   (∀ course, courses_invariant (create_course course st).2) ∧
   (∀ key update, courses_invariant (update_course key update st).2) ∧
   (∀ key, courses_invariant (delete_course key st).2) ∧
   (∀ teacher, courses_invariant (create_teacher validate_email teacher st).2) ∧
   (∀ key update,
      courses_invariant (update_teacher validate_email key update st).2) ∧
   (∀ key, courses_invariant (delete_teacher key st).2)).
Proof.
  split; [split; [apply NoDup_nil_2 | apply Forall_nil_2]|].
  intros [Hnd Hall]. unfold courses_invariant.
  split; [|split; [|split; [|split; [|split]]]].
  - intros course.
    destruct (dict_get (CourseBase.id course) (courses st)) as [c|] eqn:Hget.
    + unfold create_course. by rewrite (dict_contains_get _ _ _ Hget).
    + rewrite (create_course_unfold _ _ Hget).
      destruct (utcnow (world st)) as [ca w1]. destruct (utcnow w1) as [ua w2].
      destruct (CourseBase.valid course) eqn:Hv; simpl; [|done].
      split; [by apply dict_set_NoDup|]. by apply dict_set_Forall.
  - intros key update.
    destruct (dict_get key (courses st)) as [stored|] eqn:Hget.
    + rewrite (update_course_found _ _ _ _ Hget).
      destruct (course_merge stored update) as [r|] eqn:Em; simpl; [|done].
      split; [by apply dict_set_NoDup|]. apply dict_set_Forall; [|done].
      destruct (course_filed_lookup _ _ _ Hall Hget) as [Hid _].
      destruct (course_merge_frame _ _ _ Em) as (Hid' & _).
      split; simpl; [congruence | eauto using course_merge_valid].
    + by rewrite (update_course_missing _ _ _ Hget).
  - intros key. unfold delete_course. destruct (negb _); simpl; [done|].
    split; [by apply dict_del_NoDup | by apply dict_del_Forall].
  - intros teacher.
    by rewrite (proj1 (teacher_handlers_keep_courses validate_email st teacher 0%N
                         Sample.rename)).
  - intros key update.
    by rewrite (proj1 (proj2 (teacher_handlers_keep_courses validate_email st
                                Sample.ferguson key update))).
  - intros key.
    by rewrite (proj2 (proj2 (teacher_handlers_keep_courses validate_email st
                                Sample.ferguson key Sample.rename))).
Qed.

(** X8. In every state reached from the empty stores, the keys of the Teacher
    store are distinct, and every stored Teacher is filed under its own id,
    has a UNI that matches the pattern, valid embedded courses and an email
    that email validation returned: the empty store has the property and
    each of the six writing handlers keeps it. *)
Theorem teachers_invariant_kept (validate_email : string → option string) (st : State) :
  teachers_invariant validate_email (mkState (courses st) [] (world st)) ∧
  (teachers_invariant validate_email st →
   (∀ teacher,
      teachers_invariant validate_email (create_teacher validate_email teacher st).2) ∧
   (∀ key update,
      teachers_invariant validate_email
        (update_teacher validate_email key update st).2) ∧
   (∀ key, teachers_invariant validate_email (delete_teacher key st).2) ∧
   (∀ course, teachers_invariant validate_email (create_course course st).2) ∧
   (∀ key update, teachers_invariant validate_email (update_course key update st).2) ∧
   (∀ key, teachers_invariant validate_email (delete_course key st).2)).
Proof.
  split; [split; [apply NoDup_nil_2 | apply Forall_nil_2]|].
  intros [Hnd Hall]. unfold teachers_invariant.
  split; [|split; [|split; [|split; [|split]]]].
  - intros teacher. rewrite create_teacher_unfold.
    destruct (uuid4 (world st)) as [i w1]. destruct (utcnow w1) as [ca w2].
    destruct (utcnow w2) as [ua w3].
    destruct (UNIType _) eqn:Hu; [|done].
    destruct (validate_email _) as [e|] eqn:He; [|done].
    destruct (forallb _ _) eqn:Hc; [|done]. simpl.
    split; [by apply dict_set_NoDup|]. apply dict_set_Forall; [|done].
    repeat split; simpl; eauto.
  - intros key update.
    destruct (dict_get key (teachers st)) as [stored|] eqn:Hget.
    + rewrite (update_teacher_found _ _ _ _ _ Hget).
      destruct (teacher_merge _ stored update (world st)) as [[r|] w] eqn:Em;
        simpl; [|done].
      split; [by apply dict_set_NoDup|]. apply dict_set_Forall; [|done].
      destruct (teacher_filed_lookup _ _ _ _ Hall Hget) as [Hid _].
      destruct (teacher_merge_frame _ _ _ _ _ _ Em) as (Hid' & _).
      split; simpl in *; [congruence | eauto using teacher_merge_filed].
    + by rewrite (update_teacher_missing _ _ _ _ Hget).
  - intros key. unfold delete_teacher. destruct (negb _); simpl; [done|].
    split; [by apply dict_del_NoDup | by apply dict_del_Forall].
  - intros course.
    by rewrite (proj1 (course_handlers_keep_teachers st course 0%N Sample.null_title)).
  - intros key update.
    by rewrite (proj1 (proj2 (course_handlers_keep_teachers st Sample.coms4701 key
                                update))).
  - intros key.
    by rewrite (proj2 (proj2 (course_handlers_keep_teachers st Sample.coms4701 key
                                Sample.null_title))).
Qed.

(** X10. The check of a UNI accepts exactly the strings whose code points are
    two or three lower-case ASCII letters followed by one to four decimal
    digits of the class [\d]. *)
Theorem UNIType_spec (s : string) : UNIType s = true ↔ letters_then_digits s.
Proof.
  unfold UNIType, letters_then_digits, str_matches.
  destruct (code_points s) as [cps|]; [|split; [done | by intros (? & ? & ? & _)]].
  rewrite fullmatch_cons. split.
  - intros (letters & rest & -> & Hl & Hall & Hrest).
    apply fullmatch_cons in Hrest as (digits & rest' & -> & Hd & Halld & Hnil).
    simpl in Hnil. destruct rest'; [|done]. rewrite app_nil_r.
    by exists letters, digits.
  - intros (letters & digits & [= ->] & Hl & Hd & Hall & Halld).
    exists letters, digits. do 3 (split; [done|]).
    apply fullmatch_cons. exists digits, []. by rewrite app_nil_r.
Qed.

(** ** Dumping an instance and building it again *)

Lemma exclude_unset_empty (d : gmap string Value) : exclude_unset ∅ d = ∅.
Proof.
  apply map_eq. intros k. rewrite lookup_exclude_unset, lookup_empty.
  destruct (decide (k ∈ (∅ : gset string))) as [Hin|]; [|done].
  by apply not_elem_of_empty in Hin.
Qed.

Lemma dict_update_empty (stored : gmap string Value) : dict_update stored ∅ = stored.
Proof. unfold dict_update. apply (left_id_L ∅ (∪)). Qed.

Lemma pick_empty (k : string) (supplied kept : Value) : pick ∅ k supplied kept = kept.
Proof.
  unfold pick. destruct (decide (k ∈ (∅ : gset string))) as [Hin|]; [|done].
  by apply not_elem_of_empty in Hin.
Qed.

Lemma course_merge_nothing (stored : CourseRead.t) (update : CourseUpdate.t) :
  CourseUpdate.model_fields_set update = ∅ →
  course_merge stored update = if CourseRead.valid stored then Some stored else None.
Proof.
  intros Hfs. unfold course_merge, CourseRead.valid. rewrite Hfs, !pick_empty.
  destruct stored as [i cd t n l ca ua]; simpl.
  destruct (CourseCode cd); simpl; [|done].
  destruct ((1 <=? n) && (n <=? 5))%bool; [|done]. by destruct l.
Qed.

Lemma teacher_merge_nothing (validate_email : string → option string)
    (stored : TeacherRead.t) (update : TeacherUpdate.t) (w : World) :
  TeacherUpdate.model_fields_set update = ∅ →
  teacher_merge validate_email stored update w =
  (if (UNIType (TeacherRead.uni stored)
       && forallb CourseBase.valid (TeacherRead.courses stored))%bool
   then match validate_email (TeacherRead.email stored) with
        | Some e =>
            Some (TeacherRead.mk (TeacherRead.uni stored) (TeacherRead.first_name stored)
                    (TeacherRead.last_name stored) (TeacherRead.department stored) e
                    (TeacherRead.academic_title stored) (TeacherRead.office stored)
                    (TeacherRead.courses stored) (TeacherRead.id stored)
                    (TeacherRead.created_at stored) (TeacherRead.updated_at stored))
        | None => None
        end
   else None, w).
Proof.
  intros Hfs. unfold teacher_merge. rewrite Hfs, !pick_empty.
  unfold v_courses. rewrite course_list_validate_dump.
  destruct stored as [u f l dp e a o cs i ca ua]; simpl.
  destruct (forallb CourseBase.valid cs), (UNIType u), (validate_email e), a, o;
    reflexivity.
Qed.

Lemma dict_set_same {V : Type} (k : UUID) (v : V) (d : list (UUID * V)) :
  dict_get k d = Some v → dict_set k v d = d.
Proof.
  induction d as [|[k' v'] d IH]; simpl; [done|].
  destruct (N.eqb_spec k k') as [->|Hne].
  - by intros [= ->].
  - intros H. by rewrite IH.
Qed.

(** X9. An update payload that supplies no field returns the stored entity
    and leaves the whole state as it was, provided the stored entity is one
    that its constructor accepts. *)
Theorem empty_update_returns_stored (validate_email : string → option string)
    (st : State) (key : UUID) :
  (∀ (update : CourseUpdate.t) (stored : CourseRead.t),
     dict_get key (courses st) = Some stored →
     CourseRead.valid stored = true →
     CourseUpdate.model_fields_set update = ∅ →
     update_course key update st = (Ok stored, st)) ∧
  (∀ (update : TeacherUpdate.t) (stored : TeacherRead.t),
     dict_get key (teachers st) = Some stored →
     TeacherRead.valid validate_email stored = true →
     TeacherUpdate.model_fields_set update = ∅ →
     update_teacher validate_email key update st = (Ok stored, st)).
Proof.
  split.
  - intros update stored Hget Hv Hfs.
    rewrite (update_course_found _ _ _ _ Hget), (course_merge_nothing _ _ Hfs), Hv.
    by rewrite (dict_set_same _ _ _ Hget), state_eta.
  - intros update stored Hget Hv Hfs. unfold TeacherRead.valid in Hv.
    apply andb_true_iff in Hv as [[Hu He%bool_decide_eq_true]%andb_true_iff Hc].
    rewrite (update_teacher_found _ _ _ _ _ Hget), (teacher_merge_nothing _ _ _ _ Hfs).
    rewrite Hu, Hc, He. simpl.
    destruct stored. simpl. by rewrite (dict_set_same _ _ _ Hget), state_eta.
Qed.

(** X11. The constructor of a Course, applied to the dump of an instance,
    returns that instance without reading the world when its code is four
    upper-case ASCII letters and four decimal digits (of the class [\d]) and
    its credits are between 1 and 5, bounds included, and rejects the dump
    otherwise; so for [CourseRead] and for [CourseBase]. *)
Theorem course_dump_round_trip (c : CourseRead.t) (b : CourseBase.t) (w : World) :
  CourseRead.validate (CourseRead.model_dump c) w
  = (if CourseRead.valid c then Some c else None, w) ∧
  CourseBase.validate (CourseBase.model_dump b) w
  = (if CourseBase.valid b then Some b else None, w) ∧
  (CourseRead.valid c = true ↔
   four_letters_four_digits (CourseRead.code c) ∧ 1 ≤ CourseRead.credits c ≤ 5) ∧
  (CourseBase.valid b = true ↔
   four_letters_four_digits (CourseBase.code b) ∧ 1 ≤ CourseBase.credits b ≤ 5).
Proof.
  split; [|split; [apply course_entry_validate_dump|split; apply course_valid_iff]].
  pose (u := CourseUpdate.mk None None None None ∅).
  pose proof (course_validate_merged c u w) as H.
  unfold CourseUpdate.model_dump_exclude_unset in H. simpl in H.
  rewrite exclude_unset_empty, dict_update_empty in H. rewrite H.
  by rewrite course_merge_nothing.
Qed.

(** X13. The constructor of [TeacherRead], applied to the dump of an
    instance, returns that instance without reading the world exactly when
    the UNI matches its pattern, email validation returns the email
    unchanged, and every embedded course is valid; the digits of a UNI and of
    a course code are the decimal digits of the class [\d]. *)
Theorem teacher_dump_round_trip (validate_email : string → option string)
    (t : TeacherRead.t) (w : World) :
  (TeacherRead.validate validate_email (TeacherRead.model_dump t) w = (Some t, w) ↔
   TeacherRead.valid validate_email t = true) ∧
  (TeacherRead.valid validate_email t = true ↔
   UNIType (TeacherRead.uni t) = true ∧
   normalised validate_email (TeacherRead.email t) ∧
   Forall (λ c, four_letters_four_digits (CourseBase.code c) ∧
                1 ≤ CourseBase.credits c ≤ 5) (TeacherRead.courses t)).
Proof.
  split.
  - pose (u := TeacherUpdate.mk None None None None None None None None ∅).
    pose proof (teacher_validate_merged validate_email t u w) as H.
    unfold TeacherUpdate.model_dump_exclude_unset in H. simpl in H.
    rewrite exclude_unset_empty, dict_update_empty in H. rewrite H.
    rewrite teacher_merge_nothing by done. unfold TeacherRead.valid.
    destruct (UNIType _); simpl; [|split; done].
    destruct (forallb _ _); simpl; [|rewrite andb_false_r; split; done].
    rewrite andb_true_r, bool_decide_eq_true.
    destruct (validate_email _) as [e|] eqn:He; [|split; done].
    destruct t; simpl in *. split; [by intros [= ->] | by intros [= ->]].
  - unfold TeacherRead.valid, normalised.
    rewrite !andb_true_iff, bool_decide_eq_true, forallb_forall, Forall_forall.
    split.
    + intros [[Hu He] Hc]. split; [done|]. split; [done|].
      intros c Hin. apply course_valid_iff. apply Hc. by apply list_elem_of_In.
    + intros (Hu & He & Hc). split; [done|].
      intros c Hin. apply course_valid_iff. apply Hc. by apply list_elem_of_In.
Qed.

(** X12. Creating a valid Teacher stores the payload's fields under the next
    answer of [uuid4], with the next two answers of [utcnow] as timestamps,
    and the Teacher can be read back under that id; the courses are
    untouched.  When the id is new the Teacher is the last of the listing;
    when [uuid4] answers an id that is already a key, there is no conflict:
    the Teacher takes the place of the one stored under that id. *)
Theorem create_teacher_then_get (validate_email : string → option string)
    (teacher : TeacherCreate.t) (st : State) :
  TeacherCreate.valid validate_email teacher = true →
  let i := (uuid4 (world st)).1 in
  let w1 := (uuid4 (world st)).2 in
  let r :=
    TeacherRead.mk (TeacherCreate.uni teacher) (TeacherCreate.first_name teacher)
      (TeacherCreate.last_name teacher) (TeacherCreate.department teacher)
      (TeacherCreate.email teacher) (TeacherCreate.academic_title teacher)
      (TeacherCreate.office teacher) (TeacherCreate.courses teacher)
      i (utcnow w1).1 (utcnow (utcnow w1).2).1 in
  let st' := (create_teacher validate_email teacher st).2 in
  (create_teacher validate_email teacher st).1 = Ok r ∧
  get_teacher i st' = Ok r ∧
  courses st' = courses st ∧
  match dict_get i (teachers st) with
  | None => dict_values (teachers st') = (dict_values (teachers st) ++ [r])%list
  | Some _ =>
      dict_keys (teachers st') = dict_keys (teachers st) ∧
      ∀ j, j ≠ i → dict_get j (teachers st') = dict_get j (teachers st)
  end.
Proof.
  unfold TeacherCreate.valid. intros [[Hu He%bool_decide_eq_true]%andb_true_iff Hc]%andb_true_iff.
  simpl. rewrite create_teacher_unfold, Hu, He, Hc. unfold uuid4, utcnow. simpl.
  split; [done|]. split; [by rewrite get_teacher_eq; simpl; rewrite dict_get_set|].
  split; [done|].
  destruct (dict_get _ (teachers st)) as [old|] eqn:Hget.
  - split; [by apply dict_get_keys_set; rewrite Hget|].
    intros j Hj. by apply dict_get_set_ne.
  - rewrite (dict_set_absent _ _ _ Hget). unfold dict_values. by rewrite map_app.
Qed.

(** ** Listing and reading agree *)

Lemma dict_elem_of_get {V : Type} (k : UUID) (v : V) (d : list (UUID * V)) :
  NoDup (dict_keys d) → (k, v) ∈ d → dict_get k d = Some v.
Proof.
  induction d as [|[k' v'] d IH]; simpl; [by intros _ ?%elem_of_nil|].
  intros [Hk' Hd]%NoDup_cons [[= -> ->]|Hin]%elem_of_cons.
  - by rewrite N.eqb_refl.
  - destruct (N.eqb_spec k k') as [->|Hne]; [|by apply IH].
    destruct Hk'. apply list_elem_of_fmap. by exists (k', v).
Qed.

(** X15. In a state that has the invariant of its store, the listing without
    criteria holds exactly the entities that can be read back under their own
    id. *)
Theorem listed_iff_readable (validate_email : string → option string) (st : State) :
  (courses_invariant st →
   ∀ c, In c (list_courses None None None None st) ↔
        get_course (CourseRead.id c) st = Ok c) ∧
  (teachers_invariant validate_email st →
   ∀ t, In t (list_teachers None None None None None None None None None st) ↔
        get_teacher (TeacherRead.id t) st = Ok t).
Proof.
  split.
  - intros [Hnd Hall] c. rewrite get_course_eq.
    change (list_courses None None None None st) with (dict_values (courses st)).
    rewrite <- list_elem_of_In. unfold dict_values. rewrite list_elem_of_fmap. split.
    + intros ([k c'] & -> & Hin). simpl.
      pose proof (proj1 (Forall_forall _ _) Hall _ Hin) as [Hid _]. simpl in Hid.
      rewrite Hid. by rewrite (dict_elem_of_get _ _ _ Hnd Hin).
    + destruct (dict_get _ _) as [c'|] eqn:Hget; [|done]. intros [= ->].
      exists (CourseRead.id c, c). split; [done|]. by apply dict_get_elem_of.
  - intros [Hnd Hall] t. rewrite get_teacher_eq.
    change (list_teachers None None None None None None None None None st)
      with (dict_values (teachers st)).
    rewrite <- list_elem_of_In. unfold dict_values. rewrite list_elem_of_fmap. split.
    + intros ([k t'] & -> & Hin). simpl.
      pose proof (proj1 (Forall_forall _ _) Hall _ Hin) as [Hid _]. simpl in Hid.
      rewrite Hid. by rewrite (dict_elem_of_get _ _ _ Hnd Hin).
    + destruct (dict_get _ _) as [t'|] eqn:Hget; [|done]. intros [= ->].
      exists (TeacherRead.id t, t). split; [done|]. by apply dict_get_elem_of.
Qed.

(** ** Two updates in a row *)

Lemma dict_set_twice {V : Type} (k : UUID) (v v' : V) (d : list (UUID * V)) :
  dict_set k v (dict_set k v' d) = dict_set k v d.
Proof.
  induction d as [|[k' v0] d IH]; simpl.
  - by rewrite N.eqb_refl.
  - destruct (N.eqb k k') eqn:E; simpl; rewrite E; [done | by rewrite IH].
Qed.

Lemma pick_union fs1 fs2 k (p1 p2 kept : Value) :
  pick (fs1 ∪ fs2) k (if decide (k ∈ fs2) then p2 else p1) kept
  = pick fs2 k p2 (pick fs1 k p1 kept).
Proof.
  unfold pick.
  destruct (decide (k ∈ fs2)) as [H2|H2], (decide (k ∈ fs1)) as [H1|H1],
    (decide (k ∈ fs1 ∪ fs2)) as [H|H]; try done;
    exfalso; revert H; rewrite elem_of_union; tauto.
Qed.

Lemma v_str_Some (v : option Value) (s : string) : v_str v = Some s → v = Some (VStr s).
Proof. destruct v as [[]|]; simpl; try done. by intros [= ->]. Qed.

Lemma v_opt_str_Some (x : Value) (r : option string) :
  v_opt_str (Some x) = Some r → x = of_opt_str r.
Proof. destruct x; simpl; try done; by intros [= <-]. Qed.

Lemma course_merge_picks (stored r : CourseRead.t) (update : CourseUpdate.t) :
  course_merge stored update = Some r →
  let fs := CourseUpdate.model_fields_set update in
  pick fs "code" (of_opt_str (CourseUpdate.code update)) (VStr (CourseRead.code stored))
  = VStr (CourseRead.code r) ∧
  pick fs "title" (of_opt_str (CourseUpdate.title update))
    (VStr (CourseRead.title stored)) = VStr (CourseRead.title r) ∧
  pick fs "credits" (of_opt_int (CourseUpdate.credits update))
    (VInt (CourseRead.credits stored)) = VInt (CourseRead.credits r) ∧
  pick fs "location" (of_opt_str (CourseUpdate.location update))
    (of_opt_str (CourseRead.location stored)) = of_opt_str (CourseRead.location r).
Proof.
  unfold course_merge.
  destruct (v_pattern _ _) as [c|] eqn:Ec; [|done].
  destruct (v_str _) as [t|] eqn:Et; [|done].
  destruct (v_int _ _ _) as [n|] eqn:En; [|done].
  destruct (v_opt_str _) as [l|] eqn:El; [|done].
  intros [= <-]. simpl.
  apply v_pattern_Some in Ec as [Ec _]. injection Ec as Ec.
  apply v_str_Some in Et. injection Et as Et.
  apply v_int_Some in En as [En _]. injection En as En.
  apply v_opt_str_Some in El. done.
Qed.

Lemma course_merge_compose (stored r1 : CourseRead.t) (first second : CourseUpdate.t) :
  course_merge stored first = Some r1 →
  course_merge stored (compose_course_updates first second) = course_merge r1 second.
Proof.
  intros Hm. destruct (course_merge_picks _ _ _ Hm) as (Hc & Ht & Hn & Hl).
  destruct (course_merge_frame _ _ _ Hm) as (Hid & Hca & Hua).
  unfold course_merge, compose_course_updates. simpl.
  replace (of_opt_str
             (if decide ("code" ∈ CourseUpdate.model_fields_set second)
              then CourseUpdate.code second else CourseUpdate.code first))
    with (if decide ("code" ∈ CourseUpdate.model_fields_set second)
          then of_opt_str (CourseUpdate.code second)
          else of_opt_str (CourseUpdate.code first)) by (by destruct (decide _)).
  replace (of_opt_str
             (if decide ("title" ∈ CourseUpdate.model_fields_set second)
              then CourseUpdate.title second else CourseUpdate.title first))
    with (if decide ("title" ∈ CourseUpdate.model_fields_set second)
          then of_opt_str (CourseUpdate.title second)
          else of_opt_str (CourseUpdate.title first)) by (by destruct (decide _)).
  replace (of_opt_int
             (if decide ("credits" ∈ CourseUpdate.model_fields_set second)
              then CourseUpdate.credits second else CourseUpdate.credits first))
    with (if decide ("credits" ∈ CourseUpdate.model_fields_set second)
          then of_opt_int (CourseUpdate.credits second)
          else of_opt_int (CourseUpdate.credits first)) by (by destruct (decide _)).
  replace (of_opt_str
             (if decide ("location" ∈ CourseUpdate.model_fields_set second)
              then CourseUpdate.location second else CourseUpdate.location first))
    with (if decide ("location" ∈ CourseUpdate.model_fields_set second)
          then of_opt_str (CourseUpdate.location second)
          else of_opt_str (CourseUpdate.location first)) by (by destruct (decide _)).
  rewrite !pick_union, Hc, Ht, Hn, Hl, Hid, Hca, Hua. reflexivity.
Qed.

(** X14. Two updates of a Course in a row, the first of them successful, do
    what the single update with the folded payload does: when the folded
    update succeeds, the second update returns the same Course and leaves
    the same state; when it is rejected, the second update is rejected with
    the same exception and leaves the result of the first. *)
Theorem update_course_twice (st st1 : State) (key : UUID) (first second : CourseUpdate.t)
    (r1 : CourseRead.t) :
  update_course key first st = (Ok r1, st1) →
  match update_course key (compose_course_updates first second) st with
  | (Ok r, st') => update_course key second st1 = (Ok r, st')
  | (Raise e, _) => update_course key second st1 = (Raise e, st1)
  end.
Proof.
  destruct (dict_get key (courses st)) as [stored|] eqn:Hget;
    [|by rewrite (update_course_missing _ _ _ Hget)].
  rewrite !(update_course_found _ _ _ _ Hget).
  destruct (course_merge stored first) as [r1'|] eqn:Em; [|done].
  intros [= <- <-].
  rewrite (update_course_found _ _ _ r1') by apply dict_get_set.
  rewrite (course_merge_compose _ _ _ second Em).
  destruct (course_merge r1' second) as [r|]; [|done].
  simpl. by rewrite dict_set_twice.
Qed.

(** ** The ids of replaced courses *)

(** X16. A successful update of a Teacher whose payload supplies a list of
    courses stores exactly the embedded courses built from that list, and
    has read the world as building them does: each entry without an id has
    taken one answer of [uuid4], in the order of the list, and [utcnow] has
    not been called. *)
Theorem update_teacher_builds_courses (validate_email : string → option string)
    (st st' : State) (key : UUID) (update : TeacherUpdate.t) (r : TeacherRead.t)
    (l : list CourseBase.inst) :
  update_teacher validate_email key update st = (Ok r, st') →
  "courses" ∈ TeacherUpdate.model_fields_set update →
  TeacherUpdate.courses update = Some l →
  (TeacherRead.courses r, world st') = built_courses l (world st).
Proof.
  destruct (dict_get key (teachers st)) as [stored|] eqn:Hget;
    [|by rewrite (update_teacher_missing _ _ _ _ Hget)].
  rewrite (update_teacher_found _ _ _ _ _ Hget). intros Hok Hin Hl. revert Hok.
  unfold teacher_merge. rewrite pick_supplied by by apply bool_decide_eq_true.
  rewrite Hl. cbn [TeacherUpdate.of_opt_courses v_courses].
  destruct (v_course_list _ (world st)) as [cs w1] eqn:Ecs.
  validated r' Er. intros [= <- <-]. revert Er.
  validated_any. validated_any. validated_any. validated_any. validated_any.
  validated_any. validated_any.
  destruct cs as [cs|]; [|done]. intros [= <-]. simpl.
  symmetry. by apply course_list_built.
Qed.

End Properties.

(** * Examples, on the sample data

    From here on the decimal digits are those of [Sample.unicode]. *)

#[global] Existing Instance Sample.unicode.

Example st_course_eq :
  Sample.st_course = mkState [(7%N, Sample.coms4701_read)] []
                       (mkWorld (uuid4_values Sample.world0) 0
                          (utcnow_values Sample.world0) 2).
Proof. reflexivity. Qed.

Example st_teacher_eq :
  Sample.st_teacher = mkState [(7%N, Sample.coms4701_read)]
                        [(100%N, Sample.ferguson_read)]
                        (mkWorld (uuid4_values Sample.world0) 1
                           (utcnow_values Sample.world0) 4).
Proof. vm_compute. reflexivity. Qed.

Lemma update_course_rejects_bad_code_witness :
  update_course 7%N Sample.lower_code Sample.st_course
  = (Raise ValidationError, Sample.st_course) ∧
  dict_get 7%N (courses (update_course 7%N Sample.lower_code Sample.st_course).2)
  = Some Sample.coms4701_read.
Proof.
  apply (update_course_rejects_bad_code Sample.st_course 7%N Sample.lower_code
           Sample.coms4701_read).
  - reflexivity.
  - vm_compute. reflexivity.
  - intros s [= <-] Hs. apply CourseCode_spec in Hs. vm_compute in Hs. discriminate.
Defined.

Lemma create_conflict_witness :
  create_course Sample.coms4701 Sample.st_course
  = (Raise (HTTPException 400 "Course with this ID already exists"), Sample.st_course) ∧
  (∃ r st', create_teacher Sample.validate_email Sample.ferguson Sample.st_course
            = (Ok r, st')) ∧
  TeacherRead.id Sample.ferguson_read = 100%N.
Proof.
  pose proof (create_conflict Sample.validate_email Sample.st_course Sample.coms4701
                Sample.ferguson) as (Hcourse & _ & Hvalid & Hid).
  split; [|split].
  - apply Hcourse. reflexivity.
  - apply Hvalid. vm_compute. reflexivity.
  - apply (Hid Sample.ferguson_read Sample.st_teacher). vm_compute. reflexivity.
Defined.

Lemma update_keeps_id_and_timestamps_witness :
  (∃ r, dict_get 7%N (courses (update_course 7%N Sample.null_location Sample.st_course).2)
        = Some r ∧
        CourseRead.id r = 7%N ∧ CourseRead.created_at r = 1000 ∧
        CourseRead.updated_at r = 1001) ∧
  (∃ r, dict_get 100%N
          (teachers (update_teacher Sample.validate_email 100%N Sample.replace_courses
                       Sample.st_teacher).2) = Some r ∧
        TeacherRead.id r = 100%N ∧ TeacherRead.created_at r = 1002 ∧
        TeacherRead.updated_at r = 1003).
Proof.
  split.
  - destruct (update_course 7%N Sample.null_location Sample.st_course)
      as [[r|e] st'] eqn:E; [|vm_compute in E; discriminate].
    exists r.
    apply (proj1 (update_keeps_id_and_timestamps Sample.validate_email
                    Sample.st_course st' 7%N)
             Sample.null_location Sample.coms4701_read r); [reflexivity | exact E].
  - destruct (update_teacher Sample.validate_email 100%N Sample.replace_courses
                Sample.st_teacher) as [[r|e] st'] eqn:E; [|vm_compute in E; discriminate].
    exists r.
    apply (proj2 (update_keeps_id_and_timestamps Sample.validate_email
                    Sample.st_teacher st' 100%N)
             Sample.replace_courses Sample.ferguson_read r);
      [vm_compute; reflexivity | exact E].
Defined.

Lemma update_merge_patch_witness :
  (∃ r st',
     update_course 7%N Sample.null_location Sample.st_course = (Ok r, st') ∧
     dict_get 7%N (courses st') = Some r ∧
     course_patched Sample.null_location Sample.coms4701_read r ∧
     CourseRead.location r = None) ∧
  (∃ r st',
     update_teacher Sample.validate_email 100%N Sample.replace_courses Sample.st_teacher
     = (Ok r, st') ∧
     dict_get 100%N (teachers st') = Some r ∧
     teacher_patched Sample.replace_courses Sample.ferguson_read r
       (world Sample.st_teacher) (world st')).
Proof.
  split.
  - destruct (proj1 (update_merge_patch Sample.validate_email Sample.st_course 7%N)
                Sample.null_location Sample.coms4701_read eq_refl) as [Hiff H].
    assert (CourseRead.valid Sample.coms4701_read = true) as Hv
      by (vm_compute; reflexivity).
    destruct (proj1 (Hiff Hv) eq_refl) as (r & st' & E).
    rewrite E in H. destruct H as [Hget Hp].
    exists r, st'. split; [exact E|]. split; [exact Hget|]. split; [exact Hp|].
    destruct Hp as (_ & _ & _ & Hl). unfold field_merged in Hl.
    destruct (decide _) as [_|Hout] in Hl; [exact Hl|].
    exfalso. apply Hout. vm_compute. reflexivity.
  - assert (dict_get 100%N (teachers Sample.st_teacher) = Some Sample.ferguson_read)
      as Hget by (vm_compute; reflexivity).
    assert (∀ e, TeacherUpdate.email Sample.replace_courses = Some e →
                 normalised Sample.validate_email e) as Hu by (intros e [=]).
    destruct (proj2 (update_merge_patch Sample.validate_email Sample.st_teacher 100%N)
                Sample.replace_courses Sample.ferguson_read Hget) as [Hiff H].
    specialize (H eq_refl Hu).
    assert (TeacherRead.valid Sample.validate_email Sample.ferguson_read = true) as Hv
      by (vm_compute; reflexivity).
    assert (update_acceptable Sample.validate_email Sample.replace_courses = true) as Ha
      by (vm_compute; reflexivity).
    destruct (proj1 (Hiff Hv) Ha) as (r & st' & E).
    rewrite E in H. exists r, st'. split; [exact E|]. exact H.
Defined.

(** The claim C1 itself fails on a payload that supplies a null [title]:
    nothing is stored or returned. *)
Lemma update_null_title_fails :
  dict_get 7%N (courses Sample.st_course) = Some Sample.coms4701_read ∧
  "title" ∈ CourseUpdate.model_fields_set Sample.null_title ∧
  update_course 7%N Sample.null_title Sample.st_course
  = (Raise ValidationError, Sample.st_course) ∧
  ¬ (∃ r st',
       update_course 7%N Sample.null_title Sample.st_course = (Ok r, st') ∧
       course_patched Sample.null_title Sample.coms4701_read r).
Proof.
  assert (update_course 7%N Sample.null_title Sample.st_course
          = (Raise ValidationError, Sample.st_course)) as E
    by (vm_compute; reflexivity).
  split; [reflexivity|]. split; [vm_compute; reflexivity|]. split; [exact E|].
  intros (r & st' & Hok & _). congruence.
Qed.

Lemma update_teacher_courses_witness :
  (∃ r st',
     update_teacher Sample.validate_email 100%N Sample.no_courses Sample.st_teacher
     = (Ok r, st') ∧
     dict_get 100%N (teachers st') = Some r ∧
     TeacherRead.courses r = []) ∧
  (∃ r st',
     update_teacher Sample.validate_email 100%N Sample.rename Sample.st_teacher
     = (Ok r, st') ∧
     TeacherRead.courses r = TeacherRead.courses Sample.ferguson_read ∧
     world st' = world Sample.st_teacher).
Proof.
  assert (dict_get 100%N (teachers Sample.st_teacher) = Some Sample.ferguson_read)
    as Hget by (vm_compute; reflexivity).
  assert (TeacherRead.valid Sample.validate_email Sample.ferguson_read = true) as Hv
    by (vm_compute; reflexivity).
  split.
  - destruct (update_teacher_courses Sample.validate_email Sample.st_teacher 100%N
                Sample.no_courses Sample.ferguson_read Hget) as (Hiff & Hres & _).
    assert (update_acceptable Sample.validate_email Sample.no_courses = true) as Ha
      by (vm_compute; reflexivity).
    destruct (proj1 (Hiff Hv) Ha) as (r & st' & E).
    exists r, st'. split; [exact E|].
    destruct (Hres r st' E) as (Hr & _ & Hnil). split; [exact Hr|].
    apply Hnil; [reflexivity | vm_compute; reflexivity].
  - destruct (update_teacher_courses Sample.validate_email Sample.st_teacher 100%N
                Sample.rename Sample.ferguson_read Hget) as (Hiff & Hres & _).
    assert (update_acceptable Sample.validate_email Sample.rename = true) as Ha
      by (vm_compute; reflexivity).
    destruct (proj1 (Hiff Hv) Ha) as (r & st' & E).
    exists r, st'. split; [exact E|].
    destruct (Hres r st' E) as (_ & Hp & _). unfold courses_replaced in Hp.
    destruct (decide _) as [Hin|_] in Hp; [exfalso|exact Hp].
    revert Hin. apply (bool_decide_unpack _). vm_compute. reflexivity.
Defined.

(** The claim C4 itself fails.  The courses that an update stores are not the
    payload's list: the payload entry that supplies no id was parsed with the
    id 55, and the stored course has the id 101, the next answer of [uuid4].
    And a payload that supplies [courses] does not always replace the stored
    list: with [courses] null, or with a null [first_name] beside an
    acceptable list, the update fails and the stored list stays. *)
Lemma update_teacher_courses_not_payload :
  dict_get 100%N (teachers Sample.st_teacher) = Some Sample.ferguson_read ∧
  "courses" ∈ TeacherUpdate.model_fields_set Sample.replace_courses ∧
  TeacherUpdate.courses Sample.replace_courses = Some [Sample.huma1123] ∧
  (∃ r st',
     update_teacher Sample.validate_email 100%N Sample.replace_courses Sample.st_teacher
     = (Ok r, st') ∧
     TeacherRead.courses r = [CourseBase.mk 101%N "HUMA1123" "Music Humanities" 3 None] ∧
     TeacherRead.courses r ≠ map CourseBase.obj [Sample.huma1123]) ∧
  "courses" ∈ TeacherUpdate.model_fields_set Sample.null_courses ∧
  update_teacher Sample.validate_email 100%N Sample.null_courses Sample.st_teacher
  = (Raise ValidationError, Sample.st_teacher) ∧
  "courses" ∈ TeacherUpdate.model_fields_set Sample.courses_and_null_name ∧
  TeacherUpdate.courses Sample.courses_and_null_name = Some [Sample.huma1123_with_id] ∧
  update_teacher Sample.validate_email 100%N Sample.courses_and_null_name
    Sample.st_teacher
  = (Raise ValidationError, Sample.st_teacher) ∧
  TeacherRead.courses Sample.ferguson_read
  = [CourseBase.mk 8%N "COMS4701" "Cloud Computing" 3 None].
Proof.
  split; [vm_compute; reflexivity|].
  split; [apply (bool_decide_unpack _); vm_compute; reflexivity|].
  split; [reflexivity|].
  split.
  { eexists _, _. split; [vm_compute; reflexivity|].
    split; [reflexivity|]. discriminate. }
  split; [apply (bool_decide_unpack _); vm_compute; reflexivity|].
  split; [vm_compute; reflexivity|].
  split; [apply (bool_decide_unpack _); vm_compute; reflexivity|].
  split; [reflexivity|].
  split; [vm_compute; reflexivity|].
  reflexivity.
Qed.

(** Two runs of [update_teacher]: a payload that supplies [courses] replaces
    the list and the new entry gets a generated id; a payload that supplies
    only [first_name] leaves the list alone. *)
Example update_teacher_replaces_courses :
  (update_teacher Sample.validate_email 100%N Sample.replace_courses Sample.st_teacher).1
  = Ok (TeacherRead.mk "dff9" "Donald" "Ferguson" "COMS" "dff9@example.com"
          (Some "Professor") None
          [CourseBase.mk 101%N "HUMA1123" "Music Humanities" 3 None] 100%N 1002 1003).
Proof. vm_compute. reflexivity. Qed.

Example update_teacher_keeps_courses :
  (update_teacher Sample.validate_email 100%N Sample.rename Sample.st_teacher).1
  = Ok (TeacherRead.mk "dff9" "Don" "Ferguson" "COMS" "dff9@example.com"
          (Some "Professor") None
          [CourseBase.mk 8%N "COMS4701" "Cloud Computing" 3 None] 100%N 1002 1003).
Proof. vm_compute. reflexivity. Qed.

Lemma update_idempotent_witness :
  let st1 :=
    (update_teacher Sample.validate_email 100%N Sample.replace_courses_with_id
       Sample.st_teacher).2 in
  (update_teacher Sample.validate_email 100%N Sample.replace_courses_with_id st1).2 = st1
  ∧ teachers st1 ≠ teachers Sample.st_teacher.
Proof.
  split.
  - apply (proj2 (update_idempotent Sample.validate_email Sample.st_teacher 100%N)
             Sample.replace_courses_with_id).
    + intros stored Hget. vm_compute in Hget. injection Hget as <-. reflexivity.
    + intros _. vm_compute. reflexivity.
  - vm_compute. discriminate.
Defined.

(** The claim C7 itself fails on a Teacher update whose course entry has no
    id: the first application stores the entry under the id 101, the second
    under the id 102. *)
Lemma update_teacher_twice_differs :
  let st1 :=
    (update_teacher Sample.validate_email 100%N Sample.replace_courses
       Sample.st_teacher).2 in
  let st2 := (update_teacher Sample.validate_email 100%N Sample.replace_courses st1).2 in
  (TeacherRead.courses <$> dict_get 100%N (teachers st1))
  = Some [CourseBase.mk 101%N "HUMA1123" "Music Humanities" 3 None] ∧
  (TeacherRead.courses <$> dict_get 100%N (teachers st2))
  = Some [CourseBase.mk 102%N "HUMA1123" "Music Humanities" 3 None] ∧
  teachers st2 ≠ teachers st1.
Proof.
  split; [vm_compute; reflexivity|]. split; [vm_compute; reflexivity|].
  vm_compute. discriminate.
Qed.

Lemma listing_is_filtered_store_witness :
  list_courses (Some "MATH1101") None None None Sample.st_course = [] ∧
  list_courses None None (Some 3) (Some "501 Northwest Corner") Sample.st_course
  = [Sample.coms4701_read].
Proof.
  split.
  - apply (listing_is_filtered_store (Some "MATH1101") None None None
             None None None None None None None Sample.st_course).
    vm_compute. reflexivity.
  - rewrite (proj1 (listing_is_filtered_store None None (Some 3)
                      (Some "501 Northwest Corner")
                      None None None None None None None Sample.st_course)).
    vm_compute. reflexivity.
Defined.

Example st_full_eq :
  courses Sample.st_full = [(7%N, Sample.coms4701_read); (9%N, Sample.math1101_read)] ∧
  teachers Sample.st_full = [(100%N, Sample.ferguson_read); (101%N, Sample.ingrid_read)].
Proof. split; vm_compute; reflexivity. Qed.

Lemma nested_existence_witness :
  ¬ In Sample.ingrid_read
      (list_teachers None None None None None None None (Some "") None Sample.st_full) ∧
  ¬ In Sample.ingrid_read
      (list_teachers None None None None None None None None (Some 3) Sample.st_full).
Proof.
  apply (nested_existence Sample.st_full Sample.ingrid_read "" 3). reflexivity.
Defined.

(** The claim C6 itself fails on the criterion [location=""]: the teacher is
    listed although none of its embedded courses has the empty string as its
    location; the location of its only course is unassigned. *)
Lemma nested_location_counts_unassigned :
  list_teachers None None None None None None None (Some "") None Sample.st_teacher
  = [Sample.ferguson_read] ∧
  ¬ (∃ c, In c (TeacherRead.courses Sample.ferguson_read) ∧
          CourseBase.location c = Some "").
Proof.
  split; [vm_compute; reflexivity|].
  intros (c & [<-|[]] & Hc). discriminate.
Qed.

Lemma unassigned_location_in_listings_witness :
  In Sample.ferguson_read
    (list_teachers None None None None None None None (Some "") None Sample.st_full) ∧
  ¬ In Sample.math1101_read (list_courses None None None (Some "") Sample.st_full).
Proof.
  destruct (unassigned_location_in_listings Sample.st_full) as (_ & Ht & _ & Hc).
  split.
  - apply (Ht Sample.ferguson_read
             (CourseBase.mk 8%N "COMS4701" "Cloud Computing" 3 None)).
    + vm_compute. left. reflexivity.
    + left. reflexivity.
    + reflexivity.
  - apply (Hc None None None "" Sample.math1101_read). reflexivity.
Defined.

Lemma embedded_course_fields_witness :
  courses Sample.st_teacher = courses Sample.st_course ∧
  Forall (λ c, dom (CourseBase.model_dump c) = CourseBase_fields ∧
               "id" ∈ dom (CourseBase.model_dump c))
    (TeacherRead.courses Sample.ferguson_read).
Proof.
  apply (proj1 (embedded_course_fields Sample.validate_email Sample.st_course
                  Sample.st_teacher Sample.ferguson_read) Sample.ferguson).
  vm_compute. reflexivity.
Defined.

(** The claim C9 itself fails on the teacher created from [Sample.ferguson]:
    the dump of its embedded course has the key [id]. *)
Lemma embedded_course_has_id :
  create_teacher Sample.validate_email Sample.ferguson Sample.st_course
  = (Ok Sample.ferguson_read, Sample.st_teacher) ∧
  TeacherRead.model_dump Sample.ferguson_read !! "courses"
  = Some (VList [VDict (CourseBase.model_dump
                          (CourseBase.mk 8%N "COMS4701" "Cloud Computing" 3 None))]) ∧
  CourseBase.model_dump (CourseBase.mk 8%N "COMS4701" "Cloud Computing" 3 None) !! "id"
  = Some (VUuid 8%N).
Proof. repeat split; vm_compute; reflexivity. Qed.

Lemma create_course_then_get_witness :
  (create_course Sample.math1101 Sample.st_teacher).1 = Ok Sample.math1101_read ∧
  get_course 9%N (create_course Sample.math1101 Sample.st_teacher).2
  = Ok Sample.math1101_read.
Proof.
  destruct (create_course_then_get Sample.math1101 Sample.st_teacher)
    as (Hc & Hg & _); [vm_compute; reflexivity | vm_compute; reflexivity |].
  split; [exact Hc | exact Hg].
Defined.

Lemma missing_id_not_found_witness :
  get_course 42%N Sample.st_full = Raise (HTTPException 404 "Course not found") ∧
  delete_teacher 42%N Sample.st_full
  = (Raise (HTTPException 404 "Teacher not found"), Sample.st_full).
Proof.
  destruct (missing_id_not_found Sample.validate_email Sample.st_full 42%N
              Sample.null_title Sample.rename) as [Hc Ht].
  destruct Hc as (Hg & _ & _); [vm_compute; reflexivity|].
  destruct Ht as (_ & _ & Hd); [vm_compute; reflexivity|].
  split; [exact Hg | exact Hd].
Defined.

Lemma delete_course_then_gone_witness :
  get_course 7%N (delete_course 7%N Sample.st_full).2
  = Raise (HTTPException 404 "Course not found") ∧
  get_course 9%N (delete_course 7%N Sample.st_full).2 = get_course 9%N Sample.st_full.
Proof.
  destruct (delete_course_then_gone Sample.st_full 7%N Sample.coms4701_read)
    as (_ & Hg & _ & Ho & _).
  - apply (bool_decide_unpack _). vm_compute. reflexivity.
  - vm_compute. reflexivity.
  - split; [exact Hg | apply Ho; discriminate].
Defined.

Lemma delete_teacher_then_gone_witness :
  get_teacher 100%N (delete_teacher 100%N Sample.st_full).2
  = Raise (HTTPException 404 "Teacher not found") ∧
  get_teacher 101%N (delete_teacher 100%N Sample.st_full).2
  = get_teacher 101%N Sample.st_full.
Proof.
  destruct (delete_teacher_then_gone Sample.st_full 100%N Sample.ferguson_read)
    as (_ & Hg & _ & Ho & _).
  - apply (bool_decide_unpack _). vm_compute. reflexivity.
  - vm_compute. reflexivity.
  - split; [exact Hg | apply Ho; discriminate].
Defined.

Lemma update_course_frame_witness :
  dict_get 9%N (courses (update_course 7%N Sample.null_location Sample.st_full).2)
  = Some Sample.math1101_read.
Proof.
  destruct (update_course_frame Sample.st_full 7%N Sample.null_location)
    as (_ & Ho & _).
  rewrite (Ho 9%N); [vm_compute; reflexivity | discriminate].
Defined.

Lemma update_teacher_frame_witness :
  dict_get 101%N
    (teachers (update_teacher Sample.validate_email 100%N Sample.replace_courses
                 Sample.st_full).2)
  = Some Sample.ingrid_read.
Proof.
  destruct (update_teacher_frame Sample.validate_email Sample.st_full 100%N
              Sample.replace_courses) as (_ & Ho & _).
  rewrite (Ho 101%N); [vm_compute; reflexivity | discriminate].
Defined.

Lemma courses_invariant_kept_witness :
  courses_invariant (create_course Sample.math1101 Sample.st_teacher).2 ∧
  courses_invariant (delete_course 7%N Sample.st_teacher).2.
Proof.
  assert (courses_invariant Sample.st_teacher) as Hinv.
  { split; [apply (bool_decide_unpack _); vm_compute; reflexivity|].
    repeat constructor. }
  destruct (proj2 (courses_invariant_kept Sample.validate_email Sample.st_teacher) Hinv)
    as (Hc & _ & Hd & _).
  split; [apply Hc | apply Hd].
Defined.

Lemma teachers_invariant_kept_witness :
  teachers_invariant Sample.validate_email
    (create_teacher Sample.validate_email Sample.ingrid Sample.st_teacher).2 ∧
  teachers_invariant Sample.validate_email
    (update_teacher Sample.validate_email 100%N Sample.replace_courses
       Sample.st_teacher).2.
Proof.
  assert (teachers_invariant Sample.validate_email Sample.st_teacher) as Hinv.
  { split; [apply (bool_decide_unpack _); vm_compute; reflexivity|].
    repeat constructor. by exists "dff9@example.com". }
  destruct (proj2 (teachers_invariant_kept Sample.validate_email Sample.st_teacher) Hinv)
    as (Hc & Hu & _).
  split; [apply Hc | apply Hu].
Defined.

(** The class [\d] is wider than the ten ASCII digits: a course code and a
    UNI written with Arabic-Indic digits match the patterns. *)
Example patterns_accept_other_digits :
  code_points "COMS٤٧٠١" = Some [67; 79; 77; 83; 1636; 1639; 1632; 1633]%N ∧
  CourseCode "COMS٤٧٠١" = true ∧ UNIType "ab٣" = true ∧
  CourseCode "COMS4701" = true ∧ CourseCode "coms4701" = false ∧
  CourseCode "COMS470" = false ∧ CourseCode "COMS47011" = false.
Proof. repeat split; vm_compute; reflexivity. Qed.

Example UNIType_examples :
  UNIType "dff9" = true ∧ UNIType "ab1" = true ∧ UNIType "abc1" = true ∧
  UNIType "AB1" = false ∧ UNIType "abcd1" = false ∧ UNIType "ab12345" = false ∧
  UNIType "ab" = false.
Proof. repeat split. Qed.

Lemma empty_update_returns_stored_witness :
  update_course 7%N (CourseUpdate.mk None None None None ∅) Sample.st_full
  = (Ok Sample.coms4701_read, Sample.st_full) ∧
  update_teacher Sample.validate_email 100%N
    (TeacherUpdate.mk None None None None None None None None ∅) Sample.st_full
  = (Ok Sample.ferguson_read, Sample.st_full).
Proof.
  destruct (empty_update_returns_stored Sample.validate_email Sample.st_full 7%N)
    as [Hc _].
  destruct (empty_update_returns_stored Sample.validate_email Sample.st_full 100%N)
    as [_ Ht].
  split.
  - apply Hc; [vm_compute; reflexivity | reflexivity | reflexivity].
  - apply Ht; [vm_compute; reflexivity | vm_compute; reflexivity | reflexivity].
Defined.

Lemma create_teacher_then_get_witness :
  (create_teacher Sample.validate_email Sample.ferguson Sample.st_course).1
  = Ok Sample.ferguson_read ∧
  get_teacher 100%N (create_teacher Sample.validate_email Sample.ferguson
                       Sample.st_course).2
  = Ok Sample.ferguson_read.
Proof.
  destruct (create_teacher_then_get Sample.validate_email Sample.ferguson
              Sample.st_course) as (Hc & Hg & _); [vm_compute; reflexivity|].
  split; [exact Hc | exact Hg].
Defined.

Lemma listed_iff_readable_witness :
  (In Sample.math1101_read (list_courses None None None None Sample.st_full) ↔
   get_course 9%N Sample.st_full = Ok Sample.math1101_read) ∧
  (In Sample.ingrid_read
     (list_teachers None None None None None None None None None Sample.st_full) ↔
   get_teacher 101%N Sample.st_full = Ok Sample.ingrid_read).
Proof.
  destruct (listed_iff_readable Sample.validate_email Sample.st_full) as [Hc Ht].
  assert (courses_invariant Sample.st_full) as Hci.
  { split; [apply (bool_decide_unpack _); vm_compute; reflexivity|].
    rewrite (proj1 st_full_eq). repeat constructor. }
  assert (teachers_invariant Sample.validate_email Sample.st_full) as Hti.
  { split; [apply (bool_decide_unpack _); vm_compute; reflexivity|].
    rewrite (proj2 st_full_eq).
    apply Forall_cons; split.
    { do 3 (split; [reflexivity|]). by exists "dff9@example.com". }
    apply Forall_cons; split; [|apply Forall_nil_2].
    do 3 (split; [reflexivity|]). by exists "hi1234@columbia.edu". }
  split; [apply (Hc Hci Sample.math1101_read) | apply (Ht Hti Sample.ingrid_read)].
Defined.

Lemma update_course_twice_witness :
  update_course 7%N Sample.null_location
    (update_course 7%N (CourseUpdate.mk None (Some "Clouds") None None {[ "title" ]})
       Sample.st_course).2
  = update_course 7%N
      (CourseUpdate.mk None (Some "Clouds") None None {[ "title"; "location" ]})
      Sample.st_course.
Proof.
  pose proof (update_course_twice Sample.st_course
                (update_course 7%N
                   (CourseUpdate.mk None (Some "Clouds") None None {[ "title" ]})
                   Sample.st_course).2
                7%N (CourseUpdate.mk None (Some "Clouds") None None {[ "title" ]})
                Sample.null_location
                (CourseRead.mk 7%N "COMS4701" "Clouds" 3 (Some "501 Northwest Corner")
                   1000 1001))
    as H.
  vm_compute in H. vm_compute. apply H. reflexivity.
Defined.

Lemma update_teacher_builds_courses_witness :
  built_courses [Sample.huma1123] (world Sample.st_teacher)
  = ([CourseBase.mk 101%N "HUMA1123" "Music Humanities" 3 None],
     mkWorld (uuid4_values Sample.world0) 2 (utcnow_values Sample.world0) 4).
Proof.
  rewrite <- (update_teacher_builds_courses Sample.validate_email Sample.st_teacher
                (update_teacher Sample.validate_email 100%N Sample.replace_courses
                   Sample.st_teacher).2
                100%N Sample.replace_courses
                (TeacherRead.mk "dff9" "Donald" "Ferguson" "COMS" "dff9@example.com"
                   (Some "Professor") None
                   [CourseBase.mk 101%N "HUMA1123" "Music Humanities" 3 None]
                   100%N 1002 1003)
                [Sample.huma1123]).
  - vm_compute. reflexivity.
  - vm_compute. reflexivity.
  - vm_compute. reflexivity.
  - reflexivity.
Defined.
